(** * dulwich/client.py: client side of the git smart protocol

    A shallow embedding of [dulwich/client.py] (the report-status parser,
    the push and fetch conversations of [GitClient], and the URL dispatch
    [get_transport_and_path]) together with the properties checked on it.

    Python values are modelled as follows.
    - [str] is [string]; the string methods the module uses ([strip],
      [rstrip], [split], [startswith], [join], [in]) are defined in
      module [Py].
    - a [dict] from ref names to ids is a [gmap string string]; a [set] of
      ref names is a [gset string].  Python 2 leaves the iteration order of
      both unspecified; the model iterates in the order of [elements] and
      [map_to_list], and no property below depends on that order.
    - the capability lists held by a client are mutable Python lists, so
      they live in a store of list objects addressed by location:
      [list(x)] allocates a fresh object, [x.remove(..)] and [x.append(..)]
      update the object in place.
    - exceptions are values of type [exn]; a computation is a function
      from the world to a new world and either a value or a raised
      exception. *)

From Stdlib Require Import ZArith Ascii String List Bool Lia ZifyNat.
From stdpp Require Import base option list gmap strings fin_maps pretty.

Open Scope string_scope.
Open Scope list_scope.

(** ** Python string methods *)

Module Py.

Definition nl : ascii := "010"%char.
Definition nul : ascii := "000"%char.
Definition sp : ascii := " "%char.

(** [c in s] for a one-character needle. *)
Fixpoint contains (c : ascii) (s : string) : bool :=
  match s with
  | EmptyString => false
  | String a s' => if Ascii.eqb a c then true else contains c s'
  end.

(** [s.split(c, 1)]: [None] stands for the one-element result [[s]],
    [Some (a, b)] for the two-element result [[a, b]]. *)
Fixpoint split1 (c : ascii) (s : string) : option (string * string) :=
  match s with
  | EmptyString => None
  | String a s' =>
      if Ascii.eqb a c then Some (EmptyString, s')
      else match split1 c s' with
           | Some (l, r) => Some (String a l, r)
           | None => None
           end
  end.

(** [s.split(c)]: always at least one element. *)
Fixpoint split (c : ascii) (s : string) : list string :=
  match s with
  | EmptyString => [EmptyString]
  | String a s' =>
      if Ascii.eqb a c then EmptyString :: split c s'
      else match split c s' with
           | w :: ws => String a w :: ws
           | [] => [String a EmptyString]
           end
  end.

(** [s.rsplit(c, 1)], with the same convention as [split1]. *)
Fixpoint rsplit1 (c : ascii) (s : string) : option (string * string) :=
  match s with
  | EmptyString => None
  | String a s' =>
      match rsplit1 c s' with
      | Some (l, r) => Some (String a l, r)
      | None => if Ascii.eqb a c then Some (EmptyString, s') else None
      end
  end.

(** Strip the characters satisfying [p] from the right / the left. *)
Fixpoint rstrip_if (p : ascii -> bool) (s : string) : string :=
  match s with
  | EmptyString => EmptyString
  | String a s' =>
      match rstrip_if p s' with
      | EmptyString => if p a then EmptyString else String a EmptyString
      | r => String a r
      end
  end.

Fixpoint lstrip_if (p : ascii -> bool) (s : string) : string :=
  match s with
  | EmptyString => EmptyString
  | String a s' => if p a then lstrip_if p s' else s
  end.

(** The characters [str.strip()] removes: space, \t, \n, \v, \f, \r. *)
Definition is_whitespace (a : ascii) : bool :=
  let n := nat_of_ascii a in
  Nat.eqb n 32 || (Nat.leb 9 n && Nat.leb n 13).

(** [s.rstrip('\n')] *)
Definition rstrip_nl (s : string) : string := rstrip_if (Ascii.eqb nl) s.

(** [s.rstrip()] and [s.strip()] *)
Definition rstrip (s : string) : string := rstrip_if is_whitespace s.
Definition strip (s : string) : string :=
  rstrip_if is_whitespace (lstrip_if is_whitespace s).

(** [s.startswith(p)] *)
Fixpoint startswith (p s : string) : bool :=
  match p, s with
  | EmptyString, _ => true
  | String a p', String b s' => Ascii.eqb a b && startswith p' s'
  | String _ _, EmptyString => false
  end.

(** [sep.join(l)] *)
Definition join (sep : string) (l : list string) : string :=
  String.concat sep l.

(** [s.lower()] *)
Definition lower_char (a : ascii) : ascii :=
  let n := nat_of_ascii a in
  if Nat.leb 65 n && Nat.leb n 90 then ascii_of_nat (n + 32) else a.

Fixpoint lower (s : string) : string :=
  match s with
  | EmptyString => EmptyString
  | String a s' => String (lower_char a) (lower s')
  end.

(** [repr(s)] of a byte string, as ['%r'] formats it. *)
Definition hex_lower (n : nat) : ascii :=
  if Nat.ltb n 10 then ascii_of_nat (48 + n) else ascii_of_nat (87 + n).

Definition quote : ascii := "'"%char.
Definition dquote : ascii := ascii_of_nat 34.
Definition backslash : ascii := "\"%char.

Fixpoint repr_body (q : ascii) (s : string) : string :=
  match s with
  | EmptyString => EmptyString
  | String a s' =>
      let n := nat_of_ascii a in
      let r := repr_body q s' in
      if Ascii.eqb a q || Ascii.eqb a backslash then String backslash (String a r)
      else if Nat.eqb n 9 then String backslash (String "t" r)
      else if Nat.eqb n 10 then String backslash (String "n" r)
      else if Nat.eqb n 13 then String backslash (String "r" r)
      else if Nat.ltb n 32 || Nat.leb 127 n then
        String backslash (String "x" (String (hex_lower (n / 16))
                                        (String (hex_lower (n mod 16)) r)))
      else String a r
  end.

Definition repr (s : string) : string :=
  let q := if contains quote s && negb (contains dquote s) then dquote else quote in
  String q (repr_body q s +:+ String q EmptyString).

(** Truthiness of a string: the empty string is false. *)
Definition truthy (s : string) : bool :=
  match s with EmptyString => false | _ => true end.

End Py.

(** ** Exceptions, the world and the computation monad *)

Inductive exn : Type :=
  | GitProtocolError (msg : string)
  | SendPackError (msg : string)
  | UpdateRefsError (msg : string) (ref_status : gmap string string)
  | AssertionError (msg : string)
  | Exception (msg : string)
  | ValueError (msg : string)
  | IndexError (msg : string)
  | AttributeError (msg : string)
  | TypeError (msg : string).

Inductive result (A : Type) : Type :=
  | Ok (a : A)
  | Raise (e : exn).
Arguments Ok {A} a.
Arguments Raise {A} e.

(** What the client hands to the protocol object, call by call:
    [write_pkt_line(payload)], [write_pkt_line(None)], and the pack
    written through [write_file()]. *)
Inductive wevent : Type :=
  | WPkt (payload : string)
  | WFlush
  | WPack (objects : list string).

Definition loc := nat.

(** The world a conversation runs in.
    - [heap]: the store of Python list objects (capability lists);
    - [inp]: the bytes the server sends, not yet read;
    - [out]: the writes made so far, oldest first;
    - [ready]: the answers the successive [can_read()] polls will give
      (the probe depends on timing, so it is an oracle; [false] once the
      list is used up);
    - [gw_next]: the ids the graph walker's [next()] will yield, then
      [None]; [gw_acked]: the ids [ack] was called with;
    - [sink]: the chunks [pack_data] was called with;
    - [prog]: the chunks [progress] was called with. *)
Record world : Type := World {
  heap : gmap loc (list string);
  inp : string;
  out : list wevent;
  ready : list bool;
  gw_next : list string;
  gw_acked : list string;
  sink : list string;
  prog : list string
}.

Definition set_heap (h : gmap loc (list string)) (w : world) : world :=
  World h (inp w) (out w) (ready w) (gw_next w) (gw_acked w) (sink w) (prog w).
Definition set_inp (i : string) (w : world) : world :=
  World (heap w) i (out w) (ready w) (gw_next w) (gw_acked w) (sink w) (prog w).
Definition set_out (o : list wevent) (w : world) : world :=
  World (heap w) (inp w) o (ready w) (gw_next w) (gw_acked w) (sink w) (prog w).
Definition set_ready (r : list bool) (w : world) : world :=
  World (heap w) (inp w) (out w) r (gw_next w) (gw_acked w) (sink w) (prog w).
Definition set_gw_next (g : list string) (w : world) : world :=
  World (heap w) (inp w) (out w) (ready w) g (gw_acked w) (sink w) (prog w).
Definition set_gw_acked (g : list string) (w : world) : world :=
  World (heap w) (inp w) (out w) (ready w) (gw_next w) g (sink w) (prog w).
Definition set_sink (s : list string) (w : world) : world :=
  World (heap w) (inp w) (out w) (ready w) (gw_next w) (gw_acked w) s (prog w).
Definition set_prog (p : list string) (w : world) : world :=
  World (heap w) (inp w) (out w) (ready w) (gw_next w) (gw_acked w) (sink w) p.

(** A computation: runs in a world, gives the world it leaves behind and
    either its value or the exception it raised.  The world is kept when an
    exception is raised: what was written stays written. *)
Definition M (A : Type) : Type := world -> world * result A.

Definition run {A} (m : M A) (w : world) : world * result A := m w.

Definition M_ret {A} (a : A) : M A := fun w => (w, Ok a).
Definition M_bind {A B} (k : A -> M B) (m : M A) : M B :=
  fun w => match m w with
           | (w', Ok a) => k a w'
           | (w', Raise e) => (w', Raise e)
           end.
Definition raise {A} (e : exn) : M A := fun w => (w, Raise e).

#[global] Instance M_mret : MRet M := @M_ret.
#[global] Instance M_mbind : MBind M := @M_bind.

Definition get_world : M world := fun w => (w, Ok w).
Definition modify (f : world -> world) : M unit := fun w => (f w, Ok tt).

(** The caller's callbacks: each call is recorded in the world. *)
Definition pack_data (chunk : string) : M unit :=
  modify (fun w => set_sink (sink w ++ [chunk]) w).
Definition progress_cb (chunk : string) : M unit :=
  modify (fun w => set_prog (prog w ++ [chunk]) w).
Definition graph_walker_ack (sha : string) : M unit :=
  modify (fun w => set_gw_acked (gw_acked w ++ [sha]) w).
Definition graph_walker_next : M (option string) :=
  fun w => match gw_next w with
           | [] => (w, Ok None)
           | h :: t => (set_gw_next t w, Ok (Some h))
           end.
Definition can_read : M bool :=
  fun w => match ready w with
           | [] => (w, Ok false)
           | b :: t => (set_ready t w, Ok b)
           end.

(** ** The store of list objects *)

(** [list(xs)]: a new list object. *)
Definition list_new (xs : list string) : M loc :=
  fun w => let l := fresh (dom (heap w)) in
           (set_heap (<[l := xs]> (heap w)) w, Ok l).

(** Reading a list object (iteration, [join], [in]). *)
Definition list_get (l : loc) : M (list string) :=
  fun w => match heap w !! l with
           | Some xs => (w, Ok xs)
           | None => (w, Raise (AttributeError "no such list object"))
           end.

(** [list(x)] for a list object [x]: a copy in a new object. *)
Definition list_copy (l : loc) : M loc :=
  xs ← list_get l; list_new xs.

(** [x.append(v)] *)
Definition list_append (l : loc) (v : string) : M unit :=
  xs ← list_get l;
  modify (fun w => set_heap (<[l := xs ++ [v]]> (heap w)) w).

(** Python's [list.remove]: drops the first occurrence. *)
Fixpoint remove_first (v : string) (xs : list string) : option (list string) :=
  match xs with
  | [] => None
  | x :: xs' =>
      if String.eqb x v then Some xs'
      else match remove_first v xs' with
           | Some r => Some (x :: r)
           | None => None
           end
  end.

(** [x.remove(v)]: in place; [ValueError] when [v] is not in the list. *)
Definition list_remove (l : loc) (v : string) : M unit :=
  xs ← list_get l;
  match remove_first v xs with
  | Some xs' => modify (fun w => set_heap (<[l := xs']> (heap w)) w)
  | None => raise (ValueError "list.remove(x): x not in list")
  end.

(** [v in xs] on lists of strings. *)
Definition mem (v : string) (xs : list string) : bool :=
  existsb (String.eqb v) xs.

(** ** The protocol object (pkt-line framer) *)

(** [dulwich.protocol] is not part of the module under study; the client
    uses its [Protocol] object through [read_pkt_line], [read_pkt_seq],
    [read], [write_pkt_line] and [write_file], and its [PktLineParser],
    [extract_capabilities], [ZERO_SHA] and [TCP_GIT_PORT]. *)

Module Protocol.

Definition hex_digit (a : ascii) : option nat :=
  let n := nat_of_ascii a in
  if Nat.leb 48 n && Nat.leb n 57 then Some (n - 48)
  else if Nat.leb 97 n && Nat.leb n 102 then Some (n - 87)
  else if Nat.leb 65 n && Nat.leb n 70 then Some (n - 55)
  else None.

Definition hex4 (a b c d : ascii) : option nat :=
  match hex_digit a, hex_digit b, hex_digit c, hex_digit d with
  | Some x, Some y, Some z, Some t => Some (((x * 16 + y) * 16 + z) * 16 + t)
  | _, _, _, _ => None
  end.

Fixpoint take (n : nat) (s : string) : string :=
  match n, s with
  | S n', String a s' => String a (take n' s')
  | _, _ => EmptyString
  end.

Fixpoint drop (n : nat) (s : string) : string :=
  match n, s with
  | S n', String a s' => drop n' s'
  | _, _ => s
  end.

(** One frame off the front of a byte string: [None] when the bytes do
    not start with a complete, well-formed frame; otherwise the payload
    ([None] for the flush packet) and the bytes after the frame. *)
Definition decode_frame (s : string) : option (option string * string) :=
  match s with
  | String a (String b (String c (String d rest))) =>
      match hex4 a b c d with
      | Some 0 => Some (None, rest)
      | Some n =>
          if Nat.ltb n 4 then None
          else if Nat.ltb (String.length rest) (n - 4) then None
          else Some (Some (take (n - 4) rest), drop (n - 4) rest)
      | None => None
      end
  | _ => None
  end.

(** Modelled from the spec: [Protocol.read_pkt_line] (section 4.A,
    read_packet).  Four hex digits give the length L; L = 0 is the flush
    packet, read as [None]; otherwise the next L - 4 bytes are the
    payload.  A prefix that is not hex, a payload shorter than declared
    or the end of the stream is a protocol error. *)
Definition read_pkt_line : M (option string) :=
  fun w => match decode_frame (inp w) with
           | Some (pkt, rest) => (set_inp rest w, Ok pkt)
           | None => (w, Raise (GitProtocolError "malformed pkt-line or end of stream"))
           end.

(** Modelled from the spec: [for pkt in proto.read_pkt_seq(): body]
    (section 4.A, read_sequence).  Payloads are handed to the body one
    at a time, as the generator yields them, until a flush packet, which
    is consumed and ends the loop.  [st] is the state the body updates
    (the local variables of the enclosing function).  The counter [n]
    bounds the number of iterations; a payload takes at least four
    bytes of input, so the number of input bytes is always enough
    (see [for_pkt_seq_fuel]). *)
Fixpoint for_pkt_seq {St : Type} (n : nat) (body : string -> St -> M St)
    (st : St) : M St :=
  pkt ← read_pkt_line;
  match pkt with
  | None => mret st
  | Some p =>
      st' ← body p st;
      match n with
      | O => mret st'
      | S n' => for_pkt_seq n' body st'
      end
  end.

Definition read_pkt_seq_for {St : Type} (body : string -> St -> M St)
    (st : St) : M St :=
  w ← get_world; for_pkt_seq (String.length (inp w)) body st.

(** Modelled from the spec: [Protocol.read()], all remaining bytes up
    to the end of the stream. *)
Definition read : M string :=
  fun w => (set_inp EmptyString w, Ok (inp w)).

(** [Protocol.write_pkt_line(payload)]; [None] writes the flush packet. *)
Definition write_pkt_line (payload : option string) : M unit :=
  modify (fun w => set_out (out w ++ [match payload with
                                      | Some p => WPkt p
                                      | None => WFlush
                                      end]) w).

(** [write_pack_objects(proto.write_file(), objects)]: the pack encoder
    is out of scope; the write of the encoded pack is recorded as one
    event carrying the objects. *)
Definition write_pack (objects : list string) : M unit :=
  modify (fun w => set_out (out w ++ [WPack objects]) w).

(** Modelled from the spec: [PktLineParser(handle_pkt).parse(data)]
    (section 4.F step 6: channel 1 carries report-status pkt-lines).
    The data is appended to the parser's read-ahead buffer [buf]; every
    complete frame at the front of the buffer is handed to [handle_pkt]
    ([None] for a flush) and what is left stays in the buffer.  The
    counter bounds the frames taken out of the buffer; its length is
    always enough. *)
Fixpoint parse_frames {St : Type} (n : nat)
    (handle_pkt : option string -> St -> M St)
    (buf : string) (st : St) : M (string * St) :=
  match n with
  | O => mret (buf, st)
  | S n' =>
      match buf with
      | String a (String b (String c (String d rest))) =>
          match hex4 a b c d with
          | None => raise (GitProtocolError "malformed pkt-line")
          | Some 0 =>
              st' ← handle_pkt None st; parse_frames n' handle_pkt rest st'
          | Some size =>
              if Nat.ltb size 4 then raise (GitProtocolError "malformed pkt-line")
              else if Nat.leb (size - 4) (String.length rest) then
                st' ← handle_pkt (Some (take (size - 4) rest)) st;
                parse_frames n' handle_pkt (drop (size - 4) rest) st'
              else mret (buf, st)
          end
      | _ => mret (buf, st)
      end
  end.

Definition PktLineParser_parse {St : Type}
    (handle_pkt : option string -> St -> M St)
    (data : string) (bs : string * St) : M (string * St) :=
  let buf := fst bs +:+ data in
  parse_frames (String.length buf) handle_pkt buf (snd bs).

(** Modelled from the spec: [extract_capabilities] (section 4.C).  The
    capability list is the suffix of the line after a NUL byte, its
    tokens separated by spaces; without a NUL the list is empty. *)
Definition extract_capabilities (text : string) : string * list string :=
  match Py.split1 Py.nul text with
  | None => (text, [])
  | Some (t, caps) => (t, Py.split Py.sp (Py.strip caps))
  end.

(** Modelled from the spec: [ZERO_SHA], the all-zero object id. *)
Definition ZERO_SHA : string := "0000000000000000000000000000000000000000".

(** [TCP_GIT_PORT]: the registered port of the git protocol. *)
Definition TCP_GIT_PORT : Z := 9418.

(** The frame [write_pkt_line] puts on the wire (section 4.A,
    write_packet): printf("%04x", len(payload)+4), then the payload. *)
Definition hex_char (n : nat) : ascii :=
  if Nat.ltb n 10 then ascii_of_nat (48 + n) else ascii_of_nat (87 + n).

Definition pkt_line (payload : string) : string :=
  let n := String.length payload + 4 in
  String (hex_char (n / 4096 mod 16)) (String (hex_char (n / 256 mod 16))
    (String (hex_char (n / 16 mod 16)) (String (hex_char (n mod 16)) payload))).

Definition flush_pkt : string := "0000".

End Protocol.

(** ** ReportStatusParser *)

Record ReportStatusParser : Type := mkParser {
  _done : bool;
  _pack_status : option string;
  _ref_status_ok : bool;
  _ref_statuses : list string
}.

(** [ReportStatusParser.__init__] *)
Definition ReportStatusParser_init : ReportStatusParser :=
  mkParser false None true [].

(** The loop of [check] over [self._ref_statuses]: the dict [ref_status]
    and the set [ok] it builds. *)
Fixpoint check_loop (statuses : list string)
    (ref_status : gmap string string) (ok : gset string)
    : gmap string string * gset string :=
  match statuses with
  | [] => (ref_status, ok)
  | status :: rest =>
      match Py.split1 Py.sp status with
      | None => check_loop rest ref_status ok
      | Some (status, ref) =>
          if String.eqb status "ng" then
            match Py.split1 Py.sp ref with
            | Some (ref, status) =>
                check_loop rest (<[ref := status]> ref_status) ok
            | None => check_loop rest (<[ref := status]> ref_status) ok
            end
          else check_loop rest (<[ref := status]> ref_status) ({[ref]} ∪ ok)
      end
  end.

(** [[ref for ref in ref_status if ref not in ok]] *)
Definition failed_refs (ref_status : gmap string string) (ok : gset string)
    : list string :=
  filter (fun ref => ref ∉ ok) (map_to_list ref_status).*1.

(** The second statement of [check]: [if not self._ref_status_ok: ...]. *)
Definition check_ref_statuses (self : ReportStatusParser) : result unit :=
  if negb (_ref_status_ok self) then
    let '(ref_status, ok) := check_loop (_ref_statuses self) ∅ ∅ in
    Raise (UpdateRefsError
             (Py.join ", " (failed_refs ref_status ok) +:+ " failed to update")
             ref_status)
  else Ok tt.

(** [ReportStatusParser.check] *)
Definition check (self : ReportStatusParser) : result unit :=
  match _pack_status self with
  | Some st =>
      if negb (String.eqb st "unpack ok") then Raise (SendPackError st)
      else check_ref_statuses self
  | None => check_ref_statuses self
  end.

(** [ReportStatusParser.handle_packet]; the parser object is updated in
    place, so the new state of the object is the result. *)
Definition handle_packet (pkt : option string) (self : ReportStatusParser)
    : result ReportStatusParser :=
  if _done self then
    Raise (GitProtocolError "received more data after status report")
  else
    match pkt with
    | None =>
        Ok (mkParser true (_pack_status self) (_ref_status_ok self)
              (_ref_statuses self))
    | Some pkt =>
        match _pack_status self with
        | None =>
            Ok (mkParser (_done self) (Some (Py.strip pkt))
                  (_ref_status_ok self) (_ref_statuses self))
        | Some _ =>
            let ref_status := Py.strip pkt in
            Ok (mkParser (_done self) (_pack_status self)
                  (if negb (Py.startswith "ok " ref_status) then false
                   else _ref_status_ok self)
                  (_ref_statuses self ++ [ref_status]))
        end
    end.

(** Feeding a parser a sequence of packets, in order. *)
Fixpoint handle_packets (pkts : list (option string))
    (self : ReportStatusParser) : result ReportStatusParser :=
  match pkts with
  | [] => Ok self
  | pkt :: rest =>
      match handle_packet pkt self with
      | Ok self' => handle_packets rest self'
      | Raise e => Raise e
      end
  end.

Definition lift {A} (r : result A) : M A := fun w => (w, r).

(** ** GitClient *)

Definition COMMON_CAPABILITIES : list string := ["ofs-delta"; "side-band-64k"].
Definition FETCH_CAPABILITIES : list string := ["multi_ack"] ++ COMMON_CAPABILITIES.
Definition SEND_CAPABILITIES : list string := ["report-status"] ++ COMMON_CAPABILITIES.

(** The concrete class of a client object and what its constructor
    stored: [TCPGitClient(host, port)], [SSHGitClient(host, port,
    username)], [SubprocessGitClient()]. *)
Inductive client_class : Type :=
  | TCPGitClient (host : option string) (port : Z)
  | SSHGitClient (host : option string) (port : option Z) (username : option string)
  | SubprocessGitClient.

(** A client object: its class and its two capability lists, which are
    list objects in the store. *)
Record GitClient : Type := mkClient {
  class : client_class;
  _fetch_capabilities : loc;
  _send_capabilities : loc
}.

(** The name of the class of a client object, as an [AttributeError] on
    the object prints it. *)
Definition class_name (cls : client_class) : string :=
  match cls with
  | TCPGitClient _ _ => "TCPGitClient"
  | SSHGitClient _ _ _ => "SSHGitClient"
  | SubprocessGitClient => "SubprocessGitClient"
  end.

(** [GitClient.__init__] *)
Definition GitClient_init (cls : client_class) (thin_packs : bool) : M GitClient :=
  fetch_caps ← list_new FETCH_CAPABILITIES;
  send_caps ← list_new SEND_CAPABILITIES;
  (if thin_packs then list_append fetch_caps "thin-pack" else mret tt);;
  mret (mkClient cls fetch_caps send_caps).

(** [TCPGitClient.__init__]: the default port when none is given. *)
Definition TCPGitClient_init (host : option string) (port : option Z) : M GitClient :=
  GitClient_init (TCPGitClient host (default Protocol.TCP_GIT_PORT port)) true.

Definition SSHGitClient_init (host : option string) (port : option Z)
    (username : option string) : M GitClient :=
  GitClient_init (SSHGitClient host port username) true.

Definition SubprocessGitClient_init : M GitClient :=
  GitClient_init SubprocessGitClient true.

(** [GitClient._read_refs]; the loop state is [(refs, server_capabilities)]. *)
Definition _read_refs : M (gmap string string * option (list string)) :=
  Protocol.read_pkt_seq_for
    (fun pkt '(refs, server_capabilities) =>
       match Py.split1 Py.sp (Py.rstrip_nl pkt) with
       | None => raise (ValueError "need more than 1 value to unpack")
       | Some (sha, ref) =>
           if String.eqb sha "ERR" then raise (GitProtocolError ref)
           else
             match server_capabilities with
             | None =>
                 let '(ref, caps) := Protocol.extract_capabilities ref in
                 mret (<[ref := sha]> refs, Some caps)
             | Some _ => mret (<[ref := sha]> refs, server_capabilities)
             end
       end)
    (∅, None).

(** [x in server_capabilities], where [server_capabilities] may be [None]. *)
Definition in_server_capabilities (x : string) (caps : option (list string)) : M bool :=
  match caps with
  | Some cs => mret (mem x cs)
  | None => raise (TypeError "argument of type 'NoneType' is not iterable")
  end.

(** [GitClient._read_side_band64k_data]; [channel_callbacks] maps a
    channel to its callback, [None] for a callback that discards the
    data.  [st] is the state the callbacks update. *)
Definition _read_side_band64k_data {St : Type}
    (channel_callbacks : gmap nat (option (string -> St -> M St)))
    (st : St) : M St :=
  Protocol.read_pkt_seq_for
    (fun pkt st =>
       match pkt with
       | EmptyString => raise (IndexError "string index out of range")
       | String c pkt =>
           let channel := nat_of_ascii c in
           match channel_callbacks !! channel with
           | None => raise (AssertionError ("Invalid sideband channel " +:+ pretty channel))
           | Some None => mret st
           | Some (Some cb) => cb pkt st
           end
       end)
    st.

(** [report_status_parser.handle_packet(pkt)], where
    [report_status_parser] may be [None]. *)
Definition parser_handle_packet (pkt : option string)
    (report_status_parser : option ReportStatusParser)
    : M (option ReportStatusParser) :=
  match report_status_parser with
  | None => raise (AttributeError "'NoneType' object has no attribute 'handle_packet'")
  | Some p => p' ← lift (handle_packet pkt p); mret (Some p')
  end.

(** The [progress] argument: [true] when the caller supplied a callback
    (its calls are recorded in the world), [false] for [None]. *)
Definition progress_callback {St : Type} (progress : bool)
    : option (string -> St -> M St) :=
  if progress then Some (fun pkt st => progress_cb pkt;; mret st) else None.

(** *** send_pack *)

Section SendPack.

Variable self : GitClient.
Variable determine_wants : gmap string string -> gmap string string.
Variable generate_pack_contents : list string -> list string -> list string.
Variable progress : bool.

(** The update line ['%s %s %s' % (old_sha1, new_sha1, refname)]. *)
Definition update_line (old_sha1 new_sha1 refname : string) : string :=
  old_sha1 +:+ " " +:+ new_sha1 +:+ " " +:+ refname.

(** The [for refname in set(new_refs.keys() + old_refs.keys())] loop of
    [send_pack], over the ref names in the order the set yields them;
    the loop state is [sent_capabilities] and [want]. *)
Fixpoint update_loop (old_refs new_refs : gmap string string)
    (have : list string) (negotiated_capabilities : loc)
    (refnames : list string) (sent_capabilities : bool)
    (want : list string) : M (list string) :=
  match refnames with
  | [] => mret want
  | refname :: rest =>
      let old_sha1 := default Protocol.ZERO_SHA (old_refs !! refname) in
      let new_sha1 := default Protocol.ZERO_SHA (new_refs !! refname) in
      sent_capabilities ←
        (if negb (String.eqb old_sha1 new_sha1) then
           if sent_capabilities then
             Protocol.write_pkt_line
               (Some (update_line old_sha1 new_sha1 refname));;
             mret sent_capabilities
           else
             caps ← list_get negotiated_capabilities;
             Protocol.write_pkt_line
               (Some (update_line old_sha1 new_sha1 refname
                      +:+ String Py.nul (Py.join " " caps)));;
             mret true
         else mret sent_capabilities);
      let want :=
        if negb (mem new_sha1 have) && negb (String.eqb new_sha1 Protocol.ZERO_SHA)
        then want ++ [new_sha1] else want in
      update_loop old_refs new_refs have negotiated_capabilities rest
        sent_capabilities want
  end.

(** [send_pack] after the pack has been written: the response is read
    and checked. *)
Definition send_pack_response (new_refs : gmap string string)
    (negotiated_capabilities : loc) : M (gmap string string) :=
  negotiated ← list_get negotiated_capabilities;
  let report_status_parser :=
    if mem "report-status" negotiated then Some ReportStatusParser_init
    else None in
  report_status_parser ←
    (if mem "side-band-64k" negotiated then
       let channel_callbacks : gmap nat (option (string -> _ -> M _)) :=
         {[ 2 := progress_callback progress ]} in
       let channel_callbacks :=
         if mem "report-status" negotiated then
           <[ 1 := Some (Protocol.PktLineParser_parse parser_handle_packet) ]>
             channel_callbacks
         else channel_callbacks in
       st ← _read_side_band64k_data channel_callbacks
              (EmptyString, report_status_parser);
       mret (snd st)
     else
       (* [if 'report-status':] a non-empty string literal, always true *)
       if Py.truthy "report-status" then
         Protocol.read_pkt_seq_for
           (fun pkt parser => parser_handle_packet (Some pkt) parser)
           report_status_parser
       else mret report_status_parser);
  match report_status_parser with
  | Some parser => lift (check parser)
  | None => mret tt
  end;;
  (* wait for EOF before returning *)
  data ← Protocol.read;
  if Py.truthy data then
    raise (SendPackError ("Unexpected response " +:+ Py.repr data))
  else mret new_refs.

(** [GitClient.send_pack], after [self._connect('receive-pack', path)]
    has given the protocol object the world stands for. *)
Definition send_pack : M (gmap string string) :=
  '(old_refs, server_capabilities) ← _read_refs;
  negotiated_capabilities ← list_copy (_send_capabilities self);
  advertised ← in_server_capabilities "report-status" server_capabilities;
  (if negb advertised then list_remove negotiated_capabilities "report-status"
   else mret tt);;
  let new_refs := determine_wants old_refs in
  if bool_decide (new_refs = ∅) then
    Protocol.write_pkt_line None;;
    mret ∅
  else
    let have :=
      filter (fun x => x ≠ Protocol.ZERO_SHA) (map_to_list old_refs).*2 in
    want ← update_loop old_refs new_refs have negotiated_capabilities
              (elements (dom new_refs ∪ dom old_refs)) false [];
    Protocol.write_pkt_line None;;
    match want with
    | [] => mret new_refs
    | _ =>
        let objects := generate_pack_contents have want in
        Protocol.write_pack objects;;
        send_pack_response new_refs negotiated_capabilities
    end.

End SendPack.

(** *** fetch_pack *)

Section FetchPack.

Variable self : GitClient.
Variable determine_wants : gmap string string -> list string.
Variable progress : bool.

(** What the have loop does with a pending payload (the body of
    [if can_read():]). *)
Definition have_loop_poll : M unit :=
  pkt ← Protocol.read_pkt_line;
  match pkt with
  | None => raise (AttributeError "'NoneType' object has no attribute 'rstrip'")
  | Some pkt =>
      let parts : list string := Py.split Py.sp (Py.rstrip_nl pkt) in
      if bool_decide (parts !! 0 = Some "ACK") then
        match parts !! 1 with
        | None => raise (IndexError "list index out of range")
        | Some sha =>
            graph_walker_ack sha;;
            match parts !! 2 with
            | None => raise (IndexError "list index out of range")
            | Some word =>
                if String.eqb word "continue" then mret tt
                else raise (AssertionError "")
            end
        end
      else mret tt
  end.

(** The [while have:] loop.  Each iteration takes one id from the graph
    walker, so the number of ids it still holds bounds the iterations. *)
Fixpoint have_loop (n : nat) (have : option string) : M unit :=
  match have with
  | None => mret tt
  | Some h =>
      if Py.truthy h then
        Protocol.write_pkt_line (Some ("have " +:+ h +:+ String Py.nl EmptyString));;
        readable ← can_read;
        (if readable : bool then have_loop_poll else mret tt);;
        have ← graph_walker_next;
        match n with
        | O => mret tt
        | S n' => have_loop n' have
        end
      else mret tt
  end.

(** The [while pkt:] loop after [done]; [pkt] is the payload just read. *)
Fixpoint ack_loop (n : nat) (pkt : option string) : M unit :=
  match pkt with
  | None => mret tt
  | Some p =>
      if Py.truthy p then
        let parts : list string := Py.split Py.sp (Py.rstrip_nl p) in
        (if bool_decide (parts !! 0 = Some "ACK") then
           match Py.split Py.sp p !! 1 with
           | None => raise (IndexError "list index out of range")
           | Some sha => graph_walker_ack sha
           end
         else mret tt);;
        if Nat.ltb (length parts) 3
           || negb (bool_decide (parts !! 2 = Some "continue")) then mret tt
        else
          pkt ← Protocol.read_pkt_line;
          match n with
          | O => mret tt
          | S n' => ack_loop n' pkt
          end
      else mret tt
  end.

(** [GitClient.fetch_pack], after [self._connect('upload-pack', path)]. *)
Definition fetch_pack : M (gmap string string) :=
  '(refs, server_capabilities) ← _read_refs;
  negotiated_capabilities ← list_copy (_fetch_capabilities self);
  let wants := determine_wants refs in
  match wants with
  | [] =>
      Protocol.write_pkt_line None;;
      mret refs
  | want0 :: wants_rest =>
      (* [assert isinstance(wants, list) and type(wants[0]) == str]
         holds by the type of [wants] *)
      negotiated ← list_get negotiated_capabilities;
      Protocol.write_pkt_line
        (Some ("want " +:+ want0 +:+ " " +:+ Py.join " " negotiated
               +:+ String Py.nl EmptyString));;
      mapM (fun want =>
              Protocol.write_pkt_line
                (Some ("want " +:+ want +:+ String Py.nl EmptyString)))
           wants_rest;;
      Protocol.write_pkt_line None;;
      have ← graph_walker_next;
      w ← get_world;
      have_loop (length (gw_next w)) have;;
      Protocol.write_pkt_line (Some ("done" +:+ String Py.nl EmptyString));;
      pkt ← Protocol.read_pkt_line;
      w ← get_world;
      ack_loop (String.length (inp w)) pkt;;
      negotiated ← list_get negotiated_capabilities;
      (if mem "side-band-64k" negotiated then
         let channel_callbacks : gmap nat (option (string -> unit -> M unit)) :=
           {[ 1 := Some (fun pkt st => pack_data pkt);
              2 := progress_callback progress ]} in
         _read_side_band64k_data channel_callbacks tt;;
         (* wait for EOF before returning *)
         data ← Protocol.read;
         if Py.truthy data then
           raise (Exception ("Unexpected response " +:+ Py.repr data))
         else mret tt
       else
         (* [pack_data(self.read())]: no class of client objects
            defines [read] *)
         raise (AttributeError ("'" +:+ class_name (class self)
                                +:+ "' object has no attribute 'read'")));;
      mret refs
  end.

End FetchPack.

(** ** URL dispatch *)

(** [urlparse] is Python's standard library.  The model follows
    [urlparse.urlparse] of the Python 2.6 line the module targets, with
    the scheme tables of that library; the loop at the top of the module
    makes sure [git] and [git+ssh] are in [uses_netloc]. *)
Module urlparse.

Definition uses_netloc : list string :=
  ["ftp"; "http"; "gopher"; "nntp"; "telnet"; "imap"; "wais"; "file";
   "mms"; "https"; "shttp"; "snews"; "prospero"; "rtsp"; "rtspu"; "rsync";
   ""; "svn"; "svn+ssh"; "sftp"; "nfs"]
  ++ ["git"; "git+ssh"].
Definition uses_params : list string :=
  ["ftp"; "hdl"; "prospero"; "http"; "imap"; "https"; "shttp"; "rtsp";
   "rtspu"; "sip"; "sips"; "mms"; ""; "sftp"].
Definition uses_query : list string :=
  ["http"; "wais"; "imap"; "https"; "shttp"; "mms"; "gopher"; "rtsp";
   "rtspu"; "sip"; "sips"; ""].
Definition uses_fragment : list string :=
  ["ftp"; "hdl"; "http"; "gopher"; "news"; "nntp"; "wais"; "https";
   "shttp"; "snews"; "file"; "prospero"; ""].

(** Letters, digits and [+-.]. *)
Definition scheme_char (a : ascii) : bool :=
  let n := nat_of_ascii a in
  (Nat.leb 97 n && Nat.leb n 122) || (Nat.leb 65 n && Nat.leb n 90)
  || (Nat.leb 48 n && Nat.leb n 57)
  || Nat.eqb n 43 || Nat.eqb n 45 || Nat.eqb n 46.

Fixpoint all_chars (p : ascii -> bool) (s : string) : bool :=
  match s with
  | EmptyString => true
  | String a s' => p a && all_chars p s'
  end.

Record ParseResult : Type := mkParse {
  scheme : string;
  netloc : string;
  path : string;
  params : string;
  query : string;
  fragment : string
}.

(** [_splitnetloc(url, 2)]: the part after the two slashes up to the
    first of [/], [?], [#], and the rest. *)
Fixpoint span_netloc (s : string) : string * string :=
  match s with
  | EmptyString => (EmptyString, EmptyString)
  | String a s' =>
      if Ascii.eqb a "/" || Ascii.eqb a "?" || Ascii.eqb a "#" then (EmptyString, s)
      else let '(n, r) := span_netloc s' in (String a n, r)
  end.

(** [_splitparams(url)]: splits at the first [;] of the last path
    segment. *)
Definition _splitparams (url : string) : string * string :=
  match Py.rsplit1 "/" url with
  | Some (dir, last) =>
      match Py.split1 ";" last with
      | Some (l, r) => (dir +:+ "/" +:+ l, r)
      | None => (url, EmptyString)
      end
  | None =>
      match Py.split1 ";" url with
      | Some (l, r) => (l, r)
      | None => (url, EmptyString)
      end
  end.

Definition urlparse (url : string) : ParseResult :=
  (* urlsplit *)
  let '(scheme, url) :=
    match Py.split1 ":" url with
    | Some (String a pre, rest) =>
        if all_chars scheme_char (String a pre) then
          (Py.lower (String a pre), rest)
        else (EmptyString, url)
    | _ => (EmptyString, url)
    end in
  let '(netloc, url) :=
    if mem scheme uses_netloc && Py.startswith "//" url
    then span_netloc (Protocol.drop 2 url)
    else (EmptyString, url) in
  let '(url, fragment) :=
    if mem scheme uses_fragment then
      match Py.split1 "#" url with
      | Some (u, f) => (u, f)
      | None => (url, EmptyString)
      end
    else (url, EmptyString) in
  let '(url, query) :=
    if mem scheme uses_query then
      match Py.split1 "?" url with
      | Some (u, q) => (u, q)
      | None => (url, EmptyString)
      end
    else (url, EmptyString) in
  (* urlparse *)
  let '(url, params) :=
    if mem scheme uses_params && Py.contains ";" url then _splitparams url
    else (url, EmptyString) in
  mkParse scheme netloc url params query fragment.

(** The part of [netloc] after the last [@]. *)
Definition hostinfo (r : ParseResult) : string :=
  match Py.rsplit1 "@" (netloc r) with
  | Some (_, h) => h
  | None => netloc r
  end.

(** [parsed.username] *)
Definition username (r : ParseResult) : option string :=
  match Py.rsplit1 "@" (netloc r) with
  | Some (userinfo, _) =>
      match Py.split1 ":" userinfo with
      | Some (u, _) => Some u
      | None => Some userinfo
      end
  | None => None
  end.

(** [parsed.hostname]: lower-cased, [None] when empty. *)
Definition hostname (r : ParseResult) : option string :=
  let h := match Py.split1 ":" (hostinfo r) with
           | Some (h, _) => h
           | None => hostinfo r
           end in
  if Py.truthy h then Some (Py.lower h) else None.

Fixpoint digits_value (s : string) (acc : Z) : option Z :=
  match s with
  | EmptyString => Some acc
  | String a s' =>
      let n := nat_of_ascii a in
      if Nat.leb 48 n && Nat.leb n 57
      then digits_value s' (acc * 10 + Z.of_nat (n - 48))%Z
      else None
  end.

(** [int(s, 10)]: surrounding whitespace, an optional sign, digits. *)
Definition int10 (s : string) : option Z :=
  match Py.strip s with
  | EmptyString => None
  | String "-" (String a d) => Z.opp <$> digits_value (String a d) 0
  | String "+" (String a d) => digits_value (String a d) 0
  | d => digits_value d 0
  end.

(** [parsed.port]: [ValueError] when what follows the colon is not a
    number. *)
Definition port (r : ParseResult) : result (option Z) :=
  match Py.split1 ":" (hostinfo r) with
  | Some (_, p) =>
      match int10 p with
      | Some n => Ok (Some n)
      | None => Raise (ValueError ("invalid literal for int() with base 10: " +:+ Py.repr p))
      end
  | None => Ok None
  end.

End urlparse.

(** [a, b = l]: unpacking a list into two names. *)
Definition unpack2 (l : list string) : result (string * string) :=
  match l with
  | [a; b] => Ok (a, b)
  | [] | [_] => Raise (ValueError "need more than 1 value to unpack")
  | _ => Raise (ValueError "too many values to unpack")
  end.

(** [get_transport_and_path]: the client object and the path. *)
Definition get_transport_and_path (uri : string) : M (GitClient * string) :=
  let parsed := urlparse.urlparse uri in
  if String.eqb (urlparse.scheme parsed) "git" then
    port ← lift (urlparse.port parsed);
    c ← TCPGitClient_init (urlparse.hostname parsed) port;
    mret (c, urlparse.path parsed)
  else if String.eqb (urlparse.scheme parsed) "git+ssh" then
    port ← lift (urlparse.port parsed);
    c ← SSHGitClient_init (urlparse.hostname parsed) port (urlparse.username parsed);
    mret (c, urlparse.path parsed)
  else if Py.truthy (urlparse.scheme parsed) && negb (Py.truthy (urlparse.netloc parsed)) then
    (* SSH with no user@, zero or one leading slash. *)
    c ← SSHGitClient_init (Some (urlparse.scheme parsed)) None None;
    mret (c, urlparse.path parsed)
  else if Py.truthy (urlparse.scheme parsed) then
    raise (ValueError ("Unknown git protocol scheme: " +:+ urlparse.scheme parsed))
  else if Py.contains "@" (urlparse.path parsed) && Py.contains ":" (urlparse.path parsed) then
    (* SSH with user@host:foo. *)
    '(user_host, path) ← lift (unpack2 (Py.split ":" (urlparse.path parsed)));
    '(user, host) ← lift (unpack2 (Py.split "@" user_host));
    c ← SSHGitClient_init (Some host) None (Some user);
    mret (c, path)
  else
    (* Otherwise, assume it's a local path. *)
    c ← SubprocessGitClient_init;
    mret (c, uri).

(** ** Notions the properties are stated with *)

(** What one ref-status line contributes to [check]: the ref it names, the
    value recorded for it, and whether the ref counts as succeeded ([true]
    for every status word other than [ng]).  A line without a space
    contributes nothing. *)
Definition ref_outcome (line : string) : option (string * string * bool) :=
  match Py.split1 Py.sp line with
  | None => None
  | Some (status, ref) =>
      if String.eqb status "ng" then
        match Py.split1 Py.sp ref with
        | Some (ref, reason) => Some (ref, reason, false)
        | None => Some (ref, status, false)
        end
      else Some (ref, status, true)
  end.

(** The value the last line naming [ref] records for it. *)
Fixpoint last_outcome (ref : string) (lines : list string) : option string :=
  match lines with
  | [] => None
  | line :: rest =>
      match last_outcome ref rest with
      | Some v => Some v
      | None =>
          match ref_outcome line with
          | Some (r, v, _) => if String.eqb r ref then Some v else None
          | None => None
          end
      end
  end.

(** The test [handle_packet] applies to a ref-status line. *)
Definition starts_ok (line : string) : bool := Py.startswith "ok " line.

(** Whether a line reports [ng] for some ref. *)
Definition reports_ng (line : string) : bool :=
  match ref_outcome line with
  | Some (_, _, false) => true
  | _ => false
  end.

(** The id a ref map gives a ref, [ZERO_SHA] when the ref is absent. *)
Definition id_of (refs : gmap string string) (refname : string) : string :=
  default Protocol.ZERO_SHA (refs !! refname).

(** The capability list goes on the first line only. *)
Definition with_capabilities (caps : string) (lines : list string) : list string :=
  match lines with
  | [] => []
  | first :: rest => (first +:+ String Py.nul caps) :: rest
  end.

(** The update lines for the refs of [refnames] whose ids differ, in
    order; [sent] tells whether the capabilities have been sent before. *)
Definition update_lines (caps : list string) (sent : bool)
    (old_refs new_refs : gmap string string) (refnames : list string)
    : list string :=
  let lines :=
    map (fun r => update_line (id_of old_refs r) (id_of new_refs r) r)
        (filter (fun r => id_of old_refs r ≠ id_of new_refs r) refnames) in
  if sent then lines else with_capabilities (Py.join " " caps) lines.

(** The list [send_pack] negotiates from the client's list [requested]:
    [report-status] is dropped when the server did not advertise it. *)
Definition negotiated_send (requested advertised : list string) : list string :=
  if mem "report-status" advertised then requested
  else default requested (remove_first "report-status" requested).

(** The negotiated capability set as the specification has it (section
    3): the capabilities the client requests that the server advertised,
    in the order of the client's list. *)
Definition negotiated_capability_set (requested advertised : list string)
    : list string :=
  List.filter (fun c => mem c advertised) requested.

(** A computation leaves the component [f] of the world as it was. *)
Definition keeps {X A : Type} (f : world -> X) (m : M A) : Prop :=
  forall w, f (m w).1 = f w.

(** A computation changes no list object of the store other than [l]. *)
Definition touches_only {A : Type} (l : loc) (m : M A) : Prop :=
  forall w l', l' ≠ l -> heap (m w).1 !! l' = heap w !! l'.

(** A computation leaves every list object the store holds as it was (it
    may add new ones). *)
Definition preserves_lists {A : Type} (m : M A) : Prop :=
  forall w l xs, heap w !! l = Some xs -> heap (m w).1 !! l = Some xs.

(** ** Conversations used as examples *)

Module Scenario.

Definition NL : string := String Py.nl EmptyString.
Definition NUL : string := String Py.nul EmptyString.

Definition id_a : string := "1111111111111111111111111111111111111111".
Definition id_b : string := "deadbeefdeadbeefdeadbeefdeadbeefdeadbeef".

(** A side-band payload on channel [n]. *)
Definition channel (n : nat) (data : string) : string :=
  String (ascii_of_nat n) data.

(** A ref advertisement with one ref and the given capabilities. *)
Definition advertise (sha ref caps : string) : string :=
  Protocol.pkt_line (sha +:+ " " +:+ ref +:+ NUL +:+ caps +:+ NL)
  +:+ Protocol.flush_pkt.

(** The world at the start of a conversation: an empty store, the bytes
    the server will send, the answers of [can_read], the ids of the graph
    walker. *)
Definition conversation (server : string) (polls : list bool)
    (walker : list string) : world :=
  World ∅ server [] polls walker [] [] [].

(** A client as its constructor makes it, then a call on it. *)
Definition with_client {A : Type} (call : GitClient -> M A) : M A :=
  self ← SubprocessGitClient_init; call self.

(** A client whose capability lists were replaced after construction. *)
Definition with_custom_client {A : Type} (fetch_caps send_caps : list string)
    (call : GitClient -> M A) : M A :=
  f ← list_new fetch_caps; s ← list_new send_caps;
  call (mkClient SubprocessGitClient f s).

(** A push that creates [refs/heads/x] at [id_b], keeping what exists. *)
Definition push_x (old_refs : gmap string string) : gmap string string :=
  <[ "refs/heads/x" := id_b ]> old_refs.

(** A push that deletes [refs/heads/x] and creates [refs/heads/y] at
    [id_b]. *)
Definition move_x_to_y (old_refs : gmap string string) : gmap string string :=
  <[ "refs/heads/y" := id_b ]> (<[ "refs/heads/x" := Protocol.ZERO_SHA ]> old_refs).

(** A push that deletes [refs/heads/x]. *)
Definition delete_x (old_refs : gmap string string) : gmap string string :=
  <[ "refs/heads/x" := Protocol.ZERO_SHA ]> old_refs.

(** The pack of a push: the wanted objects themselves. *)
Definition objects_of (have want : list string) : list string := want.

(** A report-status report, as the server frames it. *)
Definition report (lines : list string) : string :=
  foldr (fun line acc => Protocol.pkt_line (line +:+ NL) +:+ acc)
        Protocol.flush_pkt lines.

(** A server that advertises [HEAD] and no capability but [ofs-delta]. *)
Definition plain_server : string := advertise id_a "HEAD" "ofs-delta".

(** A server that advertises [refs/heads/x] and every capability a push
    asks for. *)
Definition push_server : string :=
  advertise id_a "refs/heads/x" "report-status side-band-64k ofs-delta".

(** A server that advertises [refs/heads/x] and every capability a push
    asks for except [report-status]. *)
Definition quiet_push_server : string :=
  advertise id_a "refs/heads/x" "side-band-64k ofs-delta".

(** A server that advertises [HEAD] and every capability a fetch asks for. *)
Definition fetch_server : string :=
  advertise id_a "HEAD" "multi_ack thin-pack side-band-64k ofs-delta".

(** The report of a server that refuses to delete [refs/heads/x], on
    side-band channel 1. *)
Definition deletion_refused : string :=
  Protocol.pkt_line
    (channel 1 (report ["unpack ok"; "ng refs/heads/x deletion prohibited"]))
  +:+ Protocol.flush_pkt.

(** A client that does not ask for [side-band-64k]. *)
Definition no_side_band_fetch : list string := ["multi_ack"; "ofs-delta"].
Definition no_side_band_send : list string := ["report-status"; "ofs-delta"].

(** Parser states used as examples, as [handle_packet] leaves them. *)
Definition accepted_report : ReportStatusParser :=
  mkParser true (Some "unpack ok") false
    ["ok refs/heads/a"; "ok refs/heads/b"; "bogus"].
Definition malformed_report : ReportStatusParser :=
  mkParser true (Some "unpack ok") false ["ok refs/heads/a"; "garbage"].

(** A client as its constructor leaves it in an empty store, and that
    store: the fetch list at location 0, the send list at location 1. *)
Definition client0 : GitClient := mkClient SubprocessGitClient 0 1.
Definition world0 (server : string) : world :=
  World {[ 0 := FETCH_CAPABILITIES ++ ["thin-pack"]; 1 := SEND_CAPABILITIES ]}
        server [] [] [] [] [] [].

(** The result of dispatching a location: the class of the client and
    the path, or the exception. *)
Definition dispatch (uri : string) (w : world) : result (client_class * string) :=
  match run (get_transport_and_path uri) w with
  | (_, Ok (c, p)) => Ok (class c, p)
  | (_, Raise e) => Raise e
  end.

End Scenario.

Import Scenario.

(** ** Transports *)

(** Modelled from the spec: [Protocol.send_cmd(cmd, *args)] (section 4.G,
    the announce line "git-<service> <path>\0host=<host>\0"): one
    pkt-line holding the command, a space, and each argument followed by
    a NUL byte. *)
Definition send_cmd (cmd : string) (args : list string) : M unit :=
  Protocol.write_pkt_line
    (Some (cmd +:+ " "
           +:+ String.concat EmptyString (map (fun a => a +:+ String Py.nul EmptyString) args))).

(** The loop of [TCPGitClient._connect] over the addresses
    [socket.getaddrinfo] gave.  [connects sockaddr] is what [s.connect]
    does for an address: [None] when it succeeds, the [socket.error] it
    raises otherwise; making the socket and setting its options are
    taken to succeed.  The loop state is the connected socket [s] (the
    address it is connected to), the last error [err], and the sockets
    closed so far. *)
Fixpoint connect_loop (connects : string -> option string)
    (sockaddrs : list string) (err : string) (closed : list string)
    : option string * string * list string :=
  match sockaddrs with
  | [] => (None, err, closed)
  | sockaddr :: rest =>
      match connects sockaddr with
      | None => (Some sockaddr, err, closed)
      | Some e => connect_loop connects rest e (closed ++ [sockaddr])
      end
  end.

(** ['%s' % x] for a value that is a string or [None]. *)
Definition format_s (x : option string) : string := default "None" x.

(** The first half of [TCPGitClient._connect]: the socket it ends up
    with, or the [socket.error] it raises, and the sockets it closed. *)
Definition TCPGitClient_connect_socket (host : option string)
    (connects : string -> option string) (sockaddrs : list string)
    : (string + string) * list string :=
  let '(s, err, closed) :=
    connect_loop connects sockaddrs ("no address found for " +:+ format_s host) [] in
  match s with
  | None => (inl err, closed)
  | Some sockaddr => (inr sockaddr, closed)
  end.

(** The second half of [TCPGitClient._connect]: the service is announced
    on the new protocol object. *)
Definition TCPGitClient_announce (host : option string) (cmd path : string)
    : M unit :=
  let path := if Py.startswith "/~" path then Protocol.drop 1 path else path in
  send_cmd ("git-" +:+ cmd) [path; "host=" +:+ format_s host].

(** [SubprocessGitClient._connect]: the command line handed to
    [subprocess.Popen]. *)
Definition SubprocessGitClient_argv (service path : string)
    : list (option string) :=
  [Some "git"; Some service; Some path].

(** [SSHVendor.connect_ssh]: the command line handed to
    [subprocess.Popen].  Its elements are strings, or [None] where the
    code puts the host of a location that has none. *)
Definition connect_ssh (host : option string) (command : list string)
    (username : option string) (port : option Z) : list (option string) :=
  let args := [Some "ssh"; Some "-x"] in
  let args := match port with
              | Some p => args ++ [Some "-p"; Some (pretty p)]
              | None => args
              end in
  let host := match username with
              | Some u => Some (u +:+ "@" +:+ format_s host)
              | None => host
              end in
  let args := args ++ [host] in
  args ++ map Some command.

(** [SSHGitClient._get_cmd_path] *)
Definition _get_cmd_path (alternative_paths : gmap string string)
    (cmd : string) : string :=
  default ("git-" +:+ cmd) (alternative_paths !! cmd).

(** [SSHGitClient._connect]: the command line [connect_ssh] is asked to
    run, for a client of class [SSHGitClient host port username]. *)
Definition SSHGitClient_argv (host : option string) (port : option Z)
    (username : option string) (alternative_paths : gmap string string)
    (cmd path : string) : list (option string) :=
  connect_ssh host
    [_get_cmd_path alternative_paths cmd +:+ " '" +:+ path +:+ "'"]
    username port.

(** The command line [_connect(cmd, path)] spawns for a client of the
    classes that spawn one ([alternative_paths] is empty on a new
    [SSHGitClient]); [TCPGitClient] opens a socket instead. *)
Definition spawned_argv (cls : client_class) (cmd path : string)
    : option (list (option string)) :=
  match cls with
  | TCPGitClient _ _ => None
  | SSHGitClient host port username =>
      Some (SSHGitClient_argv host port username ∅ cmd path)
  | SubprocessGitClient => Some (SubprocessGitClient_argv cmd path)
  end.

(** ** More notions the properties are stated with *)

(** No character of [s] is one of [chars]. *)
Definition none_of (chars s : string) : bool :=
  urlparse.all_chars (fun a => negb (Py.contains a chars)) s.

(** The payload ['want %s\n'] and ['have %s\n'] lines carry. *)
Definition want_line (sha : string) : string := "want " +:+ sha +:+ NL.
Definition have_line (sha : string) : string := "have " +:+ sha +:+ NL.

(** The ids [send_pack] asks a pack for: the new id of each ref, in the
    order of the loop, when it is not [ZERO_SHA] and not among [have]. *)
Definition pack_wants (have : list string) (new_refs : gmap string string)
    (refnames : list string) : list string :=
  map (id_of new_refs)
      (filter (fun r => mem (id_of new_refs r) have = false
                        /\ id_of new_refs r ≠ Protocol.ZERO_SHA) refnames).

(** A ref advertisement as the server frames it: the first line carries
    the capabilities after a NUL byte, then one line per further ref,
    then a flush. *)
Definition advertisement (sha ref caps : string)
    (others : list (string * string)) : string :=
  Protocol.pkt_line (sha +:+ " " +:+ ref +:+ NUL +:+ caps +:+ NL)
  +:+ foldr (fun '(s, r) acc => Protocol.pkt_line (s +:+ " " +:+ r +:+ NL) +:+ acc)
            Protocol.flush_pkt others.

(** A side-band stream as the server frames it: one pkt-line per
    (channel, data) pair, then a flush. *)
Definition side_band (frames : list (nat * string)) : string :=
  foldr (fun '(ch, data) acc => Protocol.pkt_line (channel ch data) +:+ acc)
        Protocol.flush_pkt frames.

(** The data of the frames on channel [ch], in order. *)
Definition on_channel (ch : nat) (frames : list (nat * string)) : list string :=
  map snd (filter (fun f => fst f = ch) frames).

(** An object id as a ref line can carry it: no space, no newline, and
    not the word [ERR]. *)
Definition plain_id (sha : string) : Prop :=
  Py.contains Py.sp sha = false /\ Py.contains Py.nl sha = false /\ sha ≠ "ERR".

(** A ref name as a ref line can carry it: no newline and no NUL byte. *)
Definition plain_ref (ref : string) : Prop :=
  Py.contains Py.nl ref = false /\ Py.contains Py.nul ref = false.

(** A payload that fits in one pkt-line. *)
Definition fits (payload : string) : Prop :=
  String.length payload + 4 < 16 * 16 * 16 * 16.

(** The ref map an advertisement describes: a later line for a name
    replaces an earlier one. *)
Definition advertised_refs (sha ref : string) (others : list (string * string))
    : gmap string string :=
  foldl (fun refs '(s, r) => <[r := s]> refs) (<[ref := sha]> ∅) others.

(** The loop of [_read_refs] started from a given loop state;
    [_read_refs] starts it from [({}, None)]. *)
Definition read_refs_from (st : gmap string string * option (list string))
    : M (gmap string string * option (list string)) :=
  Protocol.read_pkt_seq_for
    (fun pkt '(refs, server_capabilities) =>
       match Py.split1 Py.sp (Py.rstrip_nl pkt) with
       | None => raise (ValueError "need more than 1 value to unpack")
       | Some (sha, ref) =>
           if String.eqb sha "ERR" then raise (GitProtocolError ref)
           else
             match server_capabilities with
             | None =>
                 let '(ref, caps) := Protocol.extract_capabilities ref in
                 mret (<[ref := sha]> refs, Some caps)
             | Some _ => mret (<[ref := sha]> refs, server_capabilities)
             end
       end)
    st.

(** A status report as the server frames it: the unpack line, one line
    per ref and a flush, each a pkt-line. *)
Definition status_report (first : string) (lines : list string) : string :=
  Protocol.pkt_line first
  +:+ foldr (fun line acc => Protocol.pkt_line line +:+ acc)
            Protocol.flush_pkt lines.

(** The answer of a multi_ack server to [done]: one line
    "ACK <sha> continue" for each common id, then "NAK". *)
Definition acknowledgements (shas : list string) : string :=
  foldr (fun sha acc =>
           Protocol.pkt_line ("ACK " +:+ sha +:+ " continue" +:+ NL) +:+ acc)
        (Protocol.pkt_line ("NAK" +:+ NL)) shas.

(** ** More conversations used as examples *)

(** [world0] with a graph walker that will yield the ids [walker]. *)
Definition world_walking (server : string) (walker : list string) : world :=
  World {[ 0 := FETCH_CAPABILITIES ++ ["thin-pack"]; 1 := SEND_CAPABILITIES ]}
        server [] [] walker [] [] [].

(** A server that advertises [HEAD] and [refs/heads/x]. *)
Definition two_refs_server : string :=
  advertisement id_a "HEAD" "multi_ack side-band-64k"
    [(id_b, "refs/heads/x")].

(** A server that refuses the client. *)
Definition refusing_server : string :=
  Protocol.pkt_line ("ERR access denied" +:+ NL).

(** The pack of a fetch on side-band: a progress message, then data. *)
Definition pack_frames : list (nat * string) := [(2, "counting"); (1, "PACK")].

(** The report of a server that accepts the push of [refs/heads/x], on
    side-band channel 1. *)
Definition push_accepted : string :=
  side_band [(1, status_report ("unpack ok" +:+ NL) ["ok refs/heads/x" +:+ NL])].

(** Addresses of a host, and a network in which the first one refuses
    the connection. *)
Definition addr_v6 : string := "[::1]:9418".
Definition addr_v4 : string := "127.0.0.1:9418".
Definition first_refuses (sockaddr : string) : option string :=
  if String.eqb sockaddr addr_v6 then Some "Connection refused" else None.
Definition all_refuse (sockaddr : string) : option string :=
  Some ("Connection refused by " +:+ sockaddr).

(** ** Which parts of the world a computation leaves alone *)

Section Keeps.

Context {X : Type} (f : world -> X).

Lemma keeps_ret {A} (a : A) : keeps f (mret a).
Proof. intros w. reflexivity. Qed.

Lemma keeps_raise {A} (e : exn) : keeps f (@raise A e).
Proof. intros w. reflexivity. Qed.

Lemma keeps_lift {A} (r : result A) : keeps f (lift r).
Proof. intros w. reflexivity. Qed.

Lemma keeps_get_world : keeps f get_world.
Proof. intros w. reflexivity. Qed.

Lemma keeps_bind {A B} (m : M A) (k : A -> M B) :
  keeps f m -> (forall a, keeps f (k a)) -> keeps f (m ≫= k).
Proof.
  intros Hm Hk w. unfold mbind, M_mbind, M_bind.
  specialize (Hm w). destruct (m w) as [w' [a|e]]; simpl in *.
  - by rewrite Hk.
  - done.
Qed.

Lemma keeps_modify (g : world -> world) :
  (forall w, f (g w) = f w) -> keeps f (modify g).
Proof. intros Hg w. apply Hg. Qed.

Hypothesis f_inp : forall i w, f (set_inp i w) = f w.

Lemma keeps_read_pkt_line : keeps f Protocol.read_pkt_line.
Proof.
  intros w. unfold Protocol.read_pkt_line.
  destruct (Protocol.decode_frame (inp w)) as [[pkt rest]|]; [apply f_inp|done].
Qed.

Lemma keeps_read : keeps f Protocol.read.
Proof. intros w. apply f_inp. Qed.

Lemma keeps_for_pkt_seq {St} (body : string -> St -> M St) n :
  (forall p st, keeps f (body p st)) ->
  forall st, keeps f (Protocol.for_pkt_seq n body st).
Proof.
  intros Hbody. induction n as [|n IH]; intros st; simpl;
    (apply keeps_bind; [apply keeps_read_pkt_line|]);
    intros [p|]; try apply keeps_ret;
    (apply keeps_bind; [apply Hbody|]); intros st'; [apply keeps_ret|apply IH].
Qed.

Lemma keeps_read_pkt_seq_for {St} (body : string -> St -> M St) st :
  (forall p st, keeps f (body p st)) ->
  keeps f (Protocol.read_pkt_seq_for body st).
Proof.
  intros Hbody. apply keeps_bind; [apply keeps_get_world|].
  intros w. by apply keeps_for_pkt_seq.
Qed.

Lemma keeps_read_side_band64k_data {St}
    (cbs : gmap nat (option (string -> St -> M St))) st :
  (forall ch cb p st, cbs !! ch = Some (Some cb) -> keeps f (cb p st)) ->
  keeps f (_read_side_band64k_data cbs st).
Proof.
  intros Hcb. apply keeps_read_pkt_seq_for. intros [|c p] st'; [apply keeps_raise|].
  cbv zeta. destruct (cbs !! nat_of_ascii c) as [[cb|]|] eqn:E;
    [by eapply Hcb|apply keeps_ret|apply keeps_raise].
Qed.

Lemma keeps_read_refs : keeps f _read_refs.
Proof.
  apply keeps_read_pkt_seq_for. intros p [refs caps].
  destruct (Py.split1 Py.sp (Py.rstrip_nl p)) as [[sha ref]|]; [|apply keeps_raise].
  destruct (String.eqb sha "ERR"); [apply keeps_raise|].
  destruct caps; [apply keeps_ret|].
  destruct (Protocol.extract_capabilities ref). apply keeps_ret.
Qed.

Lemma keeps_parser_handle_packet pkt parser :
  keeps f (parser_handle_packet pkt parser).
Proof.
  destruct parser; [|apply keeps_raise].
  apply keeps_bind; [apply keeps_lift|]. intros. apply keeps_ret.
Qed.

Lemma keeps_parse_frames {St} (handle : option string -> St -> M St) n :
  (forall p st, keeps f (handle p st)) ->
  forall buf st, keeps f (Protocol.parse_frames n handle buf st).
Proof.
  intros Hh. induction n as [|n IH]; intros buf st; simpl; [apply keeps_ret|].
  destruct buf as [|a [|b [|c [|d rest]]]]; try apply keeps_ret.
  destruct (Protocol.hex4 a b c d) as [[|size]|]; [| |apply keeps_raise].
  - apply keeps_bind; [apply Hh|]. intros. apply IH.
  - destruct (Nat.ltb (S size) 4); [apply keeps_raise|].
    destruct (Nat.leb _ _); [|apply keeps_ret].
    apply keeps_bind; [apply Hh|]. intros. apply IH.
Qed.

Lemma keeps_PktLineParser_parse {St} (handle : option string -> St -> M St)
    data bs :
  (forall p st, keeps f (handle p st)) ->
  keeps f (Protocol.PktLineParser_parse handle data bs).
Proof. intros Hh. by apply keeps_parse_frames. Qed.

Lemma keeps_in_server_capabilities x caps :
  keeps f (in_server_capabilities x caps).
Proof. destruct caps; [apply keeps_ret|apply keeps_raise]. Qed.

Lemma keeps_list_get l : keeps f (list_get l).
Proof. intros w. unfold list_get. by destruct (heap w !! l). Qed.

End Keeps.

Section KeepsCallbacks.

Context {X : Type} (f : world -> X).

Lemma keeps_write_pkt_line payload :
  (forall o w, f (set_out o w) = f w) -> keeps f (Protocol.write_pkt_line payload).
Proof. intros H w. apply H. Qed.

Lemma keeps_write_pack objects :
  (forall o w, f (set_out o w) = f w) -> keeps f (Protocol.write_pack objects).
Proof. intros H w. apply H. Qed.

Lemma keeps_pack_data chunk :
  (forall s w, f (set_sink s w) = f w) -> keeps f (pack_data chunk).
Proof. intros H w. apply H. Qed.

Lemma keeps_progress_cb chunk :
  (forall s w, f (set_prog s w) = f w) -> keeps f (progress_cb chunk).
Proof. intros H w. apply H. Qed.

Lemma keeps_graph_walker_ack sha :
  (forall s w, f (set_gw_acked s w) = f w) -> keeps f (graph_walker_ack sha).
Proof. intros H w. apply H. Qed.

Lemma keeps_graph_walker_next :
  (forall s w, f (set_gw_next s w) = f w) -> keeps f graph_walker_next.
Proof. intros H w. unfold graph_walker_next. destruct (gw_next w); [done|apply H]. Qed.

Lemma keeps_can_read :
  (forall s w, f (set_ready s w) = f w) -> keeps f can_read.
Proof. intros H w. unfold can_read. destruct (ready w); [done|apply H]. Qed.

Lemma keeps_progress_callback {St} progress (cb : string -> St -> M St) p st :
  (forall s w, f (set_prog s w) = f w) ->
  progress_callback progress = Some cb -> keeps f (cb p st).
Proof.
  intros H. unfold progress_callback. destruct progress; [|done].
  intros [= <-]. apply keeps_bind; [by apply keeps_progress_cb|].
  intros. apply keeps_ret.
Qed.

End KeepsCallbacks.

Create HintDb keeps.
#[local] Hint Resolve keeps_ret keeps_raise keeps_lift keeps_get_world
  keeps_read_pkt_line keeps_read keeps_read_refs keeps_parser_handle_packet
  keeps_in_server_capabilities keeps_list_get keeps_write_pkt_line
  keeps_write_pack keeps_pack_data keeps_progress_cb keeps_graph_walker_ack
  keeps_graph_walker_next keeps_can_read : keeps.
#[local] Hint Extern 1 (forall _ _, _ = _) => (intros; reflexivity) : keeps.

(** One step through the structure of a computation. *)
Ltac keeps_step :=
  lazymatch goal with
  | |- keeps _ (mbind _ _) => apply keeps_bind; [|intros ?]
  | |- keeps _ (match ?x with _ => _ end) => destruct x
  | |- keeps _ (let _ := _ in _) => cbv zeta
  | |- keeps _ _ => solve [eauto with keeps]
  end.
Ltac keeps_tac := repeat keeps_step.

(** *** send_pack and fetch_pack leave the store alone, but for the copy
    they negotiate on *)

Lemma keeps_heap_update_loop old_refs new_refs have l refnames :
  forall sent want,
    keeps heap (update_loop old_refs new_refs have l refnames sent want).
Proof.
  induction refnames as [|r rest IH]; intros sent want; simpl; [keeps_tac|].
  apply keeps_bind; [keeps_tac|]. intros sent'. apply IH.
Qed.

Lemma keeps_send_pack_response {X} (f : world -> X) progress new_refs l :
  (forall i w, f (set_inp i w) = f w) ->
  (forall s w, f (set_prog s w) = f w) ->
  keeps f (send_pack_response progress new_refs l).
Proof.
  intros Hinp Hprog. unfold send_pack_response.
  apply keeps_bind; [by apply keeps_list_get|]. intros negotiated. cbv zeta.
  apply keeps_bind.
  - destruct (mem "side-band-64k" negotiated).
    + apply keeps_bind; [|intros; apply keeps_ret].
      apply keeps_read_side_band64k_data; [done|].
      intros ch cb p st. destruct (mem "report-status" negotiated).
      * rewrite lookup_insert. case_decide.
        -- intros [= <-]. apply keeps_PktLineParser_parse.
           intros. by apply keeps_parser_handle_packet.
        -- rewrite lookup_singleton. case_decide; [|done].
           intros [= Hc]. by eapply keeps_progress_callback.
      * rewrite lookup_singleton. case_decide; [|done].
        intros [= Hc]. by eapply keeps_progress_callback.
    + cbn [Py.truthy]. apply keeps_read_pkt_seq_for; [done|].
      intros. by apply keeps_parser_handle_packet.
  - intros parser. apply keeps_bind.
    + destruct parser; [apply keeps_lift|apply keeps_ret].
    + intros _. apply keeps_bind; [by apply keeps_read|].
      intros data. destruct (Py.truthy data); [apply keeps_raise|apply keeps_ret].
Qed.

Lemma keeps_heap_have_loop_poll : keeps heap have_loop_poll.
Proof. unfold have_loop_poll. keeps_tac. Qed.

Lemma keeps_heap_have_loop n : forall have, keeps heap (have_loop n have).
Proof.
  pose proof keeps_heap_have_loop_poll.
  induction n as [|n IH]; intros [h|]; simpl; keeps_tac.
Qed.

Lemma keeps_heap_ack_loop n : forall pkt, keeps heap (ack_loop n pkt).
Proof. induction n as [|n IH]; intros [p|]; simpl; keeps_tac. Qed.

Lemma keeps_heap_mapM {A} (f : A -> M unit) (l : list A) :
  (forall a, keeps heap (f a)) -> keeps heap (mapM f l).
Proof. intros Hf. induction l as [|a l IH]; simpl; keeps_tac. Qed.

Lemma keeps_touches_only {A} l (m : M A) : keeps heap m -> touches_only l m.
Proof. intros Hm w l' _. by rewrite Hm. Qed.

Lemma touches_only_bind {A B} l (m : M A) (k : A -> M B) :
  touches_only l m -> (forall a, touches_only l (k a)) -> touches_only l (m ≫= k).
Proof.
  intros Hm Hk w l' Hne. unfold mbind, M_mbind, M_bind.
  specialize (Hm w l' Hne). destruct (m w) as [w' [a|e]]; simpl in *.
  - by rewrite Hk.
  - done.
Qed.

Lemma touches_only_list_remove l v : touches_only l (list_remove l v).
Proof.
  intros w l' Hne. unfold list_remove, list_get, mbind, M_mbind, M_bind.
  destruct (heap w !! l) as [xs|]; [|done].
  destruct (remove_first v xs); [|done]. simpl. by apply lookup_insert_ne.
Qed.

Lemma preserves_keeps {A} (m : M A) : keeps heap m -> preserves_lists m.
Proof. intros Hm w l xs. by rewrite Hm. Qed.

Lemma preserves_bind {A B} (m : M A) (k : A -> M B) :
  preserves_lists m -> (forall a, preserves_lists (k a)) ->
  preserves_lists (m ≫= k).
Proof.
  intros Hm Hk w l xs Hl. unfold mbind, M_mbind, M_bind.
  specialize (Hm w l xs Hl). destruct (m w) as [w' [a|e]]; simpl in *.
  - by apply Hk.
  - done.
Qed.

(** Working on a copy: what follows [list(x)] may change the copy and
    nothing else. *)
Lemma preserves_list_copy_bind {B} l0 (k : loc -> M B) :
  (forall l, touches_only l (k l)) -> preserves_lists (list_copy l0 ≫= k).
Proof.
  intros Hk w l xs Hl.
  unfold list_copy, list_get, list_new, mbind, M_mbind, M_bind.
  destruct (heap w !! l0) as [ys|]; [|done]. simpl.
  set (l1 := fresh (dom (heap w))).
  assert (Hne : l ≠ l1).
  { intros ->. apply (is_fresh (dom (heap w))). apply elem_of_dom. eauto. }
  rewrite Hk by done. simpl. by rewrite lookup_insert_ne.
Qed.

Lemma send_pack_preserves_lists self determine_wants generate progress :
  preserves_lists (send_pack self determine_wants generate progress).
Proof.
  unfold send_pack.
  apply preserves_bind; [apply preserves_keeps, keeps_read_refs; done|].
  intros [old_refs caps]. apply preserves_list_copy_bind. intros l.
  apply touches_only_bind;
    [apply keeps_touches_only, keeps_in_server_capabilities|].
  intros advertised. apply touches_only_bind.
  { destruct (negb advertised);
      [apply touches_only_list_remove|apply keeps_touches_only, keeps_ret]. }
  intros _. apply keeps_touches_only. cbv zeta.
  destruct (bool_decide _); [keeps_tac|].
  apply keeps_bind; [apply keeps_heap_update_loop|]. intros want.
  apply keeps_bind; [keeps_tac|]. intros _.
  destruct want; [keeps_tac|].
  apply keeps_bind; [keeps_tac|]. intros _.
  by apply keeps_send_pack_response.
Qed.

Lemma fetch_pack_preserves_lists self determine_wants progress :
  preserves_lists (fetch_pack self determine_wants progress).
Proof.
  unfold fetch_pack.
  apply preserves_bind; [apply preserves_keeps, keeps_read_refs; done|].
  intros [refs caps]. apply preserves_list_copy_bind. intros l.
  apply keeps_touches_only. cbv zeta.
  destruct (determine_wants refs) as [|want0 rest]; [keeps_tac|].
  apply keeps_bind; [keeps_tac|]. intros negotiated.
  apply keeps_bind; [keeps_tac|]. intros _.
  apply keeps_bind; [apply keeps_heap_mapM; intros; keeps_tac|]. intros _.
  apply keeps_bind; [keeps_tac|]. intros _.
  apply keeps_bind; [keeps_tac|]. intros have.
  apply keeps_bind; [keeps_tac|]. intros w.
  apply keeps_bind; [apply keeps_heap_have_loop|]. intros _.
  apply keeps_bind; [keeps_tac|]. intros _.
  apply keeps_bind; [keeps_tac|]. intros pkt.
  apply keeps_bind; [keeps_tac|]. intros w'.
  apply keeps_bind; [apply keeps_heap_ack_loop|]. intros _.
  apply keeps_bind; [keeps_tac|]. intros negotiated'.
  apply keeps_bind; [|intros; keeps_tac].
  destruct (mem "side-band-64k" negotiated'); [|keeps_tac].
  apply keeps_bind.
  - apply keeps_read_side_band64k_data; [done|].
    intros ch cb p st. rewrite lookup_insert. case_decide.
    + intros [= <-]. keeps_tac.
    + rewrite lookup_singleton. case_decide; [|done].
      intros [= Hc]. by eapply keeps_progress_callback.
  - intros _. keeps_tac.
Qed.


(** C10.  A call to [send_pack] or [fetch_pack] leaves the two
    capability lists of the client as they were: the negotiation works on
    a copy, and [list.remove] changes the copy only. *)
Theorem capability_lists_unchanged (self : GitClient)
    (wants_push : gmap string string -> gmap string string)
    (generate_pack_contents : list string -> list string -> list string)
    (wants_fetch : gmap string string -> list string)
    (progress : bool) (w : world) (fetch_caps send_caps : list string) :
  heap w !! _fetch_capabilities self = Some fetch_caps ->
  heap w !! _send_capabilities self = Some send_caps ->
  (heap (run (send_pack self wants_push generate_pack_contents progress) w).1
     !! _fetch_capabilities self = Some fetch_caps
   /\ heap (run (send_pack self wants_push generate_pack_contents progress) w).1
        !! _send_capabilities self = Some send_caps)
  /\ (heap (run (fetch_pack self wants_fetch progress) w).1
        !! _fetch_capabilities self = Some fetch_caps
      /\ heap (run (fetch_pack self wants_fetch progress) w).1
           !! _send_capabilities self = Some send_caps).
Proof.
  intros Hf Hs. repeat split;
    by first [apply send_pack_preserves_lists|apply fetch_pack_preserves_lists].
Qed.

Lemma capability_lists_unchanged_witness :
  heap (world0 plain_server) !! _fetch_capabilities client0
  = Some (FETCH_CAPABILITIES ++ ["thin-pack"])
  /\ heap (world0 plain_server) !! _send_capabilities client0
     = Some SEND_CAPABILITIES
  /\ heap (run (send_pack client0 push_x objects_of false) (world0 plain_server)).1
       !! _send_capabilities client0 = Some SEND_CAPABILITIES
  /\ heap (run (fetch_pack client0 (fun _ => [id_a]) false) (world0 plain_server)).1
       !! _fetch_capabilities client0 = Some (FETCH_CAPABILITIES ++ ["thin-pack"]).
Proof.
  split; [reflexivity|]. split; [reflexivity|].
  destruct (capability_lists_unchanged client0 push_x objects_of
              (fun _ => [id_a]) false (world0 plain_server)
              (FETCH_CAPABILITIES ++ ["thin-pack"]) SEND_CAPABILITIES
              eq_refl eq_refl) as [[_ Hs] [Hf _]].
  split; [exact Hs|exact Hf].
Defined.

(** ** The framer reads back what [write_pkt_line] puts on the wire *)

Lemma hex_digit_char d : d < 16 -> Protocol.hex_digit (Protocol.hex_char d) = Some d.
Proof.
  intros H. do 16 (destruct d as [|d]; [reflexivity|]). lia.
Qed.

Lemma hex4_chars n :
  n < 16 * 16 * 16 * 16 ->
  Protocol.hex4 (Protocol.hex_char (n / 4096 mod 16))
    (Protocol.hex_char (n / 256 mod 16))
    (Protocol.hex_char (n / 16 mod 16)) (Protocol.hex_char (n mod 16))
  = Some n.
Proof.
  intros H. unfold Protocol.hex4.
  rewrite !hex_digit_char by (apply Nat.mod_upper_bound; lia).
  f_equal. zify. Z.div_mod_to_equations. lia.
Qed.

Lemma take_app p rest : Protocol.take (String.length p) (p +:+ rest) = p.
Proof. induction p as [|a p IH]; simpl; [by destruct rest|by rewrite IH]. Qed.

Lemma drop_app p rest : Protocol.drop (String.length p) (p +:+ rest) = rest.
Proof. induction p as [|a p IH]; simpl; [by destruct rest|done]. Qed.

Lemma length_app p rest :
  String.length (p +:+ rest) = String.length p + String.length rest.
Proof. induction p as [|a p IH]; simpl; [done|by rewrite IH]. Qed.

Lemma decode_pkt_line payload rest :
  String.length payload + 4 < 16 * 16 * 16 * 16 ->
  Protocol.decode_frame (Protocol.pkt_line payload +:+ rest)
  = Some (Some payload, rest).
Proof.
  intros H. unfold Protocol.pkt_line. cbv zeta.
  remember (String.length payload + 4) as n eqn:E.
  change (Protocol.decode_frame
            (String (Protocol.hex_char (n / 4096 mod 16))
               (String (Protocol.hex_char (n / 256 mod 16))
                  (String (Protocol.hex_char (n / 16 mod 16))
                     (String (Protocol.hex_char (n mod 16)) (payload +:+ rest)))))
          = Some (Some payload, rest)).
  cbn [Protocol.decode_frame]. rewrite hex4_chars by done.
  destruct n as [|k]; [lia|]. rewrite E.
  replace (Nat.ltb (String.length payload + 4) 4) with false
    by (symmetry; apply Nat.ltb_ge; lia).
  replace (String.length payload + 4 - 4) with (String.length payload) by lia.
  rewrite length_app.
  replace (Nat.ltb _ _) with false by (symmetry; apply Nat.ltb_ge; lia).
  by rewrite take_app, drop_app.
Qed.

Lemma read_written_pkt_line payload rest w :
  String.length payload + 4 < 16 * 16 * 16 * 16 ->
  inp w = Protocol.pkt_line payload +:+ rest ->
  Protocol.read_pkt_line w = (set_inp rest w, Ok (Some payload)).
Proof.
  intros H E. unfold Protocol.read_pkt_line. by rewrite E, decode_pkt_line.
Qed.

(** ** The iteration bounds are enough *)

Lemma drop_length n : forall s,
  String.length (Protocol.drop n s) <= String.length s.
Proof.
  induction n as [|n IH]; intros [|a s]; simpl; try lia.
  specialize (IH s). lia.
Qed.

Lemma decode_frame_shrinks s p rest :
  Protocol.decode_frame s = Some (Some p, rest) ->
  String.length rest + 4 <= String.length s.
Proof.
  unfold Protocol.decode_frame.
  destruct s as [|a [|b [|c [|d r]]]]; try done.
  destruct (Protocol.hex4 a b c d) as [[|n]|]; try done.
  destruct (Nat.ltb (S n) 4); [done|].
  destruct (Nat.ltb _ _); [done|].
  intros [= <- <-]. cbn [String.length].
  match goal with |- String.length (Protocol.drop ?k r) + _ <= _ =>
    pose proof (drop_length k r) end. lia.
Qed.

Lemma read_pkt_line_shrinks w w' p :
  Protocol.read_pkt_line w = (w', Ok (Some p)) ->
  String.length (inp w') + 4 <= String.length (inp w).
Proof.
  unfold Protocol.read_pkt_line.
  destruct (Protocol.decode_frame (inp w)) as [[pkt rest]|] eqn:E; [|done].
  intros [= <- ->]. simpl. by eapply decode_frame_shrinks.
Qed.

(** A body that reads nothing: the loop over the packet sequence gives
    the same result with any larger bound. *)
Lemma for_pkt_seq_fuel {St} (body : string -> St -> M St) :
  (forall p st w, String.length (inp (body p st w).1) <= String.length (inp w)) ->
  forall n m st w,
    String.length (inp w) <= n -> n <= m ->
    Protocol.for_pkt_seq n body st w = Protocol.for_pkt_seq m body st w.
Proof.
  intros Hbody. induction n as [|n IH]; intros m st w Hlen Hnm.
  - destruct m as [|m]; [done|].
    cbn [Protocol.for_pkt_seq]. unfold mbind, M_mbind, M_bind.
    destruct (Protocol.read_pkt_line w) as [w' [[p|]|e]] eqn:E; try done.
    apply read_pkt_line_shrinks in E. lia.
  - destruct m as [|m]; [lia|].
    cbn [Protocol.for_pkt_seq]. unfold mbind, M_mbind, M_bind.
    destruct (Protocol.read_pkt_line w) as [w' [[p|]|e]] eqn:E; try done.
    apply read_pkt_line_shrinks in E.
    pose proof (Hbody p st w') as Hb.
    destruct (body p st w') as [w'' [st'|e]]; [|done].
    simpl in Hb. apply IH; lia.
Qed.

Lemma parse_frames_fuel {St} (handle : option string -> St -> M St) :
  forall n m buf st w,
    String.length buf <= n -> n <= m ->
    Protocol.parse_frames n handle buf st w = Protocol.parse_frames m handle buf st w.
Proof.
  induction n as [|n IH]; intros m buf st w Hlen Hnm.
  - destruct buf; [|simpl in Hlen; lia]. by destruct m.
  - destruct m as [|m]; [lia|]. cbn [Protocol.parse_frames].
    destruct buf as [|a [|b [|c [|d rest]]]]; try done.
    simpl in Hlen.
    destruct (Protocol.hex4 a b c d) as [[|size]|]; [| |done].
    + unfold mbind, M_mbind, M_bind.
      destruct (handle None st w) as [w' [st'|e]]; [|done]. apply IH; lia.
    + destruct (Nat.ltb (S size) 4); [done|].
      destruct (Nat.leb _ _); [|done].
      unfold mbind, M_mbind, M_bind.
      destruct (handle _ st w) as [w' [st'|e]]; [|done].
      pose proof (drop_length (S size - 4) rest). apply IH; lia.
Qed.

Lemma bind_ext {A B} (m : M A) (k1 k2 : A -> M B) w :
  (forall a w', m w = (w', Ok a) -> k1 a w' = k2 a w') ->
  (m ≫= k1) w = (m ≫= k2) w.
Proof.
  intros H. unfold mbind, M_mbind, M_bind.
  destruct (m w) as [w' [a|e]]; [by apply H|done].
Qed.

Lemma keeps_run {X A} (f : world -> X) (m : M A) w w' r :
  keeps f m -> m w = (w', r) -> f w' = f w.
Proof. intros K E. specialize (K w). by rewrite E in K. Qed.

Lemma keeps_gw_next_have_loop_poll : keeps gw_next have_loop_poll.
Proof. unfold have_loop_poll. keeps_tac. Qed.

Lemma graph_walker_next_length w w' have :
  graph_walker_next w = (w', Ok have) ->
  (have = None /\ gw_next w' = gw_next w)
  \/ S (length (gw_next w')) = length (gw_next w).
Proof.
  unfold graph_walker_next. destruct (gw_next w) as [|h t] eqn:G.
  - intros [= <- <-]. by left.
  - intros [= <- <-]. by right.
Qed.

(** The have loop gives the same result with any bound that is at least
    the number of ids the graph walker still holds. *)
Lemma have_loop_fuel :
  forall n m have w,
    length (gw_next w) <= n -> n <= m ->
    have_loop n have w = have_loop m have w.
Proof.
  induction n as [|n IH]; intros m have w Hlen Hnm;
    (destruct m as [|m]; [try done; lia|]);
    (destruct have as [h|]; [|done]); cbn [have_loop];
    (destruct (Py.truthy h); [|done]);
    (apply bind_ext; intros [] w1 E1);
    (apply bind_ext; intros b w2 E2);
    (apply bind_ext; intros [] w3 E3);
    (apply bind_ext; intros have' w4 E4);
    apply (keeps_run gw_next) in E1; [|by apply keeps_write_pkt_line| |by apply keeps_write_pkt_line];
    apply (keeps_run gw_next) in E2; [|by apply keeps_can_read| |by apply keeps_can_read].
  1,2: assert (G3 : gw_next w3 = gw_next w2)
    by (destruct b; [by eapply keeps_run, E3; apply keeps_gw_next_have_loop_poll
                    |by injection E3 as <-]).
  1,2: assert (L : length (gw_next w3) = length (gw_next w)) by congruence.
  1,2: apply graph_walker_next_length in E4 as [[-> G4]|G4].
  - by destruct m.
  - lia.
  - by destruct n, m.
  - apply IH; lia.
Qed.

Lemma keeps_inp_ack sha_opt (b : bool) :
  keeps inp (if b then match sha_opt with
                       | None => raise (IndexError "list index out of range")
                       | Some sha => graph_walker_ack sha
                       end
             else mret ()).
Proof.
  destruct b; [|apply keeps_ret].
  destruct sha_opt; [by apply keeps_graph_walker_ack|apply keeps_raise].
Qed.

(** The loop after [done] gives the same result with any bound that is at
    least the number of unread input bytes. *)
Lemma ack_loop_fuel :
  forall n m pkt w,
    String.length (inp w) <= n -> n <= m ->
    ack_loop n pkt w = ack_loop m pkt w.
Proof.
  induction n as [|n IH]; intros m pkt w Hlen Hnm;
    (destruct m as [|m]; [try done; lia|]);
    (destruct pkt as [p|]; [|done]); cbn [ack_loop];
    (destruct (Py.truthy p); [|done]); cbv zeta;
    (apply bind_ext; intros [] w1 E1);
    apply (keeps_run inp) in E1; try apply keeps_inp_ack;
    (destruct (_ || _); [done|]);
    (apply bind_ext; intros q w2 E2).
  - destruct q as [q|]; [|by destruct m].
    apply read_pkt_line_shrinks in E2. rewrite E1 in E2. lia.
  - destruct q as [q|]; [|by destruct n, m].
    apply read_pkt_line_shrinks in E2. rewrite E1 in E2. apply IH; lia.
Qed.

(** ** The report-status parser *)

Lemma check_loop_cons line rest m ok :
  check_loop (line :: rest) m ok =
  match ref_outcome line with
  | None => check_loop rest m ok
  | Some (r, v, true) => check_loop rest (<[r := v]> m) ({[r]} ∪ ok)
  | Some (r, v, false) => check_loop rest (<[r := v]> m) ok
  end.
Proof.
  unfold ref_outcome; simpl.
  destruct (Py.split1 Py.sp line) as [[status ref]|]; [|reflexivity].
  destruct (String.eqb status "ng"); [|reflexivity].
  destruct (Py.split1 Py.sp ref) as [[r reason]|]; reflexivity.
Qed.

Lemma check_loop_map lines : forall m ok ref,
  (check_loop lines m ok).1 !! ref =
  match last_outcome ref lines with Some v => Some v | None => m !! ref end.
Proof.
  induction lines as [|line rest IH]; intros m ok ref; [reflexivity|].
  rewrite check_loop_cons. cbn [last_outcome].
  destruct (ref_outcome line) as [[[r v] b]|].
  - assert (Hm : (check_loop rest (<[r:=v]> m) (if b then {[r]} ∪ ok else ok)).1 !! ref
             = match last_outcome ref rest with Some v0 => Some v0
               | None => <[r:=v]> m !! ref end) by apply IH.
    destruct b; rewrite Hm; destruct (last_outcome ref rest); try reflexivity;
      (destruct (String.eqb_spec r ref) as [->|Hne];
       [apply lookup_insert_eq | by apply lookup_insert_ne]).
  - rewrite IH. by destruct (last_outcome ref rest).
Qed.

Lemma check_loop_ok lines : forall m ok ref,
  ref ∈ (check_loop lines m ok).2 <->
  ref ∈ ok \/ exists line v, line ∈ lines /\ ref_outcome line = Some (ref, v, true).
Proof.
  induction lines as [|line rest IH]; intros m ok ref.
  - simpl. split; [auto|]. intros [?|(l & v & Hl & _)]; [done|]. by apply elem_of_nil in Hl.
  - rewrite check_loop_cons.
    destruct (ref_outcome line) as [[[r v] [|]]|] eqn:E; rewrite IH; clear IH.
    + split.
      * intros [Hin|(l & v' & Hl & Ho)].
        -- apply elem_of_union in Hin as [Hin|Hin]; [|by left].
           apply elem_of_singleton in Hin as ->. right. exists line, v. split; [left|done].
        -- right. exists l, v'. split; [by right|done].
      * intros [Hin|(l & v' & Hl & Ho)]; [left; set_solver|].
        apply elem_of_cons in Hl as [->|Hl].
        -- rewrite E in Ho. injection Ho as -> ->. left. set_solver.
        -- right. by exists l, v'.
    + split.
      * intros [Hin|(l & v' & Hl & Ho)]; [by left|]. right. exists l, v'. split; [by right|done].
      * intros [Hin|(l & v' & Hl & Ho)]; [by left|].
        apply elem_of_cons in Hl as [->|Hl]; [congruence|]. right. by exists l, v'.
    + split.
      * intros [Hin|(l & v' & Hl & Ho)]; [by left|]. right. exists l, v'. split; [by right|done].
      * intros [Hin|(l & v' & Hl & Ho)]; [by left|].
        apply elem_of_cons in Hl as [->|Hl]; [congruence|]. right. by exists l, v'.
Qed.

Lemma last_outcome_Some ref lines :
  is_Some (last_outcome ref lines) <->
  exists line v b, line ∈ lines /\ ref_outcome line = Some (ref, v, b).
Proof.
  induction lines as [|line rest IH]; simpl.
  - split; [intros [? ?]; done|]. intros (l & v & b & Hl & _). by apply elem_of_nil in Hl.
  - destruct (last_outcome ref rest) as [v0|] eqn:E.
    + split; [|eauto]. intros _. destruct IH as [IH _].
      destruct IH as (l & v & b & Hl & Ho); [eauto|].
      exists l, v, b. split; [by right|done].
    + split.
      * destruct (ref_outcome line) as [[[r v] b]|] eqn:Eo; [|intros [? ?]; done].
        destruct (String.eqb_spec r ref) as [->|Hne]; [|intros [? ?]; done].
        intros _. exists line, v, b. split; [left|done].
      * intros (l & v & b & Hl & Ho). apply elem_of_cons in Hl as [->|Hl].
        -- rewrite Ho. rewrite String.eqb_refl. eauto.
        -- destruct IH as [_ IH]. destruct IH as [? ?]; [eauto|done].
Qed.

Lemma failed_refs_spec (m : gmap string string) (ok : gset string) ref :
  ref ∈ failed_refs m ok <-> is_Some (m !! ref) /\ ref ∉ ok.
Proof.
  unfold failed_refs. rewrite list_elem_of_filter.
  rewrite list_elem_of_fmap. split.
  - intros [Hok ([r v] & -> & Hin)]. apply elem_of_map_to_list in Hin. simpl in *. eauto.
  - intros [[v Hv] Hok]. split; [done|]. exists (ref, v). split; [done|].
    by apply elem_of_map_to_list.
Qed.

Lemma failed_refs_NoDup (m : gmap string string) (ok : gset string) :
  NoDup (failed_refs m ok).
Proof. apply NoDup_filter, NoDup_fst_map_to_list. Qed.


Lemma split1_None c s : Py.contains c s = false -> Py.split1 c s = None.
Proof.
  induction s as [|a s IH]; simpl; [done|].
  destruct (Ascii.eqb a c); [done|]. intros H. by rewrite IH.
Qed.

Lemma split1_Some c s l r : Py.split1 c s = Some (l, r) -> s = l +:+ String c r.
Proof.
  revert l. induction s as [|a s IH]; simpl; intros l; [done|].
  destruct (Ascii.eqb_spec a c) as [->|Hne].
  - intros [= <- <-]. done.
  - destruct (Py.split1 c s) as [[l' r']|]; [|done].
    intros [= <- <-]. change (String a s = String a (l' +:+ String c r')).
    f_equal. by apply IH.
Qed.

Lemma starts_ok_contains line : starts_ok line = true -> Py.contains Py.sp line = true.
Proof.
  unfold starts_ok.
  destruct line as [|a [|b [|c s]]]; cbn [Py.startswith Py.contains];
    rewrite ?andb_false_r; try done.
  rewrite andb_true_r. intros H.
  apply andb_true_iff in H as [_ H]. apply andb_true_iff in H as [_ H].
  apply Ascii.eqb_eq in H as <-.
  destruct (Ascii.eqb a Py.sp); [done|]. destruct (Ascii.eqb b Py.sp); done.
Qed.

Lemma ref_outcome_ng_not_ok line r v :
  ref_outcome line = Some (r, v, false) -> starts_ok line = false.
Proof.
  unfold ref_outcome.
  destruct (Py.split1 Py.sp line) as [[status ref]|] eqn:E; [|done].
  destruct (String.eqb_spec status "ng") as [->|]; [|done].
  intros _. apply split1_Some in E as ->. reflexivity.
Qed.

Lemma handle_packet_flag pkt p p' :
  _ref_status_ok p = forallb starts_ok (_ref_statuses p) ->
  handle_packet pkt p = Ok p' ->
  _ref_status_ok p' = forallb starts_ok (_ref_statuses p').
Proof.
  unfold handle_packet. intros Hinv.
  destruct (_done p); [done|].
  destruct pkt as [pkt|]; [|by intros [= <-]].
  destruct (_pack_status p); [|by intros [= <-]].
  change (Py.startswith "ok " (Py.strip pkt)) with (starts_ok (Py.strip pkt)).
  destruct (starts_ok (Py.strip pkt)) eqn:E; intros [= <-];
    cbn [_ref_status_ok _ref_statuses negb]; rewrite forallb_app;
    cbn [forallb]; rewrite E, <- Hinv; by destruct (_ref_status_ok p).
Qed.

Lemma handle_packets_flag pkts : forall p p',
  _ref_status_ok p = forallb starts_ok (_ref_statuses p) ->
  handle_packets pkts p = Ok p' ->
  _ref_status_ok p' = forallb starts_ok (_ref_statuses p').
Proof.
  induction pkts as [|pkt rest IH]; simpl; intros p p' Hinv.
  - by intros [= <-].
  - destruct (handle_packet pkt p) as [q|] eqn:E; [|done].
    apply IH. by eapply handle_packet_flag.
Qed.

Lemma check_loop_skip bad lines : forall m ok,
  ref_outcome bad = None ->
  check_loop lines m ok = check_loop (filter (fun l => l ≠ bad) lines) m ok.
Proof.
  induction lines as [|line rest IH]; intros m ok Hbad; [done|].
  rewrite filter_cons. destruct (decide (line ≠ bad)) as [Hne|Heq].
  - rewrite !check_loop_cons.
    destruct (ref_outcome line) as [[[r v] [|]]|]; by apply IH.
  - apply dec_stable in Heq as ->. rewrite check_loop_cons, Hbad. by apply IH.
Qed.

Lemma check_SendPackError p status :
  check p = Raise (SendPackError status) <->
  _pack_status p = Some status /\ status ≠ "unpack ok".
Proof.
  unfold check, check_ref_statuses.
  destruct (_pack_status p) as [st|].
  - destruct (String.eqb_spec st "unpack ok") as [->|Hne]; simpl.
    + split; [|intros [[= <-] ?]; done].
      destruct (_ref_status_ok p); simpl; [done|]. by destruct (check_loop _ _ _).
    + split; [intros [= <-]; done|]. by intros [[= <-] _].
  - split; [|intros [? _]; done].
    destruct (_ref_status_ok p); simpl; [done|]. by destruct (check_loop _ _ _).
Qed.

Lemma check_status_ok p :
  _pack_status p = None \/ _pack_status p = Some "unpack ok" ->
  check p = check_ref_statuses p.
Proof. unfold check. intros [-> | ->]; reflexivity. Qed.



Lemma init_flag :
  _ref_status_ok ReportStatusParser_init
  = forallb starts_ok (_ref_statuses ReportStatusParser_init).
Proof. reflexivity. Qed.

Lemma check_ref_statuses_ok p :
  _ref_status_ok p = true -> check_ref_statuses p = Ok tt.
Proof. unfold check_ref_statuses. by intros ->. Qed.

Lemma check_ref_statuses_raise p :
  _ref_status_ok p = false ->
  check_ref_statuses p =
  Raise (UpdateRefsError
           (Py.join ", " (failed_refs (check_loop (_ref_statuses p) ∅ ∅).1
                                       (check_loop (_ref_statuses p) ∅ ∅).2)
            +:+ " failed to update")
           (check_loop (_ref_statuses p) ∅ ∅).1).
Proof.
  unfold check_ref_statuses. intros ->. cbn [negb].
  by destruct (check_loop (_ref_statuses p) ∅ ∅).
Qed.

(** What [check] does with any report fed to the parser packet by
    packet, as the code has it.  It raises [SendPackError] with the pack
    status exactly when a pack status was stored and differs from
    "unpack ok".  A line that reports [ng] for a ref is a line that does
    not start with "ok ".  When the pack status is "unpack ok" or absent:
    if every ref-status line starts with "ok ", [check] raises nothing;
    if some line does not, it raises [UpdateRefsError] carrying the map
    that gives each ref the value of the last line naming it, and the
    refs it lists as failed, each once, are those named by an [ng] line
    and by no line with another status word. *)
Lemma check_report (pkts : list (option string)) (p : ReportStatusParser) :
  handle_packets pkts ReportStatusParser_init = Ok p ->
  let lines := _ref_statuses p in
  (forall status,
     check p = Raise (SendPackError status) <->
     _pack_status p = Some status /\ status ≠ "unpack ok")
  /\ ((exists line ref v, line ∈ lines /\ ref_outcome line = Some (ref, v, false)) ->
      forallb starts_ok lines = false)
  /\ (_pack_status p = None \/ _pack_status p = Some "unpack ok" ->
      (forallb starts_ok lines = true -> check p = Ok tt)
      /\ (forallb starts_ok lines = false ->
          exists failed ref_status,
            check p = Raise (UpdateRefsError
                               (Py.join ", " failed +:+ " failed to update")
                               ref_status)
            /\ (forall ref, ref_status !! ref = last_outcome ref lines)
            /\ NoDup failed
            /\ (forall ref,
                  ref ∈ failed <->
                  (exists line v, line ∈ lines
                                  /\ ref_outcome line = Some (ref, v, false))
                  /\ ~ (exists line v, line ∈ lines
                                       /\ ref_outcome line = Some (ref, v, true))))).
Proof.
  intros Hp lines.
  pose proof (handle_packets_flag _ _ _ init_flag Hp) as Hflag. fold lines in Hflag.
  split; [intros status; apply check_SendPackError|].
  split.
  { intros (line & ref & v & Hin & Ho).
    apply not_true_is_false. intros Hall.
    rewrite forallb_forall in Hall.
    apply ref_outcome_ng_not_ok in Ho.
    apply list_elem_of_In in Hin. apply Hall in Hin. congruence. }
  intros Hst. rewrite (check_status_ok _ Hst). split.
  - intros Hall. apply check_ref_statuses_ok. congruence.
  - intros Hsome. rewrite check_ref_statuses_raise by congruence. fold lines.
    exists (failed_refs (check_loop lines ∅ ∅).1 (check_loop lines ∅ ∅).2),
           (check_loop lines ∅ ∅).1.
    split; [reflexivity|]. split; [|split].
    + intros ref. rewrite check_loop_map, lookup_empty.
      by destruct (last_outcome ref lines).
    + apply failed_refs_NoDup.
    + intros ref. rewrite failed_refs_spec, check_loop_ok.
      rewrite check_loop_map, lookup_empty.
      assert (Hs : is_Some (match last_outcome ref lines with
                            | Some v => Some v | None => None end)
                   <-> is_Some (last_outcome ref lines))
        by (by destruct (last_outcome ref lines)).
      rewrite Hs, last_outcome_Some. split.
      * intros [(line & v & b & Hin & Ho) Hnot]. split.
        -- destruct b; [|by exists line, v].
           exfalso. apply Hnot. right. by exists line, v.
        -- intros Hex. apply Hnot. by right.
      * intros [(line & v & Hin & Ho) Hnot]. split; [by exists line, v, false|].
        intros [Hin'|Hex]; [set_solver|done].
Qed.

(** C6 (what the code does at an input where the claim fails).  The
    report "unpack ok", "ok refs/heads/a", "ok refs/heads/b" and a line
    without a space.  The pack status is "unpack ok" and no line reports
    [ng]: the claim says [check] raises nothing.  [handle_packet] has
    cleared [_ref_status_ok] for the line without a space, so [check]
    raises [UpdateRefsError]; its loop skips that line, so the error
    names no ref and its map gives both refs as ok. *)
Theorem report_without_ng_raises :
  handle_packets [Some ("unpack ok" +:+ NL); Some ("ok refs/heads/a" +:+ NL);
                  Some ("ok refs/heads/b" +:+ NL); Some ("bogus" +:+ NL); None]
    ReportStatusParser_init = Ok accepted_report
  /\ _pack_status accepted_report = Some "unpack ok"
  /\ existsb reports_ng (_ref_statuses accepted_report) = false
  /\ Py.contains Py.sp "bogus" = false
  /\ check accepted_report
     = Raise (UpdateRefsError " failed to update"
                {[ "refs/heads/a" := "ok"; "refs/heads/b" := "ok" ]}).
Proof. vm_compute. repeat split; reflexivity. Qed.

(** A ref-status line without a space, in any report, as the code has
    it.  It records no outcome: [check] builds the same outcome map and
    the same set of succeeded refs as without that line.  It is among
    the lines that do not start with "ok ", so [check] raises:
    [SendPackError] for a pack status other than "unpack ok", and
    otherwise an [UpdateRefsError] whose map and failure list come from
    the other lines. *)
Lemma malformed_line_recorded (pkts : list (option string))
    (p : ReportStatusParser) (bad : string) :
  handle_packets pkts ReportStatusParser_init = Ok p ->
  bad ∈ _ref_statuses p ->
  Py.contains Py.sp bad = false ->
  let others := filter (fun line => line ≠ bad) (_ref_statuses p) in
  ref_outcome bad = None
  /\ check_loop (_ref_statuses p) ∅ ∅ = check_loop others ∅ ∅
  /\ (_pack_status p = None \/ _pack_status p = Some "unpack ok" ->
      check p = Raise (UpdateRefsError
                         (Py.join ", " (failed_refs (check_loop others ∅ ∅).1
                                                     (check_loop others ∅ ∅).2)
                          +:+ " failed to update")
                         (check_loop others ∅ ∅).1))
  /\ (forall status, _pack_status p = Some status -> status ≠ "unpack ok" ->
      check p = Raise (SendPackError status)).
Proof.
  intros Hp Hin Hbad others.
  assert (Hnone : ref_outcome bad = None).
  { unfold ref_outcome. by rewrite split1_None. }
  assert (Hskip := check_loop_skip bad (_ref_statuses p) ∅ ∅ Hnone).
  fold others in Hskip.
  assert (Hflag : _ref_status_ok p = false).
  { rewrite (handle_packets_flag _ _ _ init_flag Hp).
    apply not_true_is_false. intros Hall. rewrite forallb_forall in Hall.
    apply list_elem_of_In in Hin. apply Hall, starts_ok_contains in Hin. congruence. }
  split; [done|]. split; [done|]. split.
  - intros Hst. rewrite check_status_ok by done.
    rewrite check_ref_statuses_raise by done. by rewrite Hskip.
  - intros status Hst Hne. by apply check_SendPackError.
Qed.

(** C7 (what the code does at an input where the claim fails).  The
    report "unpack ok", "ok refs/heads/a" and the line "garbage", which
    has no space.  [check] skips the line when it builds the outcome map,
    as its comment says: the map and the set of succeeded refs are those
    of the report without the line.  But [handle_packet] has cleared
    [_ref_status_ok] for it, so the line alone makes [check] raise
    [UpdateRefsError], naming no ref, with a map in which the only ref
    is ok. *)
Theorem malformed_line_alone_raises :
  handle_packets [Some ("unpack ok" +:+ NL); Some ("ok refs/heads/a" +:+ NL);
                  Some ("garbage" +:+ NL); None]
    ReportStatusParser_init = Ok malformed_report
  /\ Py.contains Py.sp "garbage" = false
  /\ ref_outcome "garbage" = None
  /\ check_loop (_ref_statuses malformed_report) ∅ ∅
     = check_loop ["ok refs/heads/a"] ∅ ∅
  /\ forallb starts_ok ["ok refs/heads/a"] = true
  /\ check malformed_report
     = Raise (UpdateRefsError " failed to update" {[ "refs/heads/a" := "ok" ]}).
Proof. vm_compute. repeat split; reflexivity. Qed.

(** ** The update lines of a push *)

Lemma set_out_id w : set_out (out w) w = w.
Proof. by destruct w. Qed.

Lemma set_out_set_out o1 o2 w : set_out o2 (set_out o1 w) = set_out o2 w.
Proof. reflexivity. Qed.

Lemma update_lines_nil caps sent old_refs new_refs :
  update_lines caps sent old_refs new_refs [] = [].
Proof. unfold update_lines. by destruct sent. Qed.

Lemma update_lines_same caps sent old_refs new_refs r rest :
  id_of old_refs r = id_of new_refs r ->
  update_lines caps sent old_refs new_refs (r :: rest)
  = update_lines caps sent old_refs new_refs rest.
Proof.
  intros Heq. unfold update_lines. rewrite filter_cons.
  destruct (decide (id_of old_refs r ≠ id_of new_refs r)); done.
Qed.

Lemma update_lines_changed caps sent old_refs new_refs r rest :
  id_of old_refs r ≠ id_of new_refs r ->
  update_lines caps sent old_refs new_refs (r :: rest)
  = (if sent then update_line (id_of old_refs r) (id_of new_refs r) r
     else update_line (id_of old_refs r) (id_of new_refs r) r
          +:+ String Py.nul (Py.join " " caps))
    :: update_lines caps true old_refs new_refs rest.
Proof.
  intros Hne. unfold update_lines. rewrite filter_cons.
  destruct (decide (id_of old_refs r ≠ id_of new_refs r)); [|done].
  by destruct sent.
Qed.

(** The update loop always runs to its end and writes the update lines. *)
Lemma update_loop_run old_refs new_refs have l caps refnames :
  forall sent want w,
    heap w !! l = Some caps ->
    exists want',
      update_loop old_refs new_refs have l refnames sent want w
      = (set_out (out w ++ map WPkt (update_lines caps sent old_refs new_refs refnames)) w,
         Ok want').
Proof.
  induction refnames as [|r rest IH]; intros sent want w Hl.
  - exists want. simpl. rewrite update_lines_nil. simpl.
    by rewrite app_nil_r, set_out_id.
  - cbn [update_loop].
    fold (id_of old_refs r). fold (id_of new_refs r).
    destruct (String.eqb_spec (id_of old_refs r) (id_of new_refs r)) as [Heq|Hne].
    + rewrite update_lines_same by done. cbn [negb].
      unfold mbind, M_mbind, M_bind. cbn [mret M_mret M_ret]. apply IH, Hl.
    + rewrite update_lines_changed by done. cbn [negb].
      destruct sent.
      * unfold mbind, M_mbind, M_bind, Protocol.write_pkt_line, modify.
        cbn [mret M_mret M_ret].
        edestruct (IH true) as [want' ->]; [exact Hl|].
        eexists. cbn [out set_out heap]. rewrite <- app_assoc. reflexivity.
      * unfold mbind, M_mbind, M_bind, Protocol.write_pkt_line, modify, list_get.
        rewrite Hl. cbn [mret M_mret M_ret].
        edestruct (IH true) as [want' ->]; [exact Hl|].
        eexists. cbn [out set_out heap]. rewrite <- app_assoc. reflexivity.
Qed.

Lemma mem_remove_first v xs :
  mem v xs = true -> is_Some (remove_first v xs).
Proof.
  induction xs as [|x xs IH]; simpl; [done|].
  rewrite (String.eqb_sym v x).
  destruct (String.eqb x v); [eauto|]. simpl. intros H.
  destruct (IH H) as [r ->]. eauto.
Qed.

(** What [send_pack] writes when [determine_wants] gives a non-empty
    map, as the code has it: the update lines, then one flush, then at
    most the pack.  There is one line for each ref of the old or new refs
    whose ids differ, and the first line also carries a NUL byte and the
    list the code has copied from the client, less [report-status] when
    the server did not advertise it. *)
Lemma send_pack_update_lines (self : GitClient)
    (determine_wants : gmap string string -> gmap string string)
    (generate_pack_contents : list string -> list string -> list string)
    (progress : bool) (w w1 : world) (old_refs : gmap string string)
    (advertised requested : list string) :
  run _read_refs w = (w1, Ok (old_refs, Some advertised)) ->
  determine_wants old_refs ≠ ∅ ->
  heap w !! _send_capabilities self = Some requested ->
  mem "report-status" requested = true ->
  exists changed rest,
    out (run (send_pack self determine_wants generate_pack_contents progress) w).1
    = out w
      ++ map WPkt
           (with_capabilities
              (Py.join " " (negotiated_send requested advertised))
              (map (fun r => update_line (id_of old_refs r)
                                         (id_of (determine_wants old_refs) r) r)
                   changed))
      ++ WFlush :: rest
    /\ (rest = [] \/ exists objects, rest = [WPack objects])
    /\ NoDup changed
    /\ (forall r, r ∈ changed <->
                  (r ∈ dom old_refs \/ r ∈ dom (determine_wants old_refs))
                  /\ id_of old_refs r ≠ id_of (determine_wants old_refs) r).
Proof.
  intros Hrefs Hwants Hreq Hrs.
  set (new_refs := determine_wants old_refs) in *.
  set (refnames := elements (dom new_refs ∪ dom old_refs)).
  exists (filter (fun r => id_of old_refs r ≠ id_of new_refs r) refnames).
  assert (Hw1 : heap w1 = heap w /\ out w1 = out w).
  { pose proof (keeps_read_refs heap ltac:(done) w) as Hh.
    pose proof (keeps_read_refs out ltac:(done) w) as Ho.
    unfold run in Hrefs. rewrite Hrefs in Hh, Ho. done. }
  destruct Hw1 as [Hheap Hout].
  unfold run, send_pack. unfold mbind at 1, M_mbind at 1, M_bind at 1.
  unfold run in Hrefs. rewrite Hrefs.
  (* the copy of the client's list *)
  unfold mbind at 1, M_mbind at 1, M_bind at 1.
  unfold list_copy, list_get, list_new.
  unfold mbind at 1, M_mbind at 1, M_bind at 1.
  rewrite <- Hheap in Hreq. rewrite Hreq.
  set (l := fresh (dom (heap w1))).
  set (w2 := set_heap (<[l := requested]> (heap w1)) w1).
  unfold mbind at 1, M_mbind at 1, M_bind at 1.
  cbn [in_server_capabilities mret M_mret M_ret].
  (* the negotiated list *)
  assert (Hneg : exists w3,
    ((if negb (mem "report-status" advertised)
      then list_remove l "report-status" else mret ()) w2 = (w3, Ok tt))
    /\ heap w3 !! l = Some (negotiated_send requested advertised)
    /\ out w3 = out w).
  { unfold negotiated_send. destruct (mem "report-status" advertised); cbn [negb].
    - exists w2. split; [done|]. split; [apply lookup_insert_eq|done].
    - destruct (mem_remove_first _ _ Hrs) as [xs Hxs].
      unfold list_remove, list_get, mbind, M_mbind, M_bind.
      cbn [heap w2 set_heap]. rewrite lookup_insert_eq, Hxs.
      eexists. split; [reflexivity|]. cbn [modify heap set_heap out default].
      split; [apply lookup_insert_eq|done]. }
  destruct Hneg as (w3 & Hrun & Hl & Hout3).
  unfold mbind at 1, M_mbind at 1, M_bind at 1. rewrite Hrun.
  fold new_refs. rewrite bool_decide_eq_false_2 by done.
  (* the update lines *)
  unfold mbind at 1, M_mbind at 1, M_bind at 1.
  edestruct (update_loop_run old_refs new_refs) as [want ->]; [exact Hl|].
  fold refnames.
  unfold mbind at 1, M_mbind at 1, M_bind at 1.
  cbn [Protocol.write_pkt_line modify out set_out].
  assert (Hlines :
    update_lines (negotiated_send requested advertised) false old_refs new_refs refnames
    = with_capabilities (Py.join " " (negotiated_send requested advertised))
        (map (fun r => update_line (id_of old_refs r) (id_of new_refs r) r)
             (filter (fun r => id_of old_refs r ≠ id_of new_refs r) refnames)))
    by reflexivity.
  assert (Hchanged :
    NoDup (filter (fun r => id_of old_refs r ≠ id_of new_refs r) refnames)
    /\ forall r, r ∈ filter (fun r => id_of old_refs r ≠ id_of new_refs r) refnames
                 <-> (r ∈ dom old_refs \/ r ∈ dom new_refs)
                     /\ id_of old_refs r ≠ id_of new_refs r).
  { split; [apply NoDup_filter, NoDup_elements|].
    intros r. rewrite list_elem_of_filter. unfold refnames.
    rewrite elem_of_elements, elem_of_union. tauto. }
  destruct Hchanged as [Hnodup Hmem].
  destruct want as [|want0 want].
  - exists []. cbn [mret M_mret M_ret fst out set_out].
    rewrite Hout3, Hlines, <- app_assoc. auto.
  - exists [WPack (generate_pack_contents
                     (filter (fun x => x ≠ Protocol.ZERO_SHA) (map_to_list old_refs).*2)
                     (want0 :: want))].
    cbv zeta. unfold mbind at 1, M_mbind at 1, M_bind at 1.
    cbn [Protocol.write_pack modify].
    rewrite (keeps_send_pack_response out) by done.
    cbn [out set_out]. rewrite Hout3, Hlines, <- !app_assoc.
    split; [reflexivity|]. eauto.
Qed.

(** With an empty map [send_pack] writes the flush and nothing else. *)
Lemma send_pack_empty_map (self : GitClient)
    (determine_wants : gmap string string -> gmap string string)
    (generate_pack_contents : list string -> list string -> list string)
    (progress : bool) (w w1 : world) (old_refs : gmap string string)
    (advertised requested : list string) :
  run _read_refs w = (w1, Ok (old_refs, Some advertised)) ->
  determine_wants old_refs = ∅ ->
  heap w !! _send_capabilities self = Some requested ->
  mem "report-status" requested = true ->
  out (run (send_pack self determine_wants generate_pack_contents progress) w).1
  = out w ++ [WFlush].
Proof.
  intros Hrefs Hwants Hreq Hrs.
  assert (Hw1 : heap w1 = heap w /\ out w1 = out w).
  { pose proof (keeps_read_refs heap ltac:(done) w) as Hh.
    pose proof (keeps_read_refs out ltac:(done) w) as Ho.
    unfold run in Hrefs. rewrite Hrefs in Hh, Ho. done. }
  destruct Hw1 as [Hheap Hout].
  unfold run, send_pack. unfold mbind at 1, M_mbind at 1, M_bind at 1.
  unfold run in Hrefs. rewrite Hrefs.
  unfold mbind at 1, M_mbind at 1, M_bind at 1.
  unfold list_copy, list_get, list_new.
  unfold mbind at 1, M_mbind at 1, M_bind at 1.
  rewrite <- Hheap in Hreq. rewrite Hreq.
  set (l := fresh (dom (heap w1))).
  set (w2 := set_heap (<[l := requested]> (heap w1)) w1).
  unfold mbind at 1, M_mbind at 1, M_bind at 1.
  cbn [in_server_capabilities mret M_mret M_ret].
  assert (Hneg : exists w3,
    ((if negb (mem "report-status" advertised)
      then list_remove l "report-status" else mret ()) w2 = (w3, Ok tt))
    /\ out w3 = out w).
  { destruct (mem "report-status" advertised); cbn [negb].
    - by exists w2.
    - destruct (mem_remove_first _ _ Hrs) as [xs Hxs].
      unfold list_remove, list_get, mbind, M_mbind, M_bind.
      cbn [heap w2 set_heap]. rewrite lookup_insert_eq, Hxs.
      eexists. split; [reflexivity|]. done. }
  destruct Hneg as (w3 & Hrun & Hout3).
  unfold mbind at 1, M_mbind at 1, M_bind at 1. rewrite Hrun.
  rewrite Hwants. rewrite bool_decide_eq_true_2 by done.
  unfold mbind, M_mbind, M_bind, Protocol.write_pkt_line, modify.
  cbn [mret M_mret M_ret fst out set_out]. by rewrite Hout3.
Qed.

Lemma filter_all (f : string -> bool) (xs : list string) :
  (forall x, x ∈ xs -> f x = true) -> List.filter f xs = xs.
Proof.
  induction xs as [|x xs IH]; intros H; [done|]. cbn [List.filter].
  rewrite (H x) by left. rewrite IH; [done|]. intros y Hy. apply H. by right.
Qed.

(** When the server advertises every capability the client requests,
    [report-status] apart, the list the code sends is the negotiated
    capability set. *)
Lemma negotiated_send_set (requested advertised : list string) :
  NoDup requested ->
  (forall c, c ∈ requested -> c ≠ "report-status" -> mem c advertised = true) ->
  negotiated_send requested advertised
  = negotiated_capability_set requested advertised.
Proof.
  intros Hnd Hall. unfold negotiated_send, negotiated_capability_set.
  destruct (mem "report-status" advertised) eqn:Hrs.
  - symmetry. apply filter_all. intros c Hc.
    destruct (decide (c = "report-status")) as [->|Hne]; [done|by apply Hall].
  - induction requested as [|x xs IH]; [done|].
    apply NoDup_cons in Hnd as [Hx Hnd]. cbn [remove_first List.filter].
    destruct (String.eqb_spec x "report-status") as [->|Hne].
    + rewrite Hrs. change (default ("report-status" :: xs) (Some xs)) with xs.
      symmetry. apply filter_all.
      intros c Hc. apply Hall; [by right|]. intros ->. done.
    + rewrite (Hall x) by (done || left).
      specialize (IH Hnd (fun c Hc => Hall c (list_elem_of_further _ _ _ Hc))).
      destruct (remove_first "report-status" xs) as [r|].
      * change (r = List.filter (fun c => mem c advertised) xs) in IH.
        change (x :: r = x :: List.filter (fun c => mem c advertised) xs).
        by rewrite IH.
      * change (xs = List.filter (fun c => mem c advertised) xs) in IH.
        change (x :: xs = x :: List.filter (fun c => mem c advertised) xs).
        by rewrite <- IH.
Qed.

(** C8 (as the code has it).  For every push in which the advertisement
    was read with a capability list, the client's send capability list
    has no repeats and holds report-status, and the server advertises
    every other capability of that list.  When [determine_wants] gives
    the empty map, only the flush is written.  Otherwise what
    [send_pack] writes is the update lines, then one flush, then at most
    the pack: there is exactly one line "<old> <new> <ref>" for each ref
    of the old or new refs whose old and new ids differ (an absent id
    being [ZERO_SHA]), and the first line, and only the first, also
    carries a NUL byte and the negotiated capability set (the requested
    capabilities that the server advertised), joined by spaces. *)
Theorem update_stream (self : GitClient)
    (determine_wants : gmap string string -> gmap string string)
    (generate_pack_contents : list string -> list string -> list string)
    (progress : bool) (w w1 : world) (old_refs : gmap string string)
    (advertised requested : list string) :
  run _read_refs w = (w1, Ok (old_refs, Some advertised)) ->
  heap w !! _send_capabilities self = Some requested ->
  mem "report-status" requested = true ->
  NoDup requested ->
  (forall c, c ∈ requested -> c ≠ "report-status" -> mem c advertised = true) ->
  (determine_wants old_refs = ∅ ->
   out (run (send_pack self determine_wants generate_pack_contents progress) w).1
   = out w ++ [WFlush])
  /\ (determine_wants old_refs ≠ ∅ ->
      exists changed rest,
        out (run (send_pack self determine_wants generate_pack_contents progress) w).1
        = out w
          ++ map WPkt
               (with_capabilities
                  (Py.join " " (negotiated_capability_set requested advertised))
                  (map (fun r => update_line (id_of old_refs r)
                                             (id_of (determine_wants old_refs) r) r)
                       changed))
          ++ WFlush :: rest
        /\ (rest = [] \/ exists objects, rest = [WPack objects])
        /\ NoDup changed
        /\ (forall r, r ∈ changed <->
                      (r ∈ dom old_refs \/ r ∈ dom (determine_wants old_refs))
                      /\ id_of old_refs r ≠ id_of (determine_wants old_refs) r)).
Proof.
  intros Hrefs Hreq Hrs Hnd Hall. split.
  - intros Hwants. by eapply send_pack_empty_map.
  - intros Hwants. rewrite <- (negotiated_send_set _ _ Hnd Hall).
    by eapply send_pack_update_lines.
Qed.

(** The push that deletes [refs/heads/x] and creates [refs/heads/y], on
    a server that does not advertise report-status: two update lines, in
    the order in which the set of ref names yields them here, the first
    with the two negotiated capabilities. *)
Lemma update_stream_witness :
  run _read_refs (world0 quiet_push_server)
  = (world0 EmptyString,
     Ok ({[ "refs/heads/x" := id_a ]}, Some ["side-band-64k"; "ofs-delta"]))
  /\ heap (world0 quiet_push_server) !! _send_capabilities client0
     = Some SEND_CAPABILITIES
  /\ mem "report-status" SEND_CAPABILITIES = true
  /\ NoDup SEND_CAPABILITIES
  /\ (forall c, c ∈ SEND_CAPABILITIES -> c ≠ "report-status" ->
                mem c ["side-band-64k"; "ofs-delta"] = true)
  /\ negotiated_capability_set SEND_CAPABILITIES ["side-band-64k"; "ofs-delta"]
     = ["ofs-delta"; "side-band-64k"]
  /\ out (run (send_pack client0 move_x_to_y objects_of false)
            (world0 quiet_push_server)).1
     = [WPkt (update_line Protocol.ZERO_SHA id_b "refs/heads/y"
              +:+ NUL +:+ "ofs-delta side-band-64k");
        WPkt (update_line id_a Protocol.ZERO_SHA "refs/heads/x");
        WFlush; WPack [id_b]]
  /\ (move_x_to_y {[ "refs/heads/x" := id_a ]} = ∅ ->
      out (run (send_pack client0 move_x_to_y objects_of false)
             (world0 quiet_push_server)).1
      = out (world0 quiet_push_server) ++ [WFlush])
  /\ (move_x_to_y {[ "refs/heads/x" := id_a ]} ≠ ∅ ->
      exists changed rest,
        out (run (send_pack client0 move_x_to_y objects_of false)
               (world0 quiet_push_server)).1
        = out (world0 quiet_push_server)
          ++ map WPkt
               (with_capabilities
                  (Py.join " "
                     (negotiated_capability_set SEND_CAPABILITIES
                        ["side-band-64k"; "ofs-delta"]))
                  (map (fun r =>
                          update_line (id_of {[ "refs/heads/x" := id_a ]} r)
                            (id_of (move_x_to_y {[ "refs/heads/x" := id_a ]}) r) r)
                       changed))
          ++ WFlush :: rest
        /\ (rest = [] \/ exists objects, rest = [WPack objects])
        /\ NoDup changed
        /\ (forall r,
              r ∈ changed <->
              (r ∈ dom ({[ "refs/heads/x" := id_a ]} : gmap string string)
               \/ r ∈ dom (move_x_to_y {[ "refs/heads/x" := id_a ]}))
              /\ id_of {[ "refs/heads/x" := id_a ]} r
                 ≠ id_of (move_x_to_y {[ "refs/heads/x" := id_a ]}) r)).
Proof.
  assert (Hcaps : forall c, c ∈ SEND_CAPABILITIES -> c ≠ "report-status" ->
                            mem c ["side-band-64k"; "ofs-delta"] = true).
  { intros c Hc Hne. apply list_elem_of_In in Hc. simpl in Hc.
    destruct Hc as [<-|[<-|[<-|[]]]]; [done|reflexivity|reflexivity]. }
  assert (Hnd : NoDup SEND_CAPABILITIES).
  { apply NoDup_ListNoDup. repeat constructor; simpl; intuition discriminate. }
  split; [vm_compute; reflexivity|].
  split; [reflexivity|]. split; [reflexivity|]. split; [exact Hnd|].
  split; [exact Hcaps|]. split; [reflexivity|].
  split; [vm_compute; reflexivity|].
  apply (update_stream client0 move_x_to_y objects_of false
           (world0 quiet_push_server) (world0 EmptyString)
           {[ "refs/heads/x" := id_a ]} ["side-band-64k"; "ofs-delta"]
           SEND_CAPABILITIES).
  - vm_compute; reflexivity.
  - reflexivity.
  - reflexivity.
  - exact Hnd.
  - exact Hcaps.
Defined.

(** ** URL dispatch *)

(** The constructor always succeeds and records the class it is given. *)
Lemma GitClient_init_class cls thin w :
  exists w' c, GitClient_init cls thin w = (w', Ok c) /\ class c = cls.
Proof.
  unfold GitClient_init, list_new, list_append, list_get, mbind, M_mbind, M_bind.
  cbn [heap set_heap].
  set (l1 := fresh (dom (heap w))).
  set (h1 := <[l1 := FETCH_CAPABILITIES]> (heap w)).
  set (l2 := fresh (dom h1)).
  destruct thin; [|by eexists _, _].
  assert (Hne : l2 ≠ l1).
  { intros Heq. apply (is_fresh (dom h1)). fold l2. rewrite Heq.
    apply elem_of_dom. unfold h1. rewrite lookup_insert_eq. eauto. }
  change (heap (set_heap (<[l2:=SEND_CAPABILITIES]> h1) (set_heap h1 w)) !! l1)
    with (<[l2:=SEND_CAPABILITIES]> h1 !! l1).
  rewrite lookup_insert_ne by done. unfold h1 at 1. rewrite lookup_insert_eq.
  by eexists _, _.
Qed.

Lemma dispatch_client uri cls thin p w :
  get_transport_and_path uri = (c ← GitClient_init cls thin; mret (c, p)) ->
  dispatch uri w = Ok (cls, p).
Proof.
  intros Heq. unfold dispatch, run. rewrite Heq.
  unfold mbind, M_mbind, M_bind.
  destruct (GitClient_init_class cls thin w) as (w' & c & -> & <-).
  reflexivity.
Qed.

(** C9.  The dispatch of the five locations, in any world. *)
Theorem url_dispatch (w : world) :
  dispatch "git://host:9418/repo" w = Ok (TCPGitClient (Some "host") 9418, "/repo")
  /\ dispatch "git+ssh://u@h/r" w = Ok (SSHGitClient (Some "h") None (Some "u"), "/r")
  /\ dispatch "u@h:p" w = Ok (SSHGitClient (Some "h") None (Some "u"), "p")
  /\ dispatch "/local/repo" w = Ok (SubprocessGitClient, "/local/repo")
  /\ dispatch "ftp://x" w = Raise (ValueError "Unknown git protocol scheme: ftp").
Proof.
  split; [apply (dispatch_client _ _ true); reflexivity|].
  split; [apply (dispatch_client _ _ true); reflexivity|].
  split; [apply (dispatch_client _ _ true); reflexivity|].
  split; [apply (dispatch_client _ _ true); reflexivity|].
  reflexivity.
Qed.

(** ** Conversations run on concrete inputs *)

(** C1 (what the code does at an input where the claim fails).  The
    server advertises [ofs-delta] only.  A fetch still asks for
    [multi_ack], [side-band-64k] and [thin-pack], and a push still asks
    for [side-band-64k]: what is sent is not the requested list
    intersected with the advertised one. *)
Theorem unadvertised_capabilities_sent :
  (run _read_refs (conversation plain_server [] [])).2
  = Ok ({[ "HEAD" := id_a ]}, Some ["ofs-delta"])
  /\ out (run (with_client (fun self => fetch_pack self (fun _ => [id_a]) false))
            (conversation (plain_server +:+ Protocol.pkt_line ("NAK" +:+ NL)) [] [])).1
     = [WPkt ("want " +:+ id_a +:+ " multi_ack ofs-delta side-band-64k thin-pack" +:+ NL);
        WFlush; WPkt ("done" +:+ NL)]
  /\ out (run (with_client (fun self => send_pack self push_x objects_of false))
            (conversation plain_server [] [])).1
     = [WPkt (update_line Protocol.ZERO_SHA id_b "refs/heads/x"
              +:+ NUL +:+ "ofs-delta side-band-64k");
        WFlush; WPack [id_b]].
Proof. vm_compute. repeat split; reflexivity. Qed.

(** C2 (what the code does at an input where the claim fails).  A push
    that only deletes [refs/heads/x], report-status negotiated, and a
    server that refuses the deletion: [send_pack] returns the new refs
    right after the flush and the status report stays unread. *)
Theorem deletion_only_push_skips_response :
  (run _read_refs (conversation (push_server +:+ deletion_refused) [] [])).2
  = Ok ({[ "refs/heads/x" := id_a ]},
        Some ["report-status"; "side-band-64k"; "ofs-delta"])
  /\ (run (with_client (fun self => send_pack self delete_x objects_of false))
        (conversation (push_server +:+ deletion_refused) [] [])).2
     = Ok {[ "refs/heads/x" := Protocol.ZERO_SHA ]}
  /\ out (run (with_client (fun self => send_pack self delete_x objects_of false))
            (conversation (push_server +:+ deletion_refused) [] [])).1
     = [WPkt (update_line id_a Protocol.ZERO_SHA "refs/heads/x"
              +:+ NUL +:+ "report-status ofs-delta side-band-64k");
        WFlush]
  /\ inp (run (with_client (fun self => send_pack self delete_x objects_of false))
            (conversation (push_server +:+ deletion_refused) [] [])).1
     = deletion_refused.
Proof. vm_compute. repeat split; reflexivity. Qed.

(** C3 (what the code does at an input where the claim fails).  A push
    to a server that advertises neither [side-band-64k] nor
    [report-status].  A client that does not ask for [side-band-64k]
    hands each payload of the response to a parser that does not exist,
    and at a clean end of stream it fails in the framer; the client as
    constructed asks for [side-band-64k] all the same and fails in the
    framer at a clean end of stream. *)
Theorem push_without_report_status_fails :
  (run (with_custom_client FETCH_CAPABILITIES no_side_band_send
          (fun self => send_pack self push_x objects_of false))
     (conversation (plain_server +:+ Protocol.pkt_line ("ok" +:+ NL)
                    +:+ Protocol.flush_pkt) [] [])).2
  = Raise (AttributeError "'NoneType' object has no attribute 'handle_packet'")
  /\ (run (with_custom_client FETCH_CAPABILITIES no_side_band_send
             (fun self => send_pack self push_x objects_of false))
        (conversation plain_server [] [])).2
     = Raise (GitProtocolError "malformed pkt-line or end of stream")
  /\ (run (with_client (fun self => send_pack self push_x objects_of false))
        (conversation plain_server [] [])).2
     = Raise (GitProtocolError "malformed pkt-line or end of stream").
Proof. vm_compute. repeat split; reflexivity. Qed.

(** C4 (what the code does at an input where the claim fails).  A fetch
    from a server that does not advertise [side-band-64k], which sends the
    pack as raw bytes.  A client that does not ask for [side-band-64k]
    fails on [self.read]; the client as constructed reads the raw bytes as
    side-band frames and fails in the framer.  In both cases the pack sink
    receives nothing. *)
Theorem fetch_without_side_band_fails :
  sink (run (with_custom_client no_side_band_fetch SEND_CAPABILITIES
               (fun self => fetch_pack self (fun _ => [id_a]) false))
          (conversation (plain_server +:+ Protocol.pkt_line ("NAK" +:+ NL) +:+ "PACK")
             [] [])).1 = []
  /\ (run (with_custom_client no_side_band_fetch SEND_CAPABILITIES
             (fun self => fetch_pack self (fun _ => [id_a]) false))
        (conversation (plain_server +:+ Protocol.pkt_line ("NAK" +:+ NL) +:+ "PACK")
           [] [])).2
     = Raise (AttributeError "'SubprocessGitClient' object has no attribute 'read'")
  /\ sink (run (with_client (fun self => fetch_pack self (fun _ => [id_a]) false))
             (conversation (plain_server +:+ Protocol.pkt_line ("NAK" +:+ NL) +:+ "PACK")
                [] [])).1 = []
  /\ (run (with_client (fun self => fetch_pack self (fun _ => [id_a]) false))
        (conversation (plain_server +:+ Protocol.pkt_line ("NAK" +:+ NL) +:+ "PACK")
           [] [])).2
     = Raise (GitProtocolError "malformed pkt-line or end of stream").
Proof. vm_compute. repeat split; reflexivity. Qed.

(** C5 (what the code does at an input where the claim fails).  A
    pending [ACK <id>] without [continue], read between two haves: the id
    is passed to the graph walker's [ack], then the access to the third
    word fails. *)
Theorem plain_ack_between_haves_fails :
  (run (with_client (fun self => fetch_pack self (fun _ => [id_a]) false))
     (conversation (fetch_server +:+ Protocol.pkt_line ("ACK " +:+ id_b +:+ NL)
                    +:+ Protocol.pkt_line (channel 1 "PACK") +:+ Protocol.flush_pkt)
        [true] [id_b])).2
  = Raise (IndexError "list index out of range")
  /\ gw_acked
       (run (with_client (fun self => fetch_pack self (fun _ => [id_a]) false))
          (conversation (fetch_server +:+ Protocol.pkt_line ("ACK " +:+ id_b +:+ NL)
                         +:+ Protocol.pkt_line (channel 1 "PACK") +:+ Protocol.flush_pkt)
             [true] [id_b])).1
     = [id_b].
Proof. vm_compute. repeat split; reflexivity. Qed.

(** C8, counterexample to the claim as stated: the server has
    [refs/heads/x], [determine_wants] gives the empty map, so the old and
    new ids of [refs/heads/x] differ; only the flush is written. *)
Lemma noop_push_emits_no_update :
  (run _read_refs (conversation push_server [] [])).2
  = Ok ({[ "refs/heads/x" := id_a ]},
        Some ["report-status"; "side-band-64k"; "ofs-delta"])
  /\ id_of {[ "refs/heads/x" := id_a ]} "refs/heads/x" ≠ id_of ∅ "refs/heads/x"
  /\ out (run (with_client (fun self => send_pack self (fun _ => ∅) objects_of false))
            (conversation push_server [] [])).1
     = [WFlush].
Proof. vm_compute. repeat split; try reflexivity. discriminate. Qed.

(** *** What the have loop does with a pending payload *)

Lemma have_loop_poll_ack_continue w w' pkt sha :
  Protocol.read_pkt_line w = (w', Ok (Some pkt)) ->
  Py.split Py.sp (Py.rstrip_nl pkt) = ["ACK"; sha; "continue"] ->
  have_loop_poll w = (set_gw_acked (gw_acked w' ++ [sha]) w', Ok tt).
Proof.
  intros E Hp. unfold have_loop_poll, mbind, M_mbind, M_bind.
  rewrite E. cbv zeta. rewrite Hp. reflexivity.
Qed.

Lemma have_loop_poll_other w w' pkt :
  Protocol.read_pkt_line w = (w', Ok (Some pkt)) ->
  Py.split Py.sp (Py.rstrip_nl pkt) !! 0 ≠ Some "ACK" ->
  have_loop_poll w = (w', Ok tt).
Proof.
  intros E Hp. unfold have_loop_poll, mbind, M_mbind, M_bind.
  rewrite E. cbv zeta. by rewrite bool_decide_eq_false_2.
Qed.

Lemma have_loop_poll_plain_ack w w' pkt sha :
  Protocol.read_pkt_line w = (w', Ok (Some pkt)) ->
  Py.split Py.sp (Py.rstrip_nl pkt) = ["ACK"; sha] ->
  have_loop_poll w
  = (set_gw_acked (gw_acked w' ++ [sha]) w',
     Raise (IndexError "list index out of range")).
Proof.
  intros E Hp. unfold have_loop_poll, mbind, M_mbind, M_bind.
  rewrite E. cbv zeta. rewrite Hp. reflexivity.
Qed.

(** [client0] in [world0] is what the constructor makes in an empty store. *)
Lemma client0_constructed server :
  run SubprocessGitClient_init (conversation server [] [])
  = (world0 server, Ok client0).
Proof. reflexivity. Qed.

(** Discharges [fits] on a concrete payload. *)
Ltac fits_tac :=
  unfold fits;
  match goal with
  | |- String.length ?s + 4 < _ =>
      let n := eval vm_compute in (String.length s) in
      change (String.length s) with n; lia
  end.

(** ** Strings *)

Lemma contains_app c a b :
  Py.contains c (a +:+ b) = Py.contains c a || Py.contains c b.
Proof.
  induction a as [|x a IH]; [done|].
  change (String x a +:+ b) with (String x (a +:+ b)).
  cbn [Py.contains]. by destruct (Ascii.eqb x c).
Qed.

Lemma split1_app c l r :
  Py.contains c l = false -> Py.split1 c (l +:+ String c r) = Some (l, r).
Proof.
  induction l as [|x l IH].
  - intros _. change (EmptyString +:+ String c r) with (String c r).
    cbn [Py.split1]. by rewrite Ascii.eqb_refl.
  - change (String x l +:+ String c r) with (String x (l +:+ String c r)).
    cbn [Py.contains Py.split1]. destruct (Ascii.eqb x c); [done|].
    intros H. by rewrite IH.
Qed.

Lemma rstrip_nl_app s :
  Py.contains Py.nl s = false -> Py.rstrip_nl (s +:+ NL) = s.
Proof.
  unfold Py.rstrip_nl. induction s as [|x s IH]; [done|].
  change (String x s +:+ NL) with (String x (s +:+ NL)).
  cbn [Py.contains Py.rstrip_if].
  destruct (Ascii.eqb x Py.nl) eqn:E; [done|]. intros H. rewrite IH by done.
  destruct s; [|done]. rewrite Ascii.eqb_sym, E. done.
Qed.

Lemma app_assoc_str a b c : (a +:+ b) +:+ c = a +:+ (b +:+ c).
Proof.
  induction a as [|x a IH]; [done|].
  change ((String x a +:+ b) +:+ c) with (String x ((a +:+ b) +:+ c)).
  by rewrite IH.
Qed.

(** ** Reading a packet sequence, packet by packet *)

Lemma read_flush w rest :
  inp w = Protocol.flush_pkt +:+ rest ->
  Protocol.read_pkt_line w = (set_inp rest w, Ok None).
Proof. intros E. unfold Protocol.read_pkt_line. by rewrite E. Qed.

Lemma for_pkt_seq_unfold {St} n (body : string -> St -> M St) st :
  Protocol.for_pkt_seq n body st
  = (pkt ← Protocol.read_pkt_line;
     match pkt with
     | None => mret st
     | Some p =>
         st' ← body p st;
         match n with
         | O => mret st'
         | S n' => Protocol.for_pkt_seq n' body st'
         end
     end).
Proof. by destruct n. Qed.

Section PktSeq.

Context {St : Type} (body : string -> St -> M St).
Hypothesis body_reads_nothing :
  forall p st w, String.length (inp (body p st w).1) <= String.length (inp w).

Lemma read_pkt_seq_for_end st w w1 :
  Protocol.read_pkt_line w = (w1, Ok None) ->
  Protocol.read_pkt_seq_for body st w = (w1, Ok st).
Proof.
  intros E. unfold Protocol.read_pkt_seq_for, mbind, M_mbind, M_bind, get_world.
  rewrite for_pkt_seq_unfold. unfold mbind, M_mbind, M_bind. by rewrite E.
Qed.

Lemma read_pkt_seq_for_step st w w1 p w2 st' :
  Protocol.read_pkt_line w = (w1, Ok (Some p)) ->
  body p st w1 = (w2, Ok st') ->
  Protocol.read_pkt_seq_for body st w = Protocol.read_pkt_seq_for body st' w2.
Proof.
  intros E Eb. unfold Protocol.read_pkt_seq_for, mbind, M_mbind, M_bind, get_world.
  rewrite for_pkt_seq_unfold. unfold mbind, M_mbind, M_bind. rewrite E, Eb.
  pose proof (read_pkt_line_shrinks _ _ _ E) as Hs.
  pose proof (body_reads_nothing p st w1) as Hb. rewrite Eb in Hb. simpl in Hb.
  destruct (String.length (inp w)) as [|n] eqn:En; [lia|].
  symmetry. apply for_pkt_seq_fuel; [done|lia|lia].
Qed.

Lemma read_pkt_seq_for_raise st w w1 p w2 e :
  Protocol.read_pkt_line w = (w1, Ok (Some p)) ->
  body p st w1 = (w2, Raise e) ->
  Protocol.read_pkt_seq_for body st w = (w2, Raise e).
Proof.
  intros E Eb. unfold Protocol.read_pkt_seq_for, mbind, M_mbind, M_bind, get_world.
  rewrite for_pkt_seq_unfold. unfold mbind, M_mbind, M_bind. by rewrite E, Eb.
Qed.

End PktSeq.

(** ** More on the report-status parser *)

Lemma handle_packets_app pkts1 pkts2 p :
  handle_packets (pkts1 ++ pkts2) p
  = match handle_packets pkts1 p with
    | Ok p' => handle_packets pkts2 p'
    | Raise e => Raise e
    end.
Proof.
  revert p. induction pkts1 as [|pkt pkts1 IH]; intros p; simpl; [done|].
  destruct (handle_packet pkt p); [apply IH|done].
Qed.

Lemma handle_packets_lines lines : forall status seen ok,
  handle_packets (map Some lines) (mkParser false (Some status) ok seen)
  = Ok (mkParser false (Some status)
          (ok && forallb starts_ok (map Py.strip lines))
          (seen ++ map Py.strip lines)).
Proof.
  induction lines as [|line lines IH]; intros status seen ok.
  - simpl. by rewrite andb_true_r, app_nil_r.
  - cbn [map handle_packets handle_packet _done _pack_status _ref_status_ok
         _ref_statuses].
    rewrite IH. cbn [forallb]. rewrite <- app_assoc. cbn [app].
    fold (starts_ok (Py.strip line)).
    by destruct (starts_ok (Py.strip line)), ok.
Qed.

(** X1.  A whole report.  The first payload is stored, stripped, as the
    pack status; every later payload is appended, stripped, to the ref
    statuses in the order received; the flag says whether all of them
    start with "ok "; the flush marks the parser done. *)
Theorem handle_packets_report (first : string) (lines : list string) :
  handle_packets (Some first :: map Some lines ++ [None]) ReportStatusParser_init
  = Ok (mkParser true (Some (Py.strip first))
          (forallb starts_ok (map Py.strip lines))
          (map Py.strip lines)).
Proof.
  cbn [handle_packets handle_packet ReportStatusParser_init _done _pack_status
       _ref_status_ok _ref_statuses].
  rewrite handle_packets_app, handle_packets_lines. reflexivity.
Qed.

Lemma handle_packets_error pkts : forall p e,
  handle_packets pkts p = Raise e ->
  e = GitProtocolError "received more data after status report".
Proof.
  induction pkts as [|pkt pkts IH]; intros p e; simpl; [done|].
  destruct (handle_packet pkt p) as [p'|e'] eqn:E; [apply IH|].
  intros [= <-]. unfold handle_packet in E.
  destruct (_done p); [by injection E as <-|].
  destruct pkt; [|done]. by destruct (_pack_status p).
Qed.

(** X2.  Nothing may follow the flush.  Whatever was fed before, once a
    flush has been handled any further packet, payload or flush, raises
    [GitProtocolError]. *)
Theorem data_after_flush_rejected (before after : list (option string))
    (pkt : option string) :
  handle_packets (before ++ None :: pkt :: after) ReportStatusParser_init
  = Raise (GitProtocolError "received more data after status report").
Proof.
  rewrite handle_packets_app.
  destruct (handle_packets before ReportStatusParser_init) as [p|e] eqn:E.
  - destruct (handle_packets (None :: pkt :: after) p) as [p'|e] eqn:E2.
    + exfalso. cbn [handle_packets] in E2. unfold handle_packet at 1 in E2.
      destruct (_done p) eqn:Hd; [done|].
      cbn [handle_packets] in E2. unfold handle_packet at 1 in E2.
      cbn [_done] in E2. done.
    + f_equal. by eapply handle_packets_error.
  - f_equal. by eapply handle_packets_error.
Qed.

(** ** Constructing a client *)

(** X3.  The constructor gives the client two new list objects of its own:
    they are distinct, were not in the store before, hold the fetch list
    (with [thin-pack] exactly when [thin_packs] is set) and the send list,
    and every list object that existed keeps its value. *)
Theorem GitClient_init_lists (cls : client_class) (thin_packs : bool) (w : world) :
  exists w' self,
    GitClient_init cls thin_packs w = (w', Ok self)
    /\ class self = cls
    /\ _fetch_capabilities self ≠ _send_capabilities self
    /\ heap w !! _fetch_capabilities self = None
    /\ heap w !! _send_capabilities self = None
    /\ heap w' !! _fetch_capabilities self
       = Some (if thin_packs then FETCH_CAPABILITIES ++ ["thin-pack"]
               else FETCH_CAPABILITIES)
    /\ heap w' !! _send_capabilities self = Some SEND_CAPABILITIES
    /\ (forall l xs, heap w !! l = Some xs -> heap w' !! l = Some xs)
    /\ inp w' = inp w /\ out w' = out w.
Proof.
  unfold GitClient_init, list_new, list_append, list_get, mbind, M_mbind, M_bind.
  cbn [heap set_heap].
  set (l1 := fresh (dom (heap w))).
  set (h1 := <[l1 := FETCH_CAPABILITIES]> (heap w)).
  set (l2 := fresh (dom h1)).
  assert (H1 : heap w !! l1 = None).
  { apply not_elem_of_dom, is_fresh. }
  assert (Hne : l1 ≠ l2).
  { intros Heq. apply (is_fresh (dom h1)). fold l2. rewrite <- Heq.
    apply elem_of_dom. unfold h1. rewrite lookup_insert_eq. eauto. }
  assert (H2 : heap w !! l2 = None).
  { destruct (heap w !! l2) as [xs|] eqn:E; [|done].
    exfalso. apply (is_fresh (dom h1)). fold l2. apply elem_of_dom.
    unfold h1. rewrite lookup_insert_ne by done. eauto. }
  assert (Hold : forall l xs, heap w !! l = Some xs -> l ≠ l1 /\ l ≠ l2).
  { intros l xs Hl. split; intros ->; congruence. }
  destruct thin_packs.
  - change (heap (set_heap (<[l2:=SEND_CAPABILITIES]> h1) (set_heap h1 w)) !! l1)
      with (<[l2:=SEND_CAPABILITIES]> h1 !! l1).
    rewrite lookup_insert_ne by done. unfold h1 at 1. rewrite lookup_insert_eq.
    eexists _, _. split; [reflexivity|]. cbn [class _fetch_capabilities
      _send_capabilities modify fst heap set_heap inp out set_inp].
    repeat split; try done.
    + apply lookup_insert_eq.
    + rewrite lookup_insert_ne by done. apply lookup_insert_eq.
    + intros l xs Hl. destruct (Hold l xs Hl).
      rewrite !lookup_insert_ne by done. unfold h1.
      by rewrite lookup_insert_ne.
  - eexists _, _. split; [reflexivity|]. cbn [class _fetch_capabilities
      _send_capabilities mret M_mret M_ret fst heap set_heap inp out].
    repeat split; try done.
    + rewrite lookup_insert_ne by done. apply lookup_insert_eq.
    + apply lookup_insert_eq.
    + intros l xs Hl. destruct (Hold l xs Hl).
      rewrite lookup_insert_ne by done. unfold h1.
      by rewrite lookup_insert_ne.
Qed.

(** ** Reading the ref advertisement *)

Lemma read_refs_from_start : _read_refs = read_refs_from (∅, None).
Proof. reflexivity. Qed.

Lemma read_refs_body_pure (p : string)
    (st : gmap string string * option (list string)) (w : world) :
  String.length
    (inp ((let '(refs, server_capabilities) := st in
           match Py.split1 Py.sp (Py.rstrip_nl p) with
           | None => raise (ValueError "need more than 1 value to unpack")
           | Some (sha, ref) =>
               if String.eqb sha "ERR" then raise (GitProtocolError ref)
               else
                 match server_capabilities with
                 | None =>
                     let '(ref, caps) := Protocol.extract_capabilities ref in
                     mret (<[ref := sha]> refs, Some caps)
                 | Some _ => mret (<[ref := sha]> refs, server_capabilities)
                 end
           end) w).1) <= String.length (inp w).
Proof.
  destruct st as [refs caps].
  destruct (Py.split1 _ _) as [[sha ref]|]; [|done].
  destruct (String.eqb sha "ERR"); [done|].
  destruct caps; [done|]. by destruct (Protocol.extract_capabilities ref).
Qed.

Lemma ref_line_split sha ref :
  Py.contains Py.sp sha = false -> Py.contains Py.nl sha = false ->
  Py.contains Py.nl ref = false ->
  Py.split1 Py.sp (Py.rstrip_nl (sha +:+ " " +:+ ref +:+ NL)) = Some (sha, ref).
Proof.
  intros Hsp Hnl Href.
  replace (sha +:+ " " +:+ ref +:+ NL) with ((sha +:+ " " +:+ ref) +:+ NL)
    by (by rewrite !app_assoc_str).
  rewrite rstrip_nl_app.
  - by apply split1_app.
  - rewrite !contains_app, Hnl, Href. reflexivity.
Qed.

Lemma read_refs_from_end st w rest :
  inp w = Protocol.flush_pkt +:+ rest ->
  read_refs_from st w = (set_inp rest w, Ok st).
Proof.
  intros E. unfold read_refs_from.
  by apply read_pkt_seq_for_end, read_flush.
Qed.

(** A further line of the advertisement. *)
Lemma read_refs_from_line refs caps sha ref w rest :
  inp w = Protocol.pkt_line (sha +:+ " " +:+ ref +:+ NL) +:+ rest ->
  fits (sha +:+ " " +:+ ref +:+ NL) ->
  plain_id sha -> Py.contains Py.nl ref = false ->
  read_refs_from (refs, Some caps) w
  = read_refs_from (<[ref := sha]> refs, Some caps) (set_inp rest w).
Proof.
  intros E Hfit (Hsp & Hnl & Herr) Href. unfold read_refs_from.
  apply (read_pkt_seq_for_step _ read_refs_body_pure (refs, Some caps) w
           (set_inp rest w) (sha +:+ " " +:+ ref +:+ NL)).
  - by apply read_written_pkt_line.
  - cbv beta iota. rewrite ref_line_split by done.
    by rewrite (proj2 (String.eqb_neq sha "ERR") Herr).
Qed.

Lemma read_refs_from_lines others : forall refs caps w rest,
  inp w = foldr (fun '(s, r) acc => Protocol.pkt_line (s +:+ " " +:+ r +:+ NL) +:+ acc)
                Protocol.flush_pkt others +:+ rest ->
  Forall (fun '(s, r) => fits (s +:+ " " +:+ r +:+ NL) /\ plain_id s /\ plain_ref r)
         others ->
  read_refs_from (refs, Some caps) w
  = (set_inp rest w,
     Ok (foldl (fun refs '(s, r) => <[r := s]> refs) refs others, Some caps)).
Proof.
  induction others as [|[s r] others IH]; intros refs caps w rest E Hall.
  - by apply read_refs_from_end.
  - apply Forall_cons in Hall as [(Hfit & Hid & Hnl & _) Hall].
    cbn [foldr] in E. rewrite app_assoc_str in E.
    erewrite read_refs_from_line by done.
    rewrite (IH _ _ (set_inp _ w) rest); [done| done |done].
Qed.

(** X4.  Reading back an advertisement.  For a server that sends a first
    line "<sha> <ref>\0<caps>\n", further lines "<sha> <ref>\n" and a
    flush, [_read_refs] consumes exactly these packets and gives the map
    from each name to the id of its last line, and the capabilities of
    the first line, split at spaces. *)
Theorem read_refs_advertisement (sha ref caps : string)
    (others : list (string * string)) (rest : string) (w : world) :
  inp w = advertisement sha ref caps others +:+ rest ->
  fits (sha +:+ " " +:+ ref +:+ NUL +:+ caps +:+ NL) ->
  plain_id sha -> plain_ref ref -> Py.contains Py.nl caps = false ->
  Forall (fun '(s, r) => fits (s +:+ " " +:+ r +:+ NL) /\ plain_id s /\ plain_ref r)
         others ->
  run _read_refs w
  = (set_inp rest w,
     Ok (advertised_refs sha ref others, Some (Py.split Py.sp (Py.strip caps)))).
Proof.
  intros E Hfit (Hsp & Hnl & Herr) (Hrnl & Hrnul) Hcaps Hall.
  unfold run. rewrite read_refs_from_start.
  unfold advertisement in E. rewrite app_assoc_str in E.
  set (tail := foldr (fun '(s, r) acc =>
                        Protocol.pkt_line (s +:+ " " +:+ r +:+ NL) +:+ acc)
                     Protocol.flush_pkt others +:+ rest) in E.
  transitivity (read_refs_from
                  (<[ref := sha]> ∅, Some (Py.split Py.sp (Py.strip caps)))
                  (set_inp tail w)).
  - unfold read_refs_from.
    apply (read_pkt_seq_for_step _ read_refs_body_pure (∅, None) w
             (set_inp tail w)
             (sha +:+ " " +:+ ref +:+ NUL +:+ caps +:+ NL)).
    + by apply read_written_pkt_line.
    + cbv beta iota.
      replace (sha +:+ " " +:+ ref +:+ NUL +:+ caps +:+ NL)
        with (sha +:+ " " +:+ (ref +:+ NUL +:+ caps) +:+ NL)
        by (by rewrite !app_assoc_str).
      rewrite ref_line_split; [|done|done|].
      * rewrite (proj2 (String.eqb_neq sha "ERR") Herr).
        unfold Protocol.extract_capabilities.
        change (ref +:+ NUL +:+ caps) with (ref +:+ String Py.nul caps).
        by rewrite split1_app.
      * rewrite !contains_app, Hrnl, Hcaps. reflexivity.
  - by apply (read_refs_from_lines others _ _ (set_inp tail w) rest).
Qed.

Lemma read_refs_advertisement_witness :
  inp (conversation two_refs_server [] [])
  = advertisement id_a "HEAD" "multi_ack side-band-64k" [(id_b, "refs/heads/x")]
    +:+ EmptyString
  /\ run _read_refs (conversation two_refs_server [] [])
     = (set_inp EmptyString (conversation two_refs_server [] []),
        Ok (advertised_refs id_a "HEAD" [(id_b, "refs/heads/x")],
            Some (Py.split Py.sp (Py.strip "multi_ack side-band-64k")))).
Proof.
  split; [vm_compute; reflexivity|].
  apply (read_refs_advertisement id_a "HEAD" "multi_ack side-band-64k"
           [(id_b, "refs/heads/x")] EmptyString
           (conversation two_refs_server [] [])).
  - vm_compute; reflexivity.
  - fits_tac.
  - repeat split; try reflexivity. discriminate.
  - split; reflexivity.
  - reflexivity.
  - constructor; [|constructor].
    split; [fits_tac|].
    split; [split; [reflexivity|split; [reflexivity|discriminate]]|].
    split; reflexivity.
Defined.

(** X5.  A refusal.  When the first line of the advertisement is
    "ERR <reason>", [_read_refs] raises [GitProtocolError] with the
    reason, and so do [fetch_pack] and [send_pack], before they write
    anything. *)
Theorem server_refusal (self : GitClient)
    (wants_fetch : gmap string string -> list string)
    (wants_push : gmap string string -> gmap string string)
    (generate_pack_contents : list string -> list string -> list string)
    (progress : bool) (reason rest : string) (w : world) :
  inp w = Protocol.pkt_line ("ERR " +:+ reason +:+ NL) +:+ rest ->
  fits ("ERR " +:+ reason +:+ NL) ->
  Py.contains Py.nl reason = false ->
  run _read_refs w = (set_inp rest w, Raise (GitProtocolError reason))
  /\ run (fetch_pack self wants_fetch progress) w
     = (set_inp rest w, Raise (GitProtocolError reason))
  /\ run (send_pack self wants_push generate_pack_contents progress) w
     = (set_inp rest w, Raise (GitProtocolError reason)).
Proof.
  intros E Hfit Hnl.
  assert (H : _read_refs w = (set_inp rest w, Raise (GitProtocolError reason))).
  { rewrite read_refs_from_start. unfold read_refs_from.
    apply (read_pkt_seq_for_raise _ (∅, None) w (set_inp rest w)
             ("ERR " +:+ reason +:+ NL)).
    - by apply read_written_pkt_line.
    - cbv beta iota.
      change ("ERR " +:+ reason +:+ NL) with ("ERR" +:+ " " +:+ reason +:+ NL).
      by rewrite (ref_line_split "ERR" reason). }
  split; [exact H|].
  unfold run, fetch_pack, send_pack, mbind, M_mbind, M_bind. by rewrite H.
Qed.

Lemma server_refusal_witness :
  inp (world0 refusing_server)
  = Protocol.pkt_line ("ERR " +:+ "access denied" +:+ NL) +:+ EmptyString
  /\ run _read_refs (world0 refusing_server)
     = (set_inp EmptyString (world0 refusing_server),
        Raise (GitProtocolError "access denied"))
  /\ run (fetch_pack client0 (fun _ => [id_a]) false) (world0 refusing_server)
     = (set_inp EmptyString (world0 refusing_server),
        Raise (GitProtocolError "access denied"))
  /\ run (send_pack client0 push_x objects_of false) (world0 refusing_server)
     = (set_inp EmptyString (world0 refusing_server),
        Raise (GitProtocolError "access denied")).
Proof.
  split; [vm_compute; reflexivity|].
  apply (server_refusal client0 (fun _ => [id_a]) push_x objects_of false
           "access denied" EmptyString (world0 refusing_server)).
  - vm_compute; reflexivity.
  - fits_tac.
  - reflexivity.
Defined.

(** ** Conversations in which nothing is wanted *)

Lemma read_refs_keeps w w1 r :
  run _read_refs w = (w1, r) ->
  heap w1 = heap w /\ out w1 = out w /\ gw_next w1 = gw_next w
  /\ gw_acked w1 = gw_acked w /\ sink w1 = sink w /\ prog w1 = prog w
  /\ ready w1 = ready w.
Proof.
  intros E. unfold run in E.
  assert (K : forall X (f : world -> X),
             (forall i w, f (set_inp i w) = f w) -> f w1 = f w).
  { intros X f Hf. exact (keeps_run f _ _ _ _ (keeps_read_refs f Hf) E). }
  repeat split; by apply K.
Qed.

(** X6.  A fetch that wants nothing.  When [determine_wants] gives the
    empty list, [fetch_pack] writes exactly one flush, returns the
    advertised refs, reads nothing after the advertisement, and neither
    consults the graph walker nor calls the pack sink. *)
Theorem fetch_nothing_wanted (self : GitClient)
    (determine_wants : gmap string string -> list string) (progress : bool)
    (w w1 : world) (refs : gmap string string) (caps : option (list string))
    (fetch_caps : list string) :
  run _read_refs w = (w1, Ok (refs, caps)) ->
  determine_wants refs = [] ->
  heap w !! _fetch_capabilities self = Some fetch_caps ->
  (run (fetch_pack self determine_wants progress) w).2 = Ok refs
  /\ out (run (fetch_pack self determine_wants progress) w).1 = out w ++ [WFlush]
  /\ inp (run (fetch_pack self determine_wants progress) w).1 = inp w1
  /\ gw_next (run (fetch_pack self determine_wants progress) w).1 = gw_next w
  /\ sink (run (fetch_pack self determine_wants progress) w).1 = sink w.
Proof.
  intros Hrefs Hwants Hf.
  destruct (read_refs_keeps _ _ _ Hrefs) as (Hh & Ho & Hg & _ & Hs & _).
  unfold run in *.
  assert (Hrun : fetch_pack self determine_wants progress w
                 = (set_out (out w1 ++ [WFlush])
                      (set_heap (<[fresh (dom (heap w1)) := fetch_caps]> (heap w1)) w1),
                    Ok refs)).
  { unfold fetch_pack.
    unfold mbind at 1, M_mbind at 1, M_bind at 1. rewrite Hrefs.
    unfold mbind at 1, M_mbind at 1, M_bind at 1.
    unfold list_copy, list_get, list_new.
    unfold mbind at 1, M_mbind at 1, M_bind at 1.
    rewrite <- Hh in Hf. rewrite Hf. rewrite Hwants. reflexivity. }
  rewrite Hrun. cbn [fst snd out inp gw_next sink set_out set_heap].
  by rewrite Ho, Hg, Hs.
Qed.

Lemma fetch_nothing_wanted_witness :
  run _read_refs (world0 plain_server)
  = (world0 EmptyString, Ok ({[ "HEAD" := id_a ]}, Some ["ofs-delta"]))
  /\ (run (fetch_pack client0 (fun _ => []) false) (world0 plain_server)).2
     = Ok {[ "HEAD" := id_a ]}
  /\ out (run (fetch_pack client0 (fun _ => []) false) (world0 plain_server)).1
     = out (world0 plain_server) ++ [WFlush]
  /\ inp (run (fetch_pack client0 (fun _ => []) false) (world0 plain_server)).1
     = inp (world0 EmptyString)
  /\ gw_next (run (fetch_pack client0 (fun _ => []) false) (world0 plain_server)).1
     = gw_next (world0 plain_server)
  /\ sink (run (fetch_pack client0 (fun _ => []) false) (world0 plain_server)).1
     = sink (world0 plain_server).
Proof.
  split; [vm_compute; reflexivity|].
  apply (fetch_nothing_wanted client0 (fun _ => []) false (world0 plain_server)
           (world0 EmptyString) {[ "HEAD" := id_a ]} (Some ["ofs-delta"])
           (FETCH_CAPABILITIES ++ ["thin-pack"])).
  - vm_compute; reflexivity.
  - reflexivity.
  - reflexivity.
Defined.

(** X7.  A push that changes nothing.  When [determine_wants] gives the
    empty map, [send_pack] writes exactly one flush, returns the empty
    map and reads nothing after the advertisement. *)
Theorem push_nothing_wanted (self : GitClient)
    (determine_wants : gmap string string -> gmap string string)
    (generate_pack_contents : list string -> list string -> list string)
    (progress : bool) (w w1 : world) (old_refs : gmap string string)
    (advertised requested : list string) :
  run _read_refs w = (w1, Ok (old_refs, Some advertised)) ->
  determine_wants old_refs = ∅ ->
  heap w !! _send_capabilities self = Some requested ->
  mem "report-status" requested = true ->
  (run (send_pack self determine_wants generate_pack_contents progress) w).2 = Ok ∅
  /\ out (run (send_pack self determine_wants generate_pack_contents progress) w).1
     = out w ++ [WFlush]
  /\ inp (run (send_pack self determine_wants generate_pack_contents progress) w).1
     = inp w1.
Proof.
  intros Hrefs Hwants Hreq Hrs.
  destruct (read_refs_keeps _ _ _ Hrefs) as (Hh & Ho & _).
  unfold run in *.
  assert (Hrun : exists w',
    send_pack self determine_wants generate_pack_contents progress w = (w', Ok ∅)
    /\ out w' = out w1 ++ [WFlush] /\ inp w' = inp w1).
  { unfold send_pack.
    unfold mbind at 1, M_mbind at 1, M_bind at 1. rewrite Hrefs.
    unfold mbind at 1, M_mbind at 1, M_bind at 1.
    unfold list_copy, list_get, list_new.
    unfold mbind at 1, M_mbind at 1, M_bind at 1.
    rewrite <- Hh in Hreq. rewrite Hreq.
    set (l := fresh (dom (heap w1))).
    set (w2 := set_heap (<[l := requested]> (heap w1)) w1).
    unfold mbind at 1, M_mbind at 1, M_bind at 1.
    cbn [in_server_capabilities mret M_mret M_ret].
    assert (Hneg : exists w3,
      ((if negb (mem "report-status" advertised)
        then list_remove l "report-status" else mret ()) w2 = (w3, Ok tt))
      /\ out w3 = out w1 /\ inp w3 = inp w1).
    { destruct (mem "report-status" advertised); cbn [negb].
      - by exists w2.
      - destruct (mem_remove_first _ _ Hrs) as [xs Hxs].
        unfold list_remove, list_get, mbind, M_mbind, M_bind.
        cbn [heap w2 set_heap]. rewrite lookup_insert_eq, Hxs.
        eexists. split; [reflexivity|]. done. }
    destruct Hneg as (w3 & Hrun & Hout3 & Hinp3).
    unfold mbind at 1, M_mbind at 1, M_bind at 1. rewrite Hrun.
    rewrite Hwants. rewrite bool_decide_eq_true_2 by done.
    eexists. split; [reflexivity|]. cbn [out inp set_out].
    by rewrite Hout3, Hinp3. }
  destruct Hrun as (w' & -> & Hout & Hinp). cbn [fst snd].
  by rewrite Hout, Hinp, Ho.
Qed.

Lemma push_nothing_wanted_witness :
  run _read_refs (world0 push_server)
  = (world0 EmptyString,
     Ok ({[ "refs/heads/x" := id_a ]},
         Some ["report-status"; "side-band-64k"; "ofs-delta"]))
  /\ (run (send_pack client0 (fun _ => ∅) objects_of false) (world0 push_server)).2
     = Ok ∅
  /\ out (run (send_pack client0 (fun _ => ∅) objects_of false) (world0 push_server)).1
     = out (world0 push_server) ++ [WFlush]
  /\ inp (run (send_pack client0 (fun _ => ∅) objects_of false) (world0 push_server)).1
     = inp (world0 EmptyString).
Proof.
  split; [vm_compute; reflexivity|].
  apply (push_nothing_wanted client0 (fun _ => ∅) objects_of false
           (world0 push_server) (world0 EmptyString)
           {[ "refs/heads/x" := id_a ]}
           ["report-status"; "side-band-64k"; "ofs-delta"] SEND_CAPABILITIES).
  - vm_compute; reflexivity.
  - reflexivity.
  - reflexivity.
  - reflexivity.
Defined.

(** ** What a fetch writes *)

Lemma mapM_want_lines wants : forall w,
  mapM (fun want =>
          Protocol.write_pkt_line (Some ("want " +:+ want +:+ String Py.nl EmptyString)))
       wants w
  = (set_out (out w ++ map (fun x => WPkt (want_line x)) wants) w,
     Ok (map (fun _ => tt) wants)).
Proof.
  induction wants as [|x wants IH]; intros w.
  - cbn. by rewrite app_nil_r, set_out_id.
  - cbn [mapM]. unfold mbind at 1, M_mbind at 1, M_bind at 1.
    cbn [Protocol.write_pkt_line modify].
    unfold mbind at 1, M_mbind at 1, M_bind at 1. rewrite IH.
    cbn [mret M_mret M_ret out set_out map]. rewrite <- app_assoc. reflexivity.
Qed.

Lemma can_read_quiet w :
  Forall (fun b => b = false) (ready w) ->
  exists w', can_read w = (w', Ok false)
             /\ Forall (fun b => b = false) (ready w')
             /\ out w' = out w /\ gw_next w' = gw_next w /\ inp w' = inp w
             /\ heap w' = heap w /\ sink w' = sink w /\ prog w' = prog w
             /\ gw_acked w' = gw_acked w.
Proof.
  intros H. unfold can_read. destruct (ready w) as [|b t] eqn:E.
  - exists w. rewrite E. done.
  - apply Forall_cons in H as [-> H]. eexists. split; [reflexivity|]. done.
Qed.

Lemma bind_ok {A B} (m : M A) (k : A -> M B) w w' a :
  m w = (w', Ok a) -> (m ≫= k) w = k a w'.
Proof. intros E. unfold mbind, M_mbind, M_bind. by rewrite E. Qed.

Lemma write_pkt_line_run payload w :
  Protocol.write_pkt_line payload w
  = (set_out (out w ++ [match payload with Some p => WPkt p | None => WFlush end]) w,
     Ok tt).
Proof. reflexivity. Qed.

Lemma graph_walker_next_nil w :
  gw_next w = [] -> graph_walker_next w = (w, Ok None).
Proof. intros E. unfold graph_walker_next. by rewrite E. Qed.

Lemma graph_walker_next_cons w i ids :
  gw_next w = i :: ids -> graph_walker_next w = (set_gw_next ids w, Ok (Some i)).
Proof. intros E. unfold graph_walker_next. by rewrite E. Qed.

(** The have loop when nothing is pending: one have line per id. *)
Lemma have_loop_quiet ids : forall n h w,
  gw_next w = ids -> length ids <= n ->
  Py.truthy h = true -> Forall (fun i => Py.truthy i = true) ids ->
  Forall (fun b => b = false) (ready w) ->
  exists w',
    have_loop n (Some h) w = (w', Ok tt)
    /\ out w' = out w ++ map (fun i => WPkt (have_line i)) (h :: ids)
    /\ gw_next w' = [] /\ inp w' = inp w /\ heap w' = heap w
    /\ sink w' = sink w /\ prog w' = prog w /\ gw_acked w' = gw_acked w.
Proof.
  induction ids as [|i ids IH]; intros n h w Hg Hn Hh Hids Hq.
  - destruct (can_read_quiet (set_out (out w ++ [WPkt (have_line h)]) w) Hq)
      as (w2 & Ec & _ & Ho & Hg2 & Hi & Hhp & Hs & Hp & Ha).
    exists w2. split.
    + assert (Hnext : graph_walker_next w2 = (w2, Ok None))
        by (apply graph_walker_next_nil; by rewrite Hg2).
      destruct n; cbn [have_loop]; rewrite Hh;
        rewrite (bind_ok _ _ _ _ _ (write_pkt_line_run _ w));
        fold (have_line h); rewrite (bind_ok _ _ _ _ _ Ec);
        rewrite (bind_ok _ _ w2 w2 tt eq_refl);
        rewrite (bind_ok _ _ _ _ _ Hnext); first [done|by destruct n].
    + rewrite Ho, Hg2, Hi, Hhp, Hs, Hp, Ha. done.
  - destruct n as [|n]; [simpl in Hn; lia|].
    apply Forall_cons in Hids as [Hi Hids].
    destruct (can_read_quiet (set_out (out w ++ [WPkt (have_line h)]) w) Hq)
      as (w2 & Ec & Hq2 & Ho & Hg2 & Hi2 & Hhp & Hs & Hp & Ha).
    destruct (IH n i (set_gw_next ids w2)) as (w' & Er & Ho' & Hrest);
      [done|simpl in Hn; lia|done|done|done|].
    exists w'. split.
    + assert (Hnext : graph_walker_next w2 = (set_gw_next ids w2, Ok (Some i)))
        by (apply graph_walker_next_cons; by rewrite Hg2).
      cbn [have_loop]. rewrite Hh.
      rewrite (bind_ok _ _ _ _ _ (write_pkt_line_run _ w)).
      fold (have_line h). rewrite (bind_ok _ _ _ _ _ Ec).
      rewrite (bind_ok _ _ w2 w2 tt eq_refl).
      by rewrite (bind_ok _ _ _ _ _ Hnext).
    + rewrite Ho'. cbn [out set_gw_next]. rewrite Ho. cbn [out set_out map].
      rewrite <- app_assoc. split; [done|].
      destruct Hrest as (? & Hi' & Hh' & Hs' & Hp' & Ha').
      cbn in Hi', Hh', Hs', Hp', Ha'.
      rewrite Hi', Hh', Hs', Hp', Ha', Hi2, Hhp, Hs, Hp, Ha. done.
Qed.

Lemma keeps_out_ack_loop n : forall pkt, keeps out (ack_loop n pkt).
Proof. induction n as [|n IH]; intros [p|]; simpl; keeps_tac. Qed.

Lemma keeps_fetch_callbacks {X} (f : world -> X) progress :
  (forall s w, f (set_sink s w) = f w) ->
  (forall s w, f (set_prog s w) = f w) ->
  forall ch cb p (st : unit),
    ({[ 1 := Some (fun pkt (_ : unit) => pack_data pkt);
        2 := progress_callback progress ]}
       : gmap nat (option (string -> unit -> M unit))) !! ch = Some (Some cb) ->
    keeps f (cb p st).
Proof.
  intros Hs Hp ch cb p st. rewrite lookup_insert. case_decide.
  - intros [= <-]. by apply keeps_pack_data.
  - rewrite lookup_singleton. case_decide; [|done].
    intros [= Hc]. by eapply keeps_progress_callback.
Qed.

(** [fetch_pack] from the first poll of the graph walker on. *)
Lemma fetch_after_wants_out (self : GitClient)
    (negotiated_capabilities : loc) progress (refs : gmap string string) w :
  Forall (fun i => Py.truthy i = true) (gw_next w) ->
  Forall (fun b => b = false) (ready w) ->
  out ((have ← graph_walker_next;
        w ← get_world;
        have_loop (length (gw_next w)) have;;
        Protocol.write_pkt_line (Some ("done" +:+ String Py.nl EmptyString));;
        pkt ← Protocol.read_pkt_line;
        w ← get_world;
        ack_loop (String.length (inp w)) pkt;;
        negotiated ← list_get negotiated_capabilities;
        (if mem "side-band-64k" negotiated then
           let channel_callbacks : gmap nat (option (string -> unit -> M unit)) :=
             {[ 1 := Some (fun pkt st => pack_data pkt);
                2 := progress_callback progress ]} in
           _read_side_band64k_data channel_callbacks tt;;
           data ← Protocol.read;
           if Py.truthy data then
             raise (Exception ("Unexpected response " +:+ Py.repr data))
           else mret tt
         else
           raise (AttributeError ("'" +:+ class_name (class self)
                                  +:+ "' object has no attribute 'read'")));;
        mret refs) w).1
  = out w ++ map (fun i => WPkt (have_line i)) (gw_next w)
    ++ [WPkt ("done" +:+ NL)].
Proof.
  intros Hids Hq.
  assert (Hloop : exists w2,
    (have ← graph_walker_next; w ← get_world;
     have_loop (length (gw_next w)) have) w = (w2, Ok tt)
    /\ out w2 = out w ++ map (fun i => WPkt (have_line i)) (gw_next w)).
  { destruct (gw_next w) as [|h ids] eqn:G.
    - exists w. rewrite (bind_ok _ _ _ _ _ (graph_walker_next_nil _ G)).
      rewrite (bind_ok _ _ w w w eq_refl). rewrite G. cbn. by rewrite app_nil_r.
    - apply Forall_cons in Hids as [Hh Hids].
      rewrite (bind_ok _ _ _ _ _ (graph_walker_next_cons _ _ _ G)).
      rewrite (bind_ok _ _ _ _ (set_gw_next ids w) eq_refl).
      destruct (have_loop_quiet ids (length ids) h (set_gw_next ids w))
        as (w2 & E & Ho & _); try done.
      exists w2. split; [exact E|]. by rewrite Ho. }
  destruct Hloop as (w2 & Eloop & Ho).
  assert (Hassoc : forall (k : M (gmap string string)),
    (have ← graph_walker_next; w ← get_world;
     have_loop (length (gw_next w)) have;; k) w
    = ((have ← graph_walker_next; w ← get_world;
        have_loop (length (gw_next w)) have) ≫= (fun _ => k)) w).
  { intros k. unfold mbind, M_mbind, M_bind.
    destruct (graph_walker_next w) as [w' [have|e]]; [|done].
    unfold get_world. done. }
  rewrite Hassoc. rewrite (bind_ok _ _ _ _ _ Eloop).
  rewrite (bind_ok _ _ _ _ _ (write_pkt_line_run _ w2)).
  match goal with |- out (?m ?w0).1 = _ =>
    assert (K : keeps out m); [|rewrite K] end.
  { apply keeps_bind; [by apply keeps_read_pkt_line|]. intros pkt.
    apply keeps_bind; [apply keeps_get_world|]. intros w'.
    apply keeps_bind; [apply keeps_out_ack_loop|]. intros _.
    apply keeps_bind; [by apply keeps_list_get|]. intros negotiated.
    apply keeps_bind; [|intros; apply keeps_ret].
    destruct (mem "side-band-64k" negotiated); [|apply keeps_raise].
    cbv zeta. apply keeps_bind.
    - apply keeps_read_side_band64k_data; [done|].
      intros ch cb p st. by apply keeps_fetch_callbacks.
    - intros _. apply keeps_bind; [by apply keeps_read|].
      intros data. destruct (Py.truthy data); [apply keeps_raise|apply keeps_ret]. }
  cbn [out set_out]. rewrite Ho, <- app_assoc. reflexivity.
Qed.

(** X8.  What a fetch writes.  When [determine_wants] gives at least one
    id and nothing is pending while the haves go out, [fetch_pack]
    writes, whatever the server answers afterwards: a want line with the
    first id and the client's fetch capability list, a plain want line
    for each further id, a flush, one have line for each id the graph
    walker yields, in order, and [done]. *)
Theorem fetch_request (self : GitClient)
    (determine_wants : gmap string string -> list string) (progress : bool)
    (w w1 : world) (refs : gmap string string) (caps : option (list string))
    (fetch_caps : list string) (want0 : string) (wants : list string) :
  run _read_refs w = (w1, Ok (refs, caps)) ->
  determine_wants refs = want0 :: wants ->
  heap w !! _fetch_capabilities self = Some fetch_caps ->
  Forall (fun i => Py.truthy i = true) (gw_next w) ->
  Forall (fun b => b = false) (ready w) ->
  out (run (fetch_pack self determine_wants progress) w).1
  = out w
    ++ WPkt ("want " +:+ want0 +:+ " " +:+ Py.join " " fetch_caps +:+ NL)
       :: map (fun x => WPkt (want_line x)) wants
    ++ WFlush :: map (fun i => WPkt (have_line i)) (gw_next w)
    ++ [WPkt ("done" +:+ NL)].
Proof.
  intros Hrefs Hwants Hf Hids Hq.
  destruct (read_refs_keeps _ _ _ Hrefs) as (Hh & Ho & Hg & _ & _ & _ & Hr).
  unfold run in *. unfold fetch_pack.
  rewrite (bind_ok _ _ _ _ _ Hrefs).
  assert (Hcopy : list_copy (_fetch_capabilities self) w1
                  = (set_heap (<[fresh (dom (heap w1)) := fetch_caps]> (heap w1)) w1,
                     Ok (fresh (dom (heap w1))))).
  { unfold list_copy, list_get, list_new, mbind, M_mbind, M_bind.
    rewrite <- Hh in Hf. by rewrite Hf. }
  rewrite (bind_ok _ _ _ _ _ Hcopy). rewrite Hwants.
  set (l := fresh (dom (heap w1))).
  set (w2 := set_heap (<[l := fetch_caps]> (heap w1)) w1).
  assert (Hget : list_get l w2 = (w2, Ok fetch_caps)).
  { unfold list_get. cbn [heap w2 set_heap]. by rewrite lookup_insert_eq. }
  rewrite (bind_ok _ _ _ _ _ Hget).
  rewrite (bind_ok _ _ _ _ _ (write_pkt_line_run _ w2)).
  rewrite (bind_ok _ _ _ _ _ (mapM_want_lines wants _)).
  rewrite (bind_ok _ _ _ _ _ (write_pkt_line_run _ _)).
  rewrite fetch_after_wants_out.
  - cbn [out set_out w2 set_heap gw_next]. rewrite Ho, Hg.
    rewrite <- !app_assoc. reflexivity.
  - cbn [gw_next set_out w2 set_heap]. by rewrite Hg.
  - cbn [ready set_out w2 set_heap]. by rewrite Hr.
Qed.

Lemma fetch_request_witness :
  run _read_refs (world_walking fetch_server [id_b])
  = (world_walking EmptyString [id_b],
     Ok ({[ "HEAD" := id_a ]},
         Some ["multi_ack"; "thin-pack"; "side-band-64k"; "ofs-delta"]))
  /\ out (run (fetch_pack client0 (fun _ => [id_a; id_b]) false)
            (world_walking fetch_server [id_b])).1
     = out (world_walking fetch_server [id_b])
       ++ WPkt ("want " +:+ id_a +:+ " "
                +:+ Py.join " " (FETCH_CAPABILITIES ++ ["thin-pack"]) +:+ NL)
          :: map (fun x => WPkt (want_line x)) [id_b]
       ++ WFlush :: map (fun i => WPkt (have_line i))
                      (gw_next (world_walking fetch_server [id_b]))
       ++ [WPkt ("done" +:+ NL)].
Proof.
  split; [vm_compute; reflexivity|].
  apply (fetch_request client0 (fun _ => [id_a; id_b]) false
           (world_walking fetch_server [id_b])
           (world_walking EmptyString [id_b]) {[ "HEAD" := id_a ]}
           (Some ["multi_ack"; "thin-pack"; "side-band-64k"; "ofs-delta"])
           (FETCH_CAPABILITIES ++ ["thin-pack"]) id_a [id_b]).
  - vm_compute; reflexivity.
  - reflexivity.
  - reflexivity.
  - repeat constructor.
  - constructor.
Defined.

(** ** Locations *)

Lemma rsplit1_parts c s l r :
  Py.rsplit1 c s = Some (l, r) -> s = l +:+ String c r.
Proof.
  revert l. induction s as [|x s IH]; intros l; [done|]. cbn [Py.rsplit1].
  destruct (Py.rsplit1 c s) as [[l' r']|].
  - intros [= <- <-]. by rewrite (IH l' eq_refl).
  - destruct (Ascii.eqb_spec x c) as [->|_]; [|done]. by intros [= <- <-].
Qed.

Lemma rsplit1_none c s : Py.contains c s = false -> Py.rsplit1 c s = None.
Proof.
  induction s as [|x s IH]; [done|]. cbn [Py.contains Py.rsplit1].
  destruct (Ascii.eqb x c); [done|]. intros H. by rewrite IH.
Qed.

Lemma contains_cons c x s :
  Py.contains c (String x s) = Ascii.eqb x c || Py.contains c s.
Proof. cbn [Py.contains]. by destruct (Ascii.eqb x c). Qed.

Lemma span_netloc_parts s :
  s = (urlparse.span_netloc s).1 +:+ (urlparse.span_netloc s).2.
Proof.
  induction s as [|x s IH]; [done|]. cbn [urlparse.span_netloc].
  destruct (Ascii.eqb x "/" || Ascii.eqb x "?" || Ascii.eqb x "#"); [done|].
  destruct (urlparse.span_netloc s) as [n r]. cbn [fst snd] in *.
  by rewrite IH at 1.
Qed.

Lemma contains_drop c n s :
  Py.contains c s = false -> Py.contains c (Protocol.drop n s) = false.
Proof.
  revert s. induction n as [|n IH]; intros [|x s]; try done.
  cbn [Protocol.drop]. rewrite contains_cons.
  intros [_ H]%orb_false_elim. by apply IH.
Qed.

(** The parts a split gives contain no character the whole does not. *)
Lemma contains_split1 c d s l r :
  Py.split1 d s = Some (l, r) -> Py.contains c s = false ->
  Py.contains c l = false /\ Py.contains c r = false.
Proof.
  intros ->%split1_Some. rewrite contains_app, contains_cons.
  intros [? [_ ?]%orb_false_elim]%orb_false_elim. done.
Qed.

Lemma contains_rsplit1 c d s l r :
  Py.rsplit1 d s = Some (l, r) -> Py.contains c s = false ->
  Py.contains c l = false /\ Py.contains c r = false.
Proof.
  intros ->%rsplit1_parts. rewrite contains_app, contains_cons.
  intros [? [_ ?]%orb_false_elim]%orb_false_elim. done.
Qed.

Lemma contains_splitparams c s :
  Py.contains c s = false ->
  Py.contains c (urlparse._splitparams s).1 = false.
Proof.
  intros H. unfold urlparse._splitparams.
  destruct (Py.rsplit1 "/" s) as [[dir last]|] eqn:E.
  - destruct (contains_rsplit1 c _ _ _ _ E H) as [Hd Hl].
    destruct (Py.split1 ";" last) as [[l r]|] eqn:E2; [|done].
    destruct (contains_split1 c _ _ _ _ E2 Hl) as [Hl' _].
    cbn [fst]. rewrite !contains_app, Hd, Hl'.
    apply rsplit1_parts in E. subst s.
    rewrite contains_app, contains_cons in H.
    apply orb_false_elim in H as [_ [H _]%orb_false_elim].
    change (Py.contains c "/") with (Ascii.eqb "/" c || false).
    by rewrite H.
  - destruct (Py.split1 ";" s) as [[l r]|] eqn:E2; [|done].
    by destruct (contains_split1 c _ _ _ _ E2 H).
Qed.

(** A location without a colon has no scheme, and no colon in its path. *)
Lemma urlparse_no_colon uri :
  Py.contains ":" uri = false ->
  urlparse.scheme (urlparse.urlparse uri) = EmptyString
  /\ Py.contains ":" (urlparse.path (urlparse.urlparse uri)) = false.
Proof.
  intros H. unfold urlparse.urlparse. rewrite (split1_None _ _ H).
  set (nl := if _ && Py.startswith "//" uri then _ else _).
  assert (H1 : Py.contains ":" nl.2 = false).
  { unfold nl. destruct (_ && _); [|done].
    pose proof (span_netloc_parts (Protocol.drop 2 uri)) as E.
    pose proof (contains_drop ":" 2 uri H) as Hd. rewrite E, contains_app in Hd.
    by apply orb_false_elim in Hd as [_ ?]. }
  destruct nl as [netloc url]. cbn [snd] in H1.
  set (fr := if mem _ urlparse.uses_fragment then _ else _).
  assert (H2 : Py.contains ":" fr.1 = false).
  { unfold fr. destruct (mem _ _); [|done].
    destruct (Py.split1 "#" url) as [[u f]|] eqn:E; [|done].
    by destruct (contains_split1 ":" _ _ _ _ E H1). }
  destruct fr as [url2 fragment]. cbn [fst] in H2.
  set (qu := if mem _ urlparse.uses_query then _ else _).
  assert (H3 : Py.contains ":" qu.1 = false).
  { unfold qu. destruct (mem _ _); [|done].
    destruct (Py.split1 "?" url2) as [[u f]|] eqn:E; [|done].
    by destruct (contains_split1 ":" _ _ _ _ E H2). }
  destruct qu as [url3 query]. cbn [fst] in H3.
  set (pa := if _ && Py.contains ";" url3 then _ else _).
  assert (H4 : Py.contains ":" pa.1 = false).
  { unfold pa. destruct (_ && _); [|done]. by apply contains_splitparams. }
  destruct pa as [url4 params]. done.
Qed.

(** X9.  A location without a colon is a local path.  The client is a
    [SubprocessGitClient], the path is the location itself, unchanged,
    and the child the client spawns for a service is
    [git <service> <location>]. *)
Theorem local_location (uri cmd : string) (w : world) :
  Py.contains ":" uri = false ->
  dispatch uri w = Ok (SubprocessGitClient, uri)
  /\ spawned_argv SubprocessGitClient cmd uri
     = Some [Some "git"; Some cmd; Some uri].
Proof.
  intros H. split; [|done].
  apply (dispatch_client _ _ true). unfold get_transport_and_path.
  destruct (urlparse_no_colon uri H) as [-> Hp]. rewrite Hp.
  cbn [String.eqb Py.truthy andb]. by rewrite andb_false_r.
Qed.

Lemma local_location_witness :
  Py.contains ":" "/srv/git/repo.git" = false
  /\ dispatch "/srv/git/repo.git" (world0 EmptyString)
     = Ok (SubprocessGitClient, "/srv/git/repo.git")
  /\ spawned_argv SubprocessGitClient "upload-pack" "/srv/git/repo.git"
     = Some [Some "git"; Some "upload-pack"; Some "/srv/git/repo.git"].
Proof.
  split; [reflexivity|].
  apply (local_location "/srv/git/repo.git" "upload-pack" (world0 EmptyString)).
  reflexivity.
Defined.

Lemma none_of_contains chars s c :
  none_of chars s = true -> Py.contains c chars = true ->
  Py.contains c s = false.
Proof.
  intros Hs Hc. induction s as [|x s IH]; [done|].
  unfold none_of in *. cbn [urlparse.all_chars] in Hs.
  apply andb_prop in Hs as [Hx Hs]. rewrite contains_cons, (IH Hs).
  destruct (Ascii.eqb_spec x c) as [->|_]; [|done]. by rewrite Hc in Hx.
Qed.

Lemma split_none c s : Py.contains c s = false -> Py.split c s = [s].
Proof.
  induction s as [|x s IH]; [done|]. cbn [Py.contains Py.split].
  destruct (Ascii.eqb x c); [done|]. intros H. by rewrite IH.
Qed.

Lemma split_app c l r :
  Py.contains c l = false ->
  Py.split c (l +:+ String c r) = l :: Py.split c r.
Proof.
  induction l as [|x l IH].
  - intros _. change (EmptyString +:+ String c r) with (String c r).
    cbn [Py.split]. by rewrite Ascii.eqb_refl.
  - change (String x l +:+ String c r) with (String x (l +:+ String c r)).
    cbn [Py.contains Py.split]. destruct (Ascii.eqb x c); [done|].
    intros H. by rewrite IH.
Qed.

Lemma not_scheme_chars c s :
  urlparse.scheme_char c = false -> Py.contains c s = true ->
  urlparse.all_chars urlparse.scheme_char s = false.
Proof.
  intros Hc. induction s as [|x s IH]; [done|].
  rewrite contains_cons. cbn [urlparse.all_chars].
  destruct (Ascii.eqb_spec x c) as [->|_].
  - by rewrite Hc.
  - intros H. rewrite IH by done. apply andb_false_r.
Qed.

Lemma lift_ok_bind {A B : Type} (x : A) (f : A -> M B) :
  (lift (Ok x) ≫= f) = f x.
Proof. reflexivity. Qed.

(** What [urlparse] gives for a location it finds no scheme, no network
    location, no fragment, no query and no parameters in. *)
Lemma urlparse_plain uri :
  match Py.split1 ":" uri with
  | Some (String a pre, rest) =>
      urlparse.all_chars urlparse.scheme_char (String a pre) = false
  | _ => True
  end ->
  Py.startswith "//" uri = false ->
  Py.contains "#" uri = false -> Py.contains "?" uri = false ->
  Py.contains ";" uri = false ->
  urlparse.urlparse uri
  = urlparse.mkParse EmptyString EmptyString uri EmptyString EmptyString
      EmptyString.
Proof.
  intros H0 Hs Hf Hq Hp. unfold urlparse.urlparse.
  assert (E : match Py.split1 ":" uri with
              | Some (String a pre, rest) =>
                  if urlparse.all_chars urlparse.scheme_char (String a pre)
                  then (Py.lower (String a pre), rest)
                  else (EmptyString, uri)
              | _ => (EmptyString, uri)
              end = (EmptyString, uri)).
  { destruct (Py.split1 ":" uri) as [[[|a pre] rest]|]; try done.
    by rewrite H0. }
  rewrite E. rewrite Hs, andb_false_r.
  change (mem EmptyString urlparse.uses_fragment) with true.
  change (mem EmptyString urlparse.uses_query) with true.
  change (mem EmptyString urlparse.uses_params) with true.
  cbv iota beta. by rewrite (split1_None _ _ Hf), (split1_None _ _ Hq), Hp.
Qed.

(** X10.  The location [user@host:path].  The client is an [SSHGitClient]
    for that host and user name, without a port, the path is what
    follows the colon, and the child the client spawns for a service is
    [ssh -x user@host "git-<service> '<path>'"]. *)
Theorem ssh_location (user host path cmd : string) (w : world) :
  none_of "/:@#?;" user = true ->
  none_of ":@#?;" host = true ->
  none_of ":#?;" path = true ->
  dispatch (user +:+ "@" +:+ host +:+ ":" +:+ path) w
  = Ok (SSHGitClient (Some host) None (Some user), path)
  /\ spawned_argv (SSHGitClient (Some host) None (Some user)) cmd path
     = Some [Some "ssh"; Some "-x"; Some (user +:+ "@" +:+ host);
             Some ("git-" +:+ cmd +:+ " '" +:+ path +:+ "'")].
Proof.
  intros Hu Hh Hp. split; [|done].
  assert (U : forall c, Py.contains c ":@#?;" = true ->
                        Py.contains c user = false).
  { intros c Hc. apply (none_of_contains _ _ _ Hu).
    rewrite contains_cons, Hc. apply orb_true_r. }
  pose proof (fun c => none_of_contains _ _ c Hh) as H.
  pose proof (none_of_contains _ _ "#" Hp eq_refl) as Pf.
  pose proof (none_of_contains _ _ "?" Hp eq_refl) as Pq.
  pose proof (none_of_contains _ _ ";" Hp eq_refl) as Pp.
  pose proof (none_of_contains _ _ ":" Hp eq_refl) as Pc.
  change (user +:+ "@" +:+ host +:+ ":" +:+ path)
    with (user +:+ String "@" (host +:+ String ":" path)).
  set (user_host := user +:+ String "@" host).
  assert (UH : forall c, Py.contains c ":#?;" = true ->
                         Py.contains c user_host = false).
  { intros c Hc. unfold user_host.
    assert (Hc' : Py.contains c ":@#?;" = true).
    { revert Hc. rewrite !contains_cons.
      destruct (Ascii.eqb ":" c), (Ascii.eqb "#" c), (Ascii.eqb "?" c),
        (Ascii.eqb ";" c), (Ascii.eqb "@" c); done. }
    rewrite contains_app, contains_cons, (U c Hc'), (H c Hc').
    revert Hc. rewrite !contains_cons.
    destruct (Ascii.eqb_spec "@" c) as [<-|_]; done. }
  assert (Huri : user +:+ String "@" (host +:+ String ":" path)
                 = user_host +:+ String ":" path).
  { unfold user_host. by rewrite app_assoc_str. }
  rewrite Huri.
  assert (Hat : Py.contains "@" user_host = true).
  { unfold user_host. rewrite contains_app, contains_cons. cbn. apply orb_true_r. }
  assert (Hparse : urlparse.urlparse (user_host +:+ String ":" path)
                   = urlparse.mkParse EmptyString EmptyString
                       (user_host +:+ String ":" path) EmptyString EmptyString
                       EmptyString).
  { apply urlparse_plain.
    - rewrite (split1_app _ _ _ (UH ":"%char eq_refl)).
      destruct user_host as [|a pre]; [done|].
      by apply (not_scheme_chars "@").
    - unfold user_host. destruct user as [|x user]; [done|].
      pose proof (none_of_contains _ _ "/" Hu eq_refl) as Hx.
      rewrite contains_cons in Hx. apply orb_false_elim in Hx as [Hx _].
      change ((String x user +:+ String "@" host) +:+ String ":" path)
        with (String x ((user +:+ String "@" host) +:+ String ":" path)).
      cbn [Py.startswith]. by rewrite (Ascii.eqb_sym "/" x), Hx.
    - rewrite contains_app, contains_cons, (UH "#"%char eq_refl), Pf. done.
    - rewrite contains_app, contains_cons, (UH "?"%char eq_refl), Pq. done.
    - rewrite contains_app, contains_cons, (UH ";"%char eq_refl), Pp. done. }
  apply (dispatch_client _ _ true). unfold get_transport_and_path.
  rewrite Hparse. cbn [urlparse.scheme urlparse.netloc urlparse.path].
  cbn [String.eqb Py.truthy andb].
  rewrite !contains_app, !contains_cons, Hat, Ascii.eqb_refl, orb_true_r.
  cbn [orb andb].
  rewrite (split_app _ _ _ (UH ":"%char eq_refl)), (split_none _ _ Pc).
  cbn [unpack2]. rewrite lift_ok_bind. unfold user_host.
  rewrite (split_app _ _ _ (U "@"%char eq_refl)), (split_none _ _ (H "@"%char eq_refl)).
  reflexivity.
Qed.

Lemma ssh_location_witness :
  none_of "/:@#?;" "git" = true
  /\ none_of ":@#?;" "example.com" = true
  /\ none_of ":#?;" "proj/repo.git" = true
  /\ dispatch ("git" +:+ "@" +:+ "example.com" +:+ ":" +:+ "proj/repo.git")
       (world0 EmptyString)
     = Ok (SSHGitClient (Some "example.com") None (Some "git"), "proj/repo.git")
  /\ spawned_argv (SSHGitClient (Some "example.com") None (Some "git"))
       "upload-pack" "proj/repo.git"
     = Some [Some "ssh"; Some "-x"; Some ("git" +:+ "@" +:+ "example.com");
             Some ("git-" +:+ "upload-pack" +:+ " '" +:+ "proj/repo.git" +:+ "'")].
Proof.
  split; [reflexivity|]. split; [reflexivity|]. split; [reflexivity|].
  apply (ssh_location "git" "example.com" "proj/repo.git" "upload-pack"
           (world0 EmptyString)); reflexivity.
Defined.

Lemma span_netloc_host host path :
  none_of "/?#" host = true ->
  path = EmptyString \/ Py.startswith "/" path = true ->
  urlparse.span_netloc (host +:+ path) = (host, path).
Proof.
  intros Hh Hp. induction host as [|x host IH].
  - change (EmptyString +:+ path) with path. destruct Hp as [->|Hp]; [done|].
    destruct path as [|c p]; [done|]. cbn [Py.startswith] in Hp.
    apply andb_prop in Hp as [Hc _]. cbn [urlparse.span_netloc].
    by rewrite (Ascii.eqb_sym c "/"), Hc.
  - unfold none_of in Hh. cbn [urlparse.all_chars] in Hh.
    apply andb_prop in Hh as [Hx Hh].
    change (String x host +:+ path) with (String x (host +:+ path)).
    cbn [urlparse.span_netloc]. rewrite (IH Hh).
    apply negb_true_iff in Hx. rewrite !contains_cons in Hx.
    apply orb_false_elim in Hx as [H1 [H2 [H3 _]%orb_false_elim]%orb_false_elim].
    by rewrite (Ascii.eqb_sym x "/"), (Ascii.eqb_sym x "?"),
      (Ascii.eqb_sym x "#"), H1, H2, H3.
Qed.

Lemma none_of_weaken chars chars' s :
  (forall c, Py.contains c chars' = true -> Py.contains c chars = true) ->
  none_of chars s = true -> none_of chars' s = true.
Proof.
  intros Hc. unfold none_of. induction s as [|x s IH]; [done|].
  cbn [urlparse.all_chars]. intros [Hx Hs]%andb_prop. rewrite (IH Hs), andb_true_r.
  apply negb_true_iff. apply negb_true_iff in Hx.
  destruct (Py.contains x chars') eqn:E; [|done]. by rewrite (Hc _ E) in Hx.
Qed.

Lemma urlparse_git netloc path :
  urlparse.span_netloc (netloc +:+ path) = (netloc, path) ->
  urlparse.urlparse ("git://" +:+ netloc +:+ path)
  = urlparse.mkParse "git" netloc path EmptyString EmptyString EmptyString.
Proof.
  intros H. unfold urlparse.urlparse.
  change (Py.split1 ":" ("git://" +:+ netloc +:+ path))
    with (Some ("git", "//" +:+ netloc +:+ path)).
  cbv iota beta.
  change (urlparse.all_chars urlparse.scheme_char "git") with true.
  change (Py.lower "git") with "git". cbv iota beta.
  change (mem "git" urlparse.uses_netloc) with true.
  change (Py.startswith "//" ("//" +:+ netloc +:+ path)) with true.
  change (Protocol.drop 2 ("//" +:+ netloc +:+ path)) with (netloc +:+ path).
  cbn [andb]. rewrite H.
  change (mem "git" urlparse.uses_fragment) with false.
  change (mem "git" urlparse.uses_query) with false.
  change (mem "git" urlparse.uses_params) with false.
  reflexivity.
Qed.

(** X11.  The location [git://host/path].  The client is a [TCPGitClient]
    for the host in lower case and the port 9418, the path is everything
    after the host, query and fragment included, and the service is
    announced with one pkt-line, [git-<service> <path>\0host=<host>\0],
    where a path that starts with [/~] has lost its leading slash. *)
Theorem git_location (host path cmd : string) (w w' : world) :
  host <> EmptyString ->
  none_of "/?#@:" host = true ->
  path = EmptyString \/ Py.startswith "/" path = true ->
  dispatch ("git://" +:+ host +:+ path) w
  = Ok (TCPGitClient (Some (Py.lower host)) 9418, path)
  /\ run (TCPGitClient_announce (Some (Py.lower host)) cmd path) w'
     = (set_out
          (out w'
           ++ [WPkt ("git-" +:+ cmd +:+ " "
                     +:+ (if Py.startswith "/~" path
                          then Protocol.drop 1 path else path)
                     +:+ NUL +:+ "host=" +:+ Py.lower host +:+ NUL)]) w',
        Ok tt).
Proof.
  intros Hne Hh Hp. split.
  - assert (Hsp : urlparse.span_netloc (host +:+ path) = (host, path)).
    { apply span_netloc_host; [|done]. revert Hh. apply none_of_weaken.
      intros c. rewrite !contains_cons.
      destruct (Ascii.eqb "/" c), (Ascii.eqb "?" c), (Ascii.eqb "#" c); done. }
    apply (dispatch_client _ _ true). unfold get_transport_and_path.
    rewrite (urlparse_git _ _ Hsp). cbn [urlparse.scheme urlparse.path].
    change (String.eqb "git" "git") with true. cbv iota.
    unfold urlparse.port, urlparse.hostname, urlparse.hostinfo.
    cbn [urlparse.netloc].
    rewrite (rsplit1_none _ _ (none_of_contains _ _ "@" Hh eq_refl)).
    rewrite (split1_None _ _ (none_of_contains _ _ ":" Hh eq_refl)).
    rewrite lift_ok_bind. destruct host as [|x host]; [done|]. reflexivity.
  - unfold run, TCPGitClient_announce, send_cmd, Protocol.write_pkt_line, modify.
    cbn [map String.concat format_s default].
    do 3 f_equal. f_equal. f_equal.
    destruct (Py.startswith "/~" path).
    + by rewrite !app_assoc_str.
    + by rewrite !app_assoc_str.
Qed.

Lemma git_location_witness :
  "Example.COM" <> EmptyString
  /\ none_of "/?#@:" "Example.COM" = true
  /\ Py.startswith "/" "/~alice/repo.git" = true
  /\ dispatch ("git://" +:+ "Example.COM" +:+ "/~alice/repo.git")
       (world0 EmptyString)
     = Ok (TCPGitClient (Some (Py.lower "Example.COM")) 9418, "/~alice/repo.git")
  /\ run (TCPGitClient_announce (Some (Py.lower "Example.COM")) "upload-pack"
            "/~alice/repo.git") (world0 EmptyString)
     = (set_out
          (out (world0 EmptyString)
           ++ [WPkt ("git-" +:+ "upload-pack" +:+ " "
                     +:+ (if Py.startswith "/~" "/~alice/repo.git"
                          then Protocol.drop 1 "/~alice/repo.git"
                          else "/~alice/repo.git")
                     +:+ NUL +:+ "host=" +:+ Py.lower "Example.COM" +:+ NUL)])
          (world0 EmptyString),
        Ok tt).
Proof.
  split; [discriminate|]. split; [reflexivity|]. split; [reflexivity|].
  apply (git_location "Example.COM" "/~alice/repo.git" "upload-pack"
           (world0 EmptyString) (world0 EmptyString)).
  - discriminate.
  - reflexivity.
  - right. reflexivity.
Defined.

Lemma all_chars_contains p s c :
  urlparse.all_chars p s = true -> p c = false -> Py.contains c s = false.
Proof.
  intros Hs Hc. induction s as [|x s IH]; [done|].
  cbn [urlparse.all_chars] in Hs. apply andb_prop in Hs as [Hx Hs].
  rewrite contains_cons, (IH Hs).
  destruct (Ascii.eqb_spec x c) as [->|_]; [|done]. by rewrite Hc in Hx.
Qed.

(** What [urlparse] finds in [scheme:rest]: the scheme, in lower case,
    and a network location only for the schemes of [uses_netloc],
    when the rest starts with two slashes. *)
Lemma urlparse_scheme s rest :
  s <> EmptyString ->
  urlparse.all_chars urlparse.scheme_char s = true ->
  urlparse.scheme (urlparse.urlparse (s +:+ String ":" rest)) = Py.lower s
  /\ urlparse.netloc (urlparse.urlparse (s +:+ String ":" rest))
     = (if mem (Py.lower s) urlparse.uses_netloc && Py.startswith "//" rest
        then (urlparse.span_netloc (Protocol.drop 2 rest)).1
        else EmptyString)
  /\ (Py.startswith "//" rest = false -> none_of "#?;" rest = true ->
      urlparse.path (urlparse.urlparse (s +:+ String ":" rest)) = rest).
Proof.
  intros Hne Hs. unfold urlparse.urlparse.
  rewrite (split1_app ":" s rest) by (by apply (all_chars_contains _ _ _ Hs)).
  destruct s as [|a pre]; [done|]. rewrite Hs.
  destruct (Py.startswith "//" rest) eqn:Hsl.
  - destruct (mem _ urlparse.uses_netloc); cbn [andb].
    + destruct (urlparse.span_netloc _) as [n r].
      destruct (if mem _ urlparse.uses_fragment then _ else _) as [u f].
      destruct (if mem _ urlparse.uses_query then _ else _) as [u2 q].
      destruct (if _ && _ then _ else _) as [u3 p]. done.
    + destruct (if mem _ urlparse.uses_fragment then _ else _) as [u f].
      destruct (if mem _ urlparse.uses_query then _ else _) as [u2 q].
      destruct (if _ && _ then _ else _) as [u3 p]. done.
  - rewrite andb_false_r.
    assert (E : none_of "#?;" rest = true ->
      (let '(url, fragment) :=
         if mem (Py.lower (String a pre)) urlparse.uses_fragment
         then match Py.split1 "#" rest with
              | Some (u, f) => (u, f)
              | None => (rest, EmptyString)
              end
         else (rest, EmptyString) in
       let '(url0, query) :=
         if mem (Py.lower (String a pre)) urlparse.uses_query
         then match Py.split1 "?" url with
              | Some (u, q) => (u, q)
              | None => (url, EmptyString)
              end
         else (url, EmptyString) in
       let '(url1, params) :=
         if mem (Py.lower (String a pre)) urlparse.uses_params
            && Py.contains ";" url0
         then urlparse._splitparams url0 else (url0, EmptyString) in
       urlparse.mkParse (Py.lower (String a pre)) EmptyString url1 params
         query fragment)
      = urlparse.mkParse (Py.lower (String a pre)) EmptyString rest
          EmptyString EmptyString EmptyString).
    { intros Hr.
      rewrite (split1_None _ _ (none_of_contains _ _ "#" Hr eq_refl)).
      assert (F : (if mem (Py.lower (String a pre)) urlparse.uses_fragment
                   then (rest, EmptyString) else (rest, EmptyString))
                  = (rest, EmptyString)) by (by destruct (mem _ _)).
      rewrite F.
      rewrite (split1_None _ _ (none_of_contains _ _ "?" Hr eq_refl)).
      assert (Q : (if mem (Py.lower (String a pre)) urlparse.uses_query
                   then (rest, EmptyString) else (rest, EmptyString))
                  = (rest, EmptyString))
        by (by destruct (mem _ urlparse.uses_query)).
      rewrite Q.
      by rewrite (none_of_contains _ _ ";" Hr eq_refl), andb_false_r. }
    split; [|split].
    + destruct (if mem _ urlparse.uses_fragment then _ else _) as [u f].
      destruct (if mem _ urlparse.uses_query then _ else _) as [u2 q].
      destruct (if _ && _ then _ else _) as [u3 p]. done.
    + destruct (if mem _ urlparse.uses_fragment then _ else _) as [u f].
      destruct (if mem _ urlparse.uses_query then _ else _) as [u2 q].
      destruct (if _ && _ then _ else _) as [u3 p]. done.
    + intros _ Hr. by rewrite (E Hr).
Qed.

(** X12.  The location [host:path], without a user name.  When the part
    before the first colon is made of letters, digits and [+-.], and the
    part after it does not start with two slashes, the client is an
    [SSHGitClient] for that host in lower case, without user name or
    port, the path is the part after the colon, and the child the client
    spawns for a service is [ssh -x host "git-<service> '<path>'"]. *)
Theorem ssh_host_location (host path cmd : string) (w : world) :
  host <> EmptyString ->
  urlparse.all_chars urlparse.scheme_char host = true ->
  Py.lower host <> "git" -> Py.lower host <> "git+ssh" ->
  Py.startswith "//" path = false ->
  none_of "#?;" path = true ->
  dispatch (host +:+ ":" +:+ path) w
  = Ok (SSHGitClient (Some (Py.lower host)) None None, path)
  /\ spawned_argv (SSHGitClient (Some (Py.lower host)) None None) cmd path
     = Some [Some "ssh"; Some "-x"; Some (Py.lower host);
             Some ("git-" +:+ cmd +:+ " '" +:+ path +:+ "'")].
Proof.
  intros Hne Hs Hg Hgs Hsl Hp. split; [|done].
  change (host +:+ ":" +:+ path) with (host +:+ String ":" path).
  destruct (urlparse_scheme host path Hne Hs) as (Hsch & Hnet & Hpath).
  specialize (Hpath Hsl Hp). rewrite Hsl, andb_false_r in Hnet.
  apply (dispatch_client _ _ true). unfold get_transport_and_path.
  rewrite Hsch, Hnet, Hpath.
  destruct (String.eqb_spec (Py.lower host) "git") as [|_]; [done|].
  destruct (String.eqb_spec (Py.lower host) "git+ssh") as [|_]; [done|].
  destruct host as [|x host]; [done|]. reflexivity.
Qed.

Lemma ssh_host_location_witness :
  urlparse.all_chars urlparse.scheme_char "Example.com" = true
  /\ Py.startswith "//" "repo.git" = false
  /\ none_of "#?;" "repo.git" = true
  /\ dispatch ("Example.com" +:+ ":" +:+ "repo.git") (world0 EmptyString)
     = Ok (SSHGitClient (Some (Py.lower "Example.com")) None None, "repo.git")
  /\ spawned_argv (SSHGitClient (Some (Py.lower "Example.com")) None None)
       "receive-pack" "repo.git"
     = Some [Some "ssh"; Some "-x"; Some (Py.lower "Example.com");
             Some ("git-" +:+ "receive-pack" +:+ " '" +:+ "repo.git" +:+ "'")].
Proof.
  split; [reflexivity|]. split; [reflexivity|]. split; [reflexivity|].
  apply (ssh_host_location "Example.com" "repo.git" "receive-pack"
           (world0 EmptyString)).
  - discriminate.
  - reflexivity.
  - vm_compute; discriminate.
  - vm_compute; discriminate.
  - reflexivity.
  - reflexivity.
Defined.

(** X13.  A location [scheme://netloc...] whose scheme is one [urlparse]
    gives a network location to, other than [git] and [git+ssh]
    ([http], [https], [ftp], [rsync], [svn+ssh], ...), is refused with
    a [ValueError] that names the scheme in lower case. *)
Theorem netloc_scheme_refused (scheme rest : string) (c : ascii) (w : world) :
  scheme <> EmptyString ->
  urlparse.all_chars urlparse.scheme_char scheme = true ->
  mem (Py.lower scheme) urlparse.uses_netloc = true ->
  Py.lower scheme <> "git" -> Py.lower scheme <> "git+ssh" ->
  Py.contains c "/?#" = false ->
  dispatch (scheme +:+ "://" +:+ String c rest) w
  = Raise (ValueError ("Unknown git protocol scheme: " +:+ Py.lower scheme)).
Proof.
  intros Hne Hs Hm Hg Hgs Hc.
  change (scheme +:+ "://" +:+ String c rest)
    with (scheme +:+ String ":" (String "/" (String "/" (String c rest)))).
  destruct (urlparse_scheme scheme (String "/" (String "/" (String c rest)))
              Hne Hs) as (Hsch & Hnet & _).
  rewrite Hm in Hnet.
  change (Py.startswith "//" (String "/" (String "/" (String c rest))))
    with true in Hnet.
  change (Protocol.drop 2 (String "/" (String "/" (String c rest))))
    with (String c rest) in Hnet.
  cbn [andb urlparse.span_netloc] in Hnet.
  rewrite !contains_cons in Hc.
  apply orb_false_elim in Hc as [H1 [H2 [H3 _]%orb_false_elim]%orb_false_elim].
  rewrite (Ascii.eqb_sym c "/"), (Ascii.eqb_sym c "?"), (Ascii.eqb_sym c "#"),
    H1, H2, H3 in Hnet.
  cbn [orb] in Hnet. destruct (urlparse.span_netloc rest) as [n r].
  cbn [fst] in Hnet.
  unfold dispatch, run, get_transport_and_path. rewrite Hsch, Hnet.
  destruct (String.eqb_spec (Py.lower scheme) "git") as [|_]; [done|].
  destruct (String.eqb_spec (Py.lower scheme) "git+ssh") as [|_]; [done|].
  destruct scheme as [|x scheme]; [done|]. reflexivity.
Qed.

Lemma netloc_scheme_refused_witness :
  urlparse.all_chars urlparse.scheme_char "HTTPS" = true
  /\ mem (Py.lower "HTTPS") urlparse.uses_netloc = true
  /\ Py.contains "e" "/?#" = false
  /\ dispatch ("HTTPS" +:+ "://" +:+ String "e" "xample.com/repo.git")
       (world0 EmptyString)
     = Raise (ValueError ("Unknown git protocol scheme: " +:+ Py.lower "HTTPS")).
Proof.
  split; [reflexivity|]. split; [reflexivity|]. split; [reflexivity|].
  apply (netloc_scheme_refused "HTTPS" "xample.com/repo.git" "e"
           (world0 EmptyString)).
  - discriminate.
  - reflexivity.
  - reflexivity.
  - vm_compute; discriminate.
  - vm_compute; discriminate.
  - reflexivity.
Defined.

Lemma rsplit1_app c l r :
  Py.contains c r = false -> Py.rsplit1 c (l +:+ String c r) = Some (l, r).
Proof.
  intros Hr. induction l as [|x l IH].
  - change (EmptyString +:+ String c r) with (String c r).
    cbn [Py.rsplit1]. by rewrite (rsplit1_none _ _ Hr), Ascii.eqb_refl.
  - change (String x l +:+ String c r) with (String x (l +:+ String c r)).
    cbn [Py.rsplit1]. by rewrite IH.
Qed.

Lemma urlparse_git_ssh netloc path :
  urlparse.span_netloc (netloc +:+ path) = (netloc, path) ->
  urlparse.urlparse ("git+ssh://" +:+ netloc +:+ path)
  = urlparse.mkParse "git+ssh" netloc path EmptyString EmptyString EmptyString.
Proof.
  intros H. unfold urlparse.urlparse.
  change (Py.split1 ":" ("git+ssh://" +:+ netloc +:+ path))
    with (Some ("git+ssh", "//" +:+ netloc +:+ path)).
  cbv iota beta.
  change (urlparse.all_chars urlparse.scheme_char "git+ssh") with true.
  change (Py.lower "git+ssh") with "git+ssh". cbv iota beta.
  change (mem "git+ssh" urlparse.uses_netloc) with true.
  change (Py.startswith "//" ("//" +:+ netloc +:+ path)) with true.
  change (Protocol.drop 2 ("//" +:+ netloc +:+ path)) with (netloc +:+ path).
  cbn [andb]. rewrite H.
  change (mem "git+ssh" urlparse.uses_fragment) with false.
  change (mem "git+ssh" urlparse.uses_query) with false.
  change (mem "git+ssh" urlparse.uses_params) with false.
  reflexivity.
Qed.

Lemma none_of_app chars a b :
  none_of chars a = true -> none_of chars b = true ->
  none_of chars (a +:+ b) = true.
Proof.
  intros Ha Hb. unfold none_of in *. induction a as [|x a IH]; [done|].
  change (String x a +:+ b) with (String x (a +:+ b)).
  cbn [urlparse.all_chars] in *. apply andb_prop in Ha as [Hx Ha].
  by rewrite Hx, IH.
Qed.

(** X14.  The location [git+ssh://user@host/path].  The client is an
    [SSHGitClient] for the host in lower case and the user name, without
    a port, the path is everything after the host, leading slash
    included, and the child the client spawns for a service is
    [ssh -x user@host "git-<service> '<path>'"]. *)
Theorem git_ssh_location (user host path cmd : string) (w : world) :
  host <> EmptyString ->
  none_of "/?#@:" user = true ->
  none_of "/?#@:" host = true ->
  path = EmptyString \/ Py.startswith "/" path = true ->
  dispatch ("git+ssh://" +:+ user +:+ "@" +:+ host +:+ path) w
  = Ok (SSHGitClient (Some (Py.lower host)) None (Some user), path)
  /\ spawned_argv (SSHGitClient (Some (Py.lower host)) None (Some user)) cmd path
     = Some [Some "ssh"; Some "-x"; Some (user +:+ "@" +:+ Py.lower host);
             Some ("git-" +:+ cmd +:+ " '" +:+ path +:+ "'")].
Proof.
  intros Hne Hu Hh Hp. split; [|done].
  set (netloc := user +:+ String "@" host).
  assert (Huri : "git+ssh://" +:+ user +:+ "@" +:+ host +:+ path
                 = "git+ssh://" +:+ netloc +:+ path).
  { unfold netloc.
    change ("git+ssh://" +:+ user +:+ "@" +:+ host +:+ path)
      with ("git+ssh://" +:+ (user +:+ String "@" (host +:+ path))).
    change ("git+ssh://" +:+ (user +:+ String "@" host) +:+ path)
      with ("git+ssh://" +:+ ((user +:+ String "@" host) +:+ path)).
    by rewrite app_assoc_str. }
  rewrite Huri.
  assert (Hsp : urlparse.span_netloc (netloc +:+ path) = (netloc, path)).
  { apply span_netloc_host; [|done]. unfold netloc.
    assert (W : forall s, none_of "/?#@:" s = true -> none_of "/?#" s = true).
    { intros s. apply none_of_weaken. intros c. rewrite !contains_cons.
      destruct (Ascii.eqb "/" c), (Ascii.eqb "?" c), (Ascii.eqb "#" c); done. }
    apply none_of_app; [by apply W|].
    unfold none_of. cbn [urlparse.all_chars].
    change (negb (Py.contains "@" "/?#")) with true. by apply W. }
  apply (dispatch_client _ _ true). unfold get_transport_and_path.
  rewrite (urlparse_git_ssh _ _ Hsp). cbn [urlparse.scheme urlparse.path].
  change (String.eqb "git+ssh" "git") with false.
  change (String.eqb "git+ssh" "git+ssh") with true. cbv iota.
  unfold urlparse.port, urlparse.hostname, urlparse.username, urlparse.hostinfo.
  cbn [urlparse.netloc]. unfold netloc.
  rewrite (rsplit1_app _ _ _ (none_of_contains _ _ "@" Hh eq_refl)).
  rewrite (split1_None _ _ (none_of_contains _ _ ":" Hh eq_refl)).
  rewrite (split1_None _ _ (none_of_contains _ _ ":" Hu eq_refl)).
  rewrite lift_ok_bind. destruct host as [|x host]; [done|]. reflexivity.
Qed.

Lemma git_ssh_location_witness :
  "Example.COM" <> EmptyString
  /\ none_of "/?#@:" "alice" = true
  /\ none_of "/?#@:" "Example.COM" = true
  /\ Py.startswith "/" "/srv/repo.git" = true
  /\ dispatch ("git+ssh://" +:+ "alice" +:+ "@" +:+ "Example.COM"
               +:+ "/srv/repo.git") (world0 EmptyString)
     = Ok (SSHGitClient (Some (Py.lower "Example.COM")) None (Some "alice"),
           "/srv/repo.git")
  /\ spawned_argv (SSHGitClient (Some (Py.lower "Example.COM")) None (Some "alice"))
       "upload-pack" "/srv/repo.git"
     = Some [Some "ssh"; Some "-x";
             Some ("alice" +:+ "@" +:+ Py.lower "Example.COM");
             Some ("git-" +:+ "upload-pack" +:+ " '" +:+ "/srv/repo.git" +:+ "'")].
Proof.
  split; [discriminate|]. split; [reflexivity|]. split; [reflexivity|].
  split; [reflexivity|].
  apply (git_ssh_location "alice" "Example.COM" "/srv/repo.git" "upload-pack"
           (world0 EmptyString)).
  - discriminate.
  - reflexivity.
  - reflexivity.
  - right. reflexivity.
Defined.

Lemma split_two c s :
  Py.contains c s = true -> exists a b rest, Py.split c s = a :: b :: rest.
Proof.
  induction s as [|x s IH]; [done|]. cbn [Py.contains Py.split].
  destruct (Ascii.eqb x c).
  - intros _. destruct s as [|y s]; [by eexists _, _, _|].
    cbn [Py.split]. destruct (Ascii.eqb y c); [by eexists _, _, _|].
    destruct (Py.split c s); by eexists _, _, _.
  - intros H. destruct (IH H) as (a & b & rest & ->). by eexists _, _, _.
Qed.

(** X15.  A second colon.  A location [user@host:path] whose path holds a
    further colon is refused: the split at the colons gives more than
    two parts and [get_transport_and_path] raises [ValueError]. *)
Theorem ssh_location_second_colon (user host path : string) (w : world) :
  none_of "/:@#?;" user = true ->
  none_of ":@#?;" host = true ->
  none_of "#?;" path = true ->
  Py.contains ":" path = true ->
  dispatch (user +:+ "@" +:+ host +:+ ":" +:+ path) w
  = Raise (ValueError "too many values to unpack").
Proof.
  intros Hu Hh Hp Hc.
  assert (U : forall c, Py.contains c ":@#?;" = true ->
                        Py.contains c user = false).
  { intros c Hc'. apply (none_of_contains _ _ _ Hu).
    rewrite contains_cons, Hc'. apply orb_true_r. }
  pose proof (fun c => none_of_contains _ _ c Hh) as H.
  pose proof (none_of_contains _ _ "#" Hp eq_refl) as Pf.
  pose proof (none_of_contains _ _ "?" Hp eq_refl) as Pq.
  pose proof (none_of_contains _ _ ";" Hp eq_refl) as Pp.
  change (user +:+ "@" +:+ host +:+ ":" +:+ path)
    with (user +:+ String "@" (host +:+ String ":" path)).
  set (user_host := user +:+ String "@" host).
  assert (UH : forall c, Py.contains c ":#?;" = true ->
                         Py.contains c user_host = false).
  { intros c Hc'. unfold user_host.
    assert (Hc'' : Py.contains c ":@#?;" = true).
    { revert Hc'. rewrite !contains_cons.
      destruct (Ascii.eqb ":" c), (Ascii.eqb "#" c), (Ascii.eqb "?" c),
        (Ascii.eqb ";" c), (Ascii.eqb "@" c); done. }
    rewrite contains_app, contains_cons, (U c Hc''), (H c Hc'').
    revert Hc'. rewrite !contains_cons.
    destruct (Ascii.eqb_spec "@" c) as [<-|_]; done. }
  assert (Huri : user +:+ String "@" (host +:+ String ":" path)
                 = user_host +:+ String ":" path).
  { unfold user_host. by rewrite app_assoc_str. }
  rewrite Huri.
  assert (Hat : Py.contains "@" user_host = true).
  { unfold user_host. rewrite contains_app, contains_cons. cbn. apply orb_true_r. }
  assert (Hparse : urlparse.urlparse (user_host +:+ String ":" path)
                   = urlparse.mkParse EmptyString EmptyString
                       (user_host +:+ String ":" path) EmptyString EmptyString
                       EmptyString).
  { apply urlparse_plain.
    - rewrite (split1_app _ _ _ (UH ":"%char eq_refl)).
      destruct user_host as [|a pre]; [done|].
      by apply (not_scheme_chars "@").
    - unfold user_host. destruct user as [|x user]; [done|].
      pose proof (none_of_contains _ _ "/" Hu eq_refl) as Hx.
      rewrite contains_cons in Hx. apply orb_false_elim in Hx as [Hx _].
      change ((String x user +:+ String "@" host) +:+ String ":" path)
        with (String x ((user +:+ String "@" host) +:+ String ":" path)).
      cbn [Py.startswith]. by rewrite (Ascii.eqb_sym "/" x), Hx.
    - rewrite contains_app, contains_cons, (UH "#"%char eq_refl), Pf. done.
    - rewrite contains_app, contains_cons, (UH "?"%char eq_refl), Pq. done.
    - rewrite contains_app, contains_cons, (UH ";"%char eq_refl), Pp. done. }
  unfold dispatch, run, get_transport_and_path.
  rewrite Hparse. cbn [urlparse.scheme urlparse.netloc urlparse.path].
  cbn [String.eqb Py.truthy andb].
  rewrite !contains_app, !contains_cons, Hat, Ascii.eqb_refl, orb_true_r.
  cbn [orb andb].
  rewrite (split_app _ _ _ (UH ":"%char eq_refl)).
  destruct (split_two _ _ Hc) as (a & b & rest & ->).
  reflexivity.
Qed.

Lemma ssh_location_second_colon_witness :
  none_of "/:@#?;" "git" = true
  /\ none_of ":@#?;" "example.com" = true
  /\ none_of "#?;" "2222:repo.git" = true
  /\ Py.contains ":" "2222:repo.git" = true
  /\ dispatch ("git" +:+ "@" +:+ "example.com" +:+ ":" +:+ "2222:repo.git")
       (world0 EmptyString)
     = Raise (ValueError "too many values to unpack").
Proof.
  split; [reflexivity|]. split; [reflexivity|]. split; [reflexivity|].
  split; [reflexivity|].
  apply (ssh_location_second_colon "git" "example.com" "2222:repo.git"
           (world0 EmptyString)); reflexivity.
Defined.

(** ** The side-band demultiplexer *)

Section SideBand.

Context {St : Type} (cbs : gmap nat (option (string -> St -> M St))).
Hypothesis callbacks_read_nothing :
  forall ch cb p st w,
    cbs !! ch = Some (Some cb) ->
    String.length (inp (cb p st w).1) <= String.length (inp w).

Lemma side_band_body_reads_nothing (pkt : string) (st : St) (w : world) :
  String.length
    (inp (match pkt with
          | EmptyString => raise (IndexError "string index out of range")
          | String c pkt =>
              let channel := nat_of_ascii c in
              match cbs !! channel with
              | None => raise (AssertionError ("Invalid sideband channel " +:+ pretty channel))
              | Some None => mret st
              | Some (Some cb) => cb pkt st
              end
          end w).1) <= String.length (inp w).
Proof.
  destruct pkt as [|c pkt]; [done|]. cbv zeta.
  destruct (cbs !! nat_of_ascii c) as [[cb|]|] eqn:E; [|done|done].
  by eapply callbacks_read_nothing.
Qed.

Lemma side_band_end st w rest :
  inp w = Protocol.flush_pkt +:+ rest ->
  _read_side_band64k_data cbs st w = (set_inp rest w, Ok st).
Proof.
  intros E. unfold _read_side_band64k_data.
  by apply read_pkt_seq_for_end, read_flush.
Qed.

Lemma side_band_deliver st w ch data rest cb w2 st' :
  inp w = Protocol.pkt_line (channel ch data) +:+ rest ->
  fits (channel ch data) -> ch < 256 ->
  cbs !! ch = Some (Some cb) ->
  cb data st (set_inp rest w) = (w2, Ok st') ->
  _read_side_band64k_data cbs st w = _read_side_band64k_data cbs st' w2.
Proof.
  intros E Hfit Hch Hcb Hrun. unfold _read_side_band64k_data.
  apply (read_pkt_seq_for_step _ side_band_body_reads_nothing st w
           (set_inp rest w) (channel ch data)).
  - by apply read_written_pkt_line.
  - unfold channel. cbv beta iota zeta. rewrite nat_ascii_embedding by done.
    unfold M in *. by rewrite Hcb.
Qed.

Lemma side_band_discard st w ch data rest :
  inp w = Protocol.pkt_line (channel ch data) +:+ rest ->
  fits (channel ch data) -> ch < 256 ->
  cbs !! ch = Some None ->
  _read_side_band64k_data cbs st w
  = _read_side_band64k_data cbs st (set_inp rest w).
Proof.
  intros E Hfit Hch Hcb. unfold _read_side_band64k_data.
  apply (read_pkt_seq_for_step _ side_band_body_reads_nothing st w
           (set_inp rest w) (channel ch data)).
  - by apply read_written_pkt_line.
  - unfold channel. cbv beta iota zeta. rewrite nat_ascii_embedding by done.
    unfold M in *. by rewrite Hcb.
Qed.

End SideBand.

(** X16.  A channel without callback.  When the first side-band payload is
    on a channel the callback map does not hold, the demultiplexer raises
    [AssertionError] naming the channel, after consuming that packet;
    nothing is delivered.  (This is so for channel 3 in a fetch and in a
    push, whose maps hold channels 1 and 2 only.) *)
Theorem side_band_unknown_channel {St : Type}
    (cbs : gmap nat (option (string -> St -> M St))) (st : St)
    (ch : nat) (data rest : string) (w : world) :
  inp w = Protocol.pkt_line (channel ch data) +:+ rest ->
  fits (channel ch data) -> ch < 256 ->
  cbs !! ch = None ->
  run (_read_side_band64k_data cbs st) w
  = (set_inp rest w,
     Raise (AssertionError ("Invalid sideband channel " +:+ pretty ch))).
Proof.
  intros E Hfit Hch Hcb. unfold run, _read_side_band64k_data.
  apply (read_pkt_seq_for_raise _ st w (set_inp rest w) (channel ch data)).
  - by apply read_written_pkt_line.
  - unfold channel. cbv beta iota zeta. rewrite nat_ascii_embedding by done.
    unfold M in *. by rewrite Hcb.
Qed.

Lemma side_band_unknown_channel_witness :
  inp (conversation (Protocol.pkt_line (channel 3 "fatal")) [] [])
  = Protocol.pkt_line (channel 3 "fatal") +:+ EmptyString
  /\ ({[ 1 := Some (fun pkt (_ : unit) => pack_data pkt);
         2 := progress_callback true ]}
        : gmap nat (option (string -> unit -> M unit))) !! 3 = None
  /\ run (_read_side_band64k_data
            ({[ 1 := Some (fun pkt (_ : unit) => pack_data pkt);
                2 := progress_callback true ]}
               : gmap nat (option (string -> unit -> M unit))) tt)
       (conversation (Protocol.pkt_line (channel 3 "fatal")) [] [])
     = (set_inp EmptyString
          (conversation (Protocol.pkt_line (channel 3 "fatal")) [] []),
        Raise (AssertionError ("Invalid sideband channel " +:+ pretty 3))).
Proof.
  split; [vm_compute; reflexivity|].
  split; [reflexivity|].
  apply (side_band_unknown_channel
           ({[ 1 := Some (fun pkt (_ : unit) => pack_data pkt);
               2 := progress_callback true ]}
              : gmap nat (option (string -> unit -> M unit))) tt 3 "fatal"
           EmptyString
           (conversation (Protocol.pkt_line (channel 3 "fatal")) [] [])).
  - vm_compute; reflexivity.
  - fits_tac.
  - lia.
  - reflexivity.
Defined.

Lemma fetch_callbacks_read_nothing progress :
  forall ch cb p (st : unit) w,
    ({[ 1 := Some (fun pkt (_ : unit) => pack_data pkt);
        2 := progress_callback progress ]}
       : gmap nat (option (string -> unit -> M unit))) !! ch = Some (Some cb) ->
    String.length (inp (cb p st w).1) <= String.length (inp w).
Proof.
  intros ch cb p st w Hcb.
  rewrite (keeps_fetch_callbacks inp progress ltac:(done) ltac:(done) ch cb p st Hcb w).
  done.
Qed.

Lemma on_channel_cons ch c data frames :
  on_channel ch ((c, data) :: frames)
  = if decide (c = ch) then data :: on_channel ch frames else on_channel ch frames.
Proof. unfold on_channel. rewrite filter_cons. simpl. by destruct (decide (c = ch)). Qed.

(** What the demultiplexer does with the side-band stream of a fetch. *)
Lemma side_band_fetch_run (progress : bool) (frames : list (nat * string))
    (rest : string) (w : world) :
  inp w = side_band frames +:+ rest ->
  Forall (fun '(ch, data) => (ch = 1 \/ ch = 2) /\ fits (channel ch data)) frames ->
  exists w',
    run (_read_side_band64k_data
           ({[ 1 := Some (fun pkt (_ : unit) => pack_data pkt);
               2 := progress_callback progress ]}
              : gmap nat (option (string -> unit -> M unit))) tt) w
    = (w', Ok tt)
    /\ inp w' = rest
    /\ sink w' = sink w ++ on_channel 1 frames
    /\ prog w' = prog w ++ (if progress then on_channel 2 frames else [])
    /\ out w' = out w /\ heap w' = heap w.
Proof.
  revert w. induction frames as [|[ch data] frames IH]; intros w E Hall.
  - exists (set_inp rest w). split; [by apply side_band_end|].
    cbn. destruct progress; by rewrite !app_nil_r.
  - apply Forall_cons in Hall as [[Hch Hfit] Hall].
    cbn [side_band foldr] in E. rewrite app_assoc_str in E.
    fold (side_band frames) in E.
    pose proof (fetch_callbacks_read_nothing progress) as Hcb.
    unfold run in *. destruct Hch as [-> | ->].
    + destruct (IH (set_sink (sink w ++ [data]) (set_inp (side_band frames +:+ rest) w)))
        as (w' & Er & Hi & Hs & Hp & Ho & Hh); [done|done|].
      exists w'. split.
      * rewrite <- Er.
        apply (side_band_deliver _ Hcb tt w 1 data (side_band frames +:+ rest)
                 (fun pkt _ => pack_data pkt) _ tt);
          [done|done|lia|reflexivity|reflexivity].
      * rewrite Hi, Hs, Hp, Ho, Hh. rewrite on_channel_cons.
        cbn [sink set_sink set_inp prog out heap]. rewrite <- app_assoc.
        rewrite on_channel_cons. by destruct progress.
    + destruct progress.
      * destruct (IH (set_prog (prog w ++ [data]) (set_inp (side_band frames +:+ rest) w)))
          as (w' & Er & Hi & Hs & Hp & Ho & Hh); [done|done|].
        exists w'. split.
        -- rewrite <- Er.
           apply (side_band_deliver _ Hcb tt w 2 data (side_band frames +:+ rest)
                    (fun pkt st => progress_cb pkt;; mret st) _ tt);
             [done|done|lia|reflexivity|reflexivity].
        -- rewrite Hi, Hs, Hp, Ho, Hh. rewrite !on_channel_cons.
           cbn [sink set_sink set_inp prog set_prog out heap].
           by rewrite <- app_assoc.
      * destruct (IH (set_inp (side_band frames +:+ rest) w))
          as (w' & Er & Hi & Hs & Hp & Ho & Hh); [done|done|].
        exists w'. split.
        -- rewrite <- Er.
           apply (side_band_discard _ Hcb tt w 2 data (side_band frames +:+ rest));
             [done|done|lia|reflexivity].
        -- rewrite Hi, Hs, Hp, Ho, Hh. rewrite !on_channel_cons. done.
Qed.

(** X17.  Demultiplexing a fetch.  For a side-band stream of frames on
    channels 1 and 2 followed by a flush, the demultiplexer with the
    callbacks of [fetch_pack] consumes exactly the stream, hands the
    channel 1 data to the pack sink in order, and hands the channel 2
    data to the progress callback in order, or drops it when the caller
    gave none. *)
Theorem side_band_fetch_demux (progress : bool) (frames : list (nat * string))
    (rest : string) (w : world) :
  inp w = side_band frames +:+ rest ->
  Forall (fun '(ch, data) => (ch = 1 \/ ch = 2) /\ fits (channel ch data)) frames ->
  exists w',
    run (_read_side_band64k_data
           ({[ 1 := Some (fun pkt (_ : unit) => pack_data pkt);
               2 := progress_callback progress ]}
              : gmap nat (option (string -> unit -> M unit))) tt) w
    = (w', Ok tt)
    /\ inp w' = rest
    /\ sink w' = sink w ++ on_channel 1 frames
    /\ prog w' = prog w ++ (if progress then on_channel 2 frames else [])
    /\ out w' = out w /\ heap w' = heap w.
Proof. exact (side_band_fetch_run progress frames rest w). Qed.

Lemma side_band_fetch_demux_witness :
  inp (conversation (side_band pack_frames) [] [])
  = side_band pack_frames +:+ EmptyString
  /\ exists w',
       run (_read_side_band64k_data
              ({[ 1 := Some (fun pkt (_ : unit) => pack_data pkt);
                  2 := progress_callback true ]}
                 : gmap nat (option (string -> unit -> M unit))) tt)
         (conversation (side_band pack_frames) [] [])
       = (w', Ok tt)
       /\ inp w' = EmptyString
       /\ sink w' = sink (conversation (side_band pack_frames) [] [])
                    ++ on_channel 1 pack_frames
       /\ prog w' = prog (conversation (side_band pack_frames) [] [])
                    ++ on_channel 2 pack_frames
       /\ out w' = out (conversation (side_band pack_frames) [] [])
       /\ heap w' = heap (conversation (side_band pack_frames) [] []).
Proof.
  split; [vm_compute; reflexivity|].
  apply (side_band_fetch_demux true pack_frames EmptyString
           (conversation (side_band pack_frames) [] [])).
  - vm_compute; reflexivity.
  - constructor; [|constructor; [|constructor]].
    + split; [by right|fits_tac].
    + split; [by left|fits_tac].
Defined.

(** ** A whole fetch *)

Lemma ack_loop_nak n w : ack_loop n (Some ("NAK" +:+ NL)) w = (w, Ok tt).
Proof. by destruct n. Qed.

Lemma fits_nak : fits ("NAK" +:+ NL).
Proof. unfold fits. change (String.length ("NAK" +:+ NL)) with 4. lia. Qed.

Lemma ack_line_parts sha :
  Py.contains Py.sp sha = false -> Py.contains Py.nl sha = false ->
  Py.split Py.sp (Py.rstrip_nl ("ACK " +:+ sha +:+ " continue" +:+ NL))
  = ["ACK"; sha; "continue"]
  /\ Py.split Py.sp ("ACK " +:+ sha +:+ " continue" +:+ NL) !! 1 = Some sha.
Proof.
  intros Hsp Hnl. split.
  - replace ("ACK " +:+ sha +:+ " continue" +:+ NL)
      with (("ACK" +:+ String Py.sp (sha +:+ String Py.sp "continue")) +:+ NL).
    + rewrite rstrip_nl_app.
      * rewrite split_app by done. by rewrite split_app by done.
      * rewrite contains_app. change (Py.contains Py.nl "ACK") with false.
        rewrite (contains_cons Py.nl Py.sp), (contains_app _ sha), Hnl. done.
    + change (String "A" (String "C" (String "K" (String Py.sp
                ((sha +:+ String Py.sp "continue") +:+ NL))))
              = String "A" (String "C" (String "K" (String Py.sp
                  (sha +:+ (String Py.sp "continue" +:+ NL)))))).
      by rewrite app_assoc_str.
  - change ("ACK " +:+ sha +:+ " continue" +:+ NL)
      with ("ACK" +:+ String Py.sp (sha +:+ String Py.sp ("continue" +:+ NL))).
    rewrite split_app by done. by rewrite split_app by done.
Qed.

Lemma ack_tail_fuel n w :
  String.length (inp w) <= S n ->
  (pkt ← Protocol.read_pkt_line; ack_loop n pkt) w
  = (pkt ← Protocol.read_pkt_line; w' ← get_world;
     ack_loop (String.length (inp w')) pkt) w.
Proof.
  intros Hn. unfold mbind, M_mbind, M_bind, get_world.
  destruct (Protocol.read_pkt_line w) as [w' [[p|]|e]] eqn:E; [| |done].
  - apply read_pkt_line_shrinks in E. symmetry. apply ack_loop_fuel; lia.
  - by destruct n, (String.length (inp w')).
Qed.

Lemma bind_get_world_assoc {A B C : Type} (m : M A)
    (f : A -> world -> M B) (k : M C) w :
  (a ← m; w' ← get_world; f a w';; k) w
  = ((a ← m; w' ← get_world; f a w') ≫= (fun _ => k)) w.
Proof.
  unfold mbind, M_mbind, M_bind, get_world.
  by destruct (m w) as [w' [a|e]].
Qed.

(** The loop after [done] acknowledges the common ids up to the NAK. *)
Lemma read_acknowledgements shas : forall w rest,
  inp w = acknowledgements shas +:+ rest ->
  Forall (fun sha => Py.contains Py.sp sha = false
                     /\ Py.contains Py.nl sha = false
                     /\ fits ("ACK " +:+ sha +:+ " continue" +:+ NL)) shas ->
  (pkt ← Protocol.read_pkt_line; w' ← get_world;
   ack_loop (String.length (inp w')) pkt) w
  = (set_gw_acked (gw_acked w ++ shas) (set_inp rest w), Ok tt).
Proof.
  induction shas as [|sha shas IH]; intros w rest E Hall.
  - rewrite (bind_ok _ _ _ _ _ (read_written_pkt_line _ _ _ fits_nak E)).
    rewrite (bind_ok _ _ _ _ (set_inp rest w) eq_refl).
    rewrite ack_loop_nak, app_nil_r. by destruct w.
  - apply Forall_cons in Hall as [(Hsp & Hnl & Hfit) Hall].
    cbn [acknowledgements foldr] in E. rewrite app_assoc_str in E.
    fold (acknowledgements shas) in E.
    set (tail := acknowledgements shas +:+ rest) in E.
    rewrite (bind_ok _ _ _ _ _ (read_written_pkt_line _ _ _ Hfit E)).
    rewrite (bind_ok _ _ _ _ (set_inp tail w) eq_refl).
    cbn [inp set_inp].
    assert (Htail : 4 <= String.length tail).
    { unfold tail. rewrite length_app.
      destruct shas as [|s shas']; cbn [acknowledgements foldr];
        rewrite ?length_app; unfold Protocol.pkt_line; cbn [String.length]; lia. }
    destruct (String.length tail) as [|n] eqn:En; [lia|].
    destruct (ack_line_parts sha Hsp Hnl) as [Hparts Hid].
    cbn [ack_loop].
    change (Py.truthy ("ACK " +:+ sha +:+ " continue" +:+ NL)) with true.
    cbv iota zeta. rewrite Hparts, Hid.
    cbn [lookup list_lookup length Nat.ltb Nat.leb orb].
    rewrite bool_decide_eq_true_2 by done.
    rewrite bool_decide_eq_true_2 by done. cbn [negb].
    rewrite (bind_ok _ _ _ _ tt
               (eq_refl : graph_walker_ack sha (set_inp tail w)
                          = (set_gw_acked (gw_acked w ++ [sha]) (set_inp tail w), _))).
    rewrite ack_tail_fuel by (cbn [inp set_inp set_gw_acked]; lia).
    rewrite (IH _ rest); [|done|done].
    cbn [gw_acked set_gw_acked set_inp]. by rewrite <- app_assoc.
Qed.

(** X18.  A fetch over side-band.  The client asks for [side-band-64k],
    [determine_wants] gives at least one id, nothing is pending while the
    haves go out, and the server answers [done] with a line
    "ACK <sha> continue" for each of some ids, then "NAK", then side-band
    frames on channels 1 and 2, a flush and the end of the stream.  Then
    [fetch_pack] returns the advertised refs, the graph walker has been
    told of exactly these ids, in order, the pack sink has received
    exactly the channel 1 data, in order, the progress callback the
    channel 2 data (nothing without a callback), and the stream is read
    to its end. *)
Theorem fetch_side_band (self : GitClient)
    (determine_wants : gmap string string -> list string) (progress : bool)
    (w w1 : world) (refs : gmap string string) (caps : option (list string))
    (fetch_caps : list string) (want0 : string) (wants : list string)
    (shas : list string) (frames : list (nat * string)) :
  run _read_refs w = (w1, Ok (refs, caps)) ->
  determine_wants refs = want0 :: wants ->
  heap w !! _fetch_capabilities self = Some fetch_caps ->
  mem "side-band-64k" fetch_caps = true ->
  Forall (fun i => Py.truthy i = true) (gw_next w) ->
  Forall (fun b => b = false) (ready w) ->
  inp w1 = acknowledgements shas +:+ side_band frames ->
  Forall (fun sha => Py.contains Py.sp sha = false
                     /\ Py.contains Py.nl sha = false
                     /\ fits ("ACK " +:+ sha +:+ " continue" +:+ NL)) shas ->
  Forall (fun '(ch, data) => (ch = 1 \/ ch = 2) /\ fits (channel ch data)) frames ->
  (run (fetch_pack self determine_wants progress) w).2 = Ok refs
  /\ gw_acked (run (fetch_pack self determine_wants progress) w).1
     = gw_acked w ++ shas
  /\ sink (run (fetch_pack self determine_wants progress) w).1
     = sink w ++ on_channel 1 frames
  /\ prog (run (fetch_pack self determine_wants progress) w).1
     = prog w ++ (if progress then on_channel 2 frames else [])
  /\ inp (run (fetch_pack self determine_wants progress) w).1 = EmptyString.
Proof.
  intros Hrefs Hwants Hf Hsb Hids Hq Hinp Hshas Hframes.
  destruct (read_refs_keeps _ _ _ Hrefs) as (Hh & Ho & Hg & Ha & Hs & Hp & Hr).
  unfold run in *.
  assert (Hrun : exists w',
    fetch_pack self determine_wants progress w = (w', Ok refs)
    /\ gw_acked w' = gw_acked w1 ++ shas
    /\ sink w' = sink w1 ++ on_channel 1 frames
    /\ prog w' = prog w1 ++ (if progress then on_channel 2 frames else [])
    /\ inp w' = EmptyString).
  { unfold fetch_pack. rewrite (bind_ok _ _ _ _ _ Hrefs).
    assert (Hcopy : list_copy (_fetch_capabilities self) w1
                    = (set_heap (<[fresh (dom (heap w1)) := fetch_caps]> (heap w1)) w1,
                       Ok (fresh (dom (heap w1))))).
    { unfold list_copy, list_get, list_new, mbind, M_mbind, M_bind.
      rewrite <- Hh in Hf. by rewrite Hf. }
    rewrite (bind_ok _ _ _ _ _ Hcopy). rewrite Hwants.
    set (l := fresh (dom (heap w1))).
    set (w2 := set_heap (<[l := fetch_caps]> (heap w1)) w1).
    assert (Hget : list_get l w2 = (w2, Ok fetch_caps)).
    { unfold list_get. cbn [heap w2 set_heap]. by rewrite lookup_insert_eq. }
    rewrite (bind_ok _ _ _ _ _ Hget).
    rewrite (bind_ok _ _ _ _ _ (write_pkt_line_run _ w2)).
    rewrite (bind_ok _ _ _ _ _ (mapM_want_lines wants _)).
    rewrite (bind_ok _ _ _ _ _ (write_pkt_line_run _ _)).
    match goal with |- context [graph_walker_next ≫= _] =>
      match goal with |- exists w', _ ?w0 = _ /\ _ => set (w3 := w0) end end.
    assert (Hg3 : gw_next w3 = gw_next w) by (by rewrite <- Hg).
    assert (Hq3 : Forall (fun b => b = false) (ready w3)) by (by rewrite <- Hr in Hq).
    (* the have loop *)
    assert (Hloop : exists w4,
      (have ← graph_walker_next; w ← get_world;
       have_loop (length (gw_next w)) have) w3 = (w4, Ok tt)
      /\ inp w4 = inp w1 /\ heap w4 = heap w2 /\ sink w4 = sink w1
      /\ prog w4 = prog w1 /\ gw_acked w4 = gw_acked w1).
    { destruct (gw_next w3) as [|h ids] eqn:G.
      - exists w3. rewrite (bind_ok _ _ _ _ _ (graph_walker_next_nil _ G)).
        rewrite (bind_ok _ _ w3 w3 w3 eq_refl). rewrite G. done.
      - rewrite <- Hg3 in Hids. apply Forall_cons in Hids as [Hh0 Hids].
        rewrite (bind_ok _ _ _ _ _ (graph_walker_next_cons _ _ _ G)).
        rewrite (bind_ok _ _ _ _ (set_gw_next ids w3) eq_refl).
        destruct (have_loop_quiet ids (length ids) h (set_gw_next ids w3))
          as (w4 & E & _ & _ & Hi4 & Hh4 & Hs4 & Hp4 & Ha4); try done.
        exists w4. split; [exact E|]. by rewrite Hi4, Hh4, Hs4, Hp4, Ha4. }
    destruct Hloop as (w4 & Eloop & Hi4 & Hh4 & Hs4 & Hp4 & Ha4).
    rewrite bind_get_world_assoc. rewrite (bind_ok _ _ _ _ _ Eloop).
    rewrite (bind_ok _ _ _ _ _ (write_pkt_line_run _ w4)).
    set (w5 := set_out _ w4).
    (* the acknowledgements *)
    rewrite bind_get_world_assoc.
    rewrite (bind_ok _ _ _ _ _
               (read_acknowledgements shas w5 (side_band frames)
                  ltac:(by cbn [inp w5 set_out]; rewrite Hi4) Hshas)).
    set (w6 := set_gw_acked _ _).
    assert (Hget6 : list_get l w6 = (w6, Ok fetch_caps)).
    { unfold list_get. cbn [heap w6 w5 set_inp set_out set_gw_acked]. rewrite Hh4.
      cbn [heap w2 set_heap]. by rewrite lookup_insert_eq. }
    rewrite (bind_ok _ _ _ _ _ Hget6). rewrite Hsb. cbv zeta.
    destruct (side_band_fetch_run progress frames EmptyString w6)
      as (w7 & Edemux & Hi7 & Hs7 & Hp7 & _); [|done|].
    { cbn [inp w6 set_inp set_gw_acked]. clear.
      induction (side_band frames) as [|c s IH]; [done|].
      change (String c s +:+ EmptyString) with (String c (s +:+ EmptyString)).
      by rewrite <- IH. }
    unfold run in Edemux.
    assert (Ha7 : gw_acked w7 = gw_acked w6).
    { refine (keeps_run gw_acked _ _ _ _ _ Edemux).
      apply keeps_read_side_band64k_data; [done|].
      intros ch cb p st. by apply keeps_fetch_callbacks. }
    match goal with |- exists w', (?m ≫= ?k) w6 = _ /\ _ =>
      assert (Etail : m w6 = (set_inp EmptyString w7, Ok tt)) end.
    { rewrite (bind_ok _ _ _ _ _ Edemux).
      assert (Er : Protocol.read w7 = (set_inp EmptyString w7, Ok EmptyString)).
      { unfold Protocol.read. by rewrite Hi7. }
      by rewrite (bind_ok _ _ _ _ _ Er). }
    rewrite (bind_ok _ _ _ _ _ Etail).
    eexists. split; [reflexivity|]. cbn [gw_acked sink prog inp set_inp].
    rewrite Hs7, Hp7, Ha7.
    cbn [gw_acked sink prog w6 w5 set_inp set_out set_gw_acked].
    by rewrite Hs4, Hp4, Ha4. }
  destruct Hrun as (w' & -> & Ha' & Hs' & Hp' & Hi'). cbn [fst snd].
  by rewrite Ha', Hs', Hp', Hi', Ha, Hs, Hp.
Qed.

Lemma fetch_side_band_witness :
  run _read_refs
    (world_walking (fetch_server +:+ acknowledgements [id_b]
                    +:+ side_band pack_frames) [id_b])
  = (world_walking (acknowledgements [id_b] +:+ side_band pack_frames) [id_b],
     Ok ({[ "HEAD" := id_a ]},
         Some ["multi_ack"; "thin-pack"; "side-band-64k"; "ofs-delta"]))
  /\ (run (fetch_pack client0 (fun _ => [id_a]) true)
        (world_walking (fetch_server +:+ acknowledgements [id_b]
                        +:+ side_band pack_frames) [id_b])).2
     = Ok {[ "HEAD" := id_a ]}
  /\ gw_acked (run (fetch_pack client0 (fun _ => [id_a]) true)
                 (world_walking (fetch_server +:+ acknowledgements [id_b]
                                 +:+ side_band pack_frames) [id_b])).1
     = [] ++ [id_b]
  /\ sink (run (fetch_pack client0 (fun _ => [id_a]) true)
             (world_walking (fetch_server +:+ acknowledgements [id_b]
                             +:+ side_band pack_frames) [id_b])).1
     = [] ++ on_channel 1 pack_frames
  /\ prog (run (fetch_pack client0 (fun _ => [id_a]) true)
             (world_walking (fetch_server +:+ acknowledgements [id_b]
                             +:+ side_band pack_frames) [id_b])).1
     = [] ++ on_channel 2 pack_frames
  /\ inp (run (fetch_pack client0 (fun _ => [id_a]) true)
            (world_walking (fetch_server +:+ acknowledgements [id_b]
                            +:+ side_band pack_frames) [id_b])).1
     = EmptyString.
Proof.
  split; [vm_compute; reflexivity|].
  apply (fetch_side_band client0 (fun _ => [id_a]) true
           (world_walking (fetch_server +:+ acknowledgements [id_b]
                           +:+ side_band pack_frames) [id_b])
           (world_walking (acknowledgements [id_b] +:+ side_band pack_frames)
              [id_b])
           {[ "HEAD" := id_a ]}
           (Some ["multi_ack"; "thin-pack"; "side-band-64k"; "ofs-delta"])
           (FETCH_CAPABILITIES ++ ["thin-pack"]) id_a [] [id_b] pack_frames).
  - vm_compute; reflexivity.
  - reflexivity.
  - reflexivity.
  - reflexivity.
  - repeat constructor.
  - constructor.
  - reflexivity.
  - constructor; [|constructor].
    split; [reflexivity|]. split; [reflexivity|fits_tac].
  - constructor; [|constructor; [|constructor]].
    + split; [by right|fits_tac].
    + split; [by left|fits_tac].
Defined.

(** ** The pack of a push *)

Lemma mem_elem_of v xs : mem v xs = true <-> v ∈ xs.
Proof.
  unfold mem. rewrite existsb_exists. split.
  - intros (x & Hin & ->%String.eqb_eq). by apply list_elem_of_In.
  - intros Hin. exists v. split; [by apply list_elem_of_In|apply String.eqb_refl].
Qed.

Lemma pack_wants_cons have new_refs r rest :
  pack_wants have new_refs (r :: rest)
  = (if negb (mem (id_of new_refs r) have)
        && negb (String.eqb (id_of new_refs r) Protocol.ZERO_SHA)
     then [id_of new_refs r] else [])
    ++ pack_wants have new_refs rest.
Proof.
  unfold pack_wants. rewrite filter_cons.
  destruct (decide _) as [[Hm Hz]|Hn].
  - rewrite Hm. apply String.eqb_neq in Hz. by rewrite Hz.
  - destruct (mem _ have) eqn:Hm; [done|].
    destruct (String.eqb_spec (id_of new_refs r) Protocol.ZERO_SHA) as [|Hz];
      [done|]. by destruct Hn.
Qed.

(** The ids the pack is asked for. *)
Lemma pack_wants_spec (old_refs new_refs : gmap string string) (x : string) :
  x ∈ pack_wants
        (filter (fun x => x ≠ Protocol.ZERO_SHA) (map_to_list old_refs).*2)
        new_refs (elements (dom new_refs ∪ dom old_refs))
  <-> x ≠ Protocol.ZERO_SHA
      /\ (exists r, new_refs !! r = Some x)
      /\ (forall r, old_refs !! r ≠ Some x).
Proof.
  set (have := filter (fun x => x ≠ Protocol.ZERO_SHA) (map_to_list old_refs).*2).
  unfold pack_wants.
  rewrite list_elem_of_fmap. setoid_rewrite list_elem_of_filter.
  assert (Hhave : forall y, y ≠ Protocol.ZERO_SHA ->
            (mem y have = false <-> forall r, old_refs !! r ≠ Some y)).
  { intros y Hy. rewrite <- not_true_iff_false, mem_elem_of. unfold have.
    rewrite list_elem_of_filter, list_elem_of_fmap. split.
    - intros Hn r Hr. apply Hn. split; [done|]. exists (r, y).
      split; [done|]. by apply elem_of_map_to_list.
    - intros Hn (_ & [r y'] & -> & Hin%elem_of_map_to_list). by apply (Hn r). }
  split.
  - intros (r & -> & (Hm & Hz) & Hr). split; [done|]. split.
    + unfold id_of in *. destruct (new_refs !! r) as [y|] eqn:E; [|done].
      by exists r.
    + by apply Hhave.
  - intros (Hz & (r & Hr) & Hold). exists r.
    assert (Hid : id_of new_refs r = x) by (unfold id_of; by rewrite Hr).
    rewrite Hid. split; [done|]. split; [split; [by apply Hhave|done]|].
    rewrite elem_of_elements, elem_of_union. left.
    apply elem_of_dom. by exists x.
Qed.

(** The update loop collects the ids the pack is asked for. *)
Lemma update_loop_want old_refs new_refs have l caps refnames :
  forall sent want w,
    heap w !! l = Some caps ->
    update_loop old_refs new_refs have l refnames sent want w
    = (set_out (out w ++ map WPkt (update_lines caps sent old_refs new_refs refnames)) w,
       Ok (want ++ pack_wants have new_refs refnames)).
Proof.
  induction refnames as [|r rest IH]; intros sent want w Hl.
  - cbn [update_loop]. rewrite update_lines_nil. cbn [map].
    by rewrite !app_nil_r, set_out_id.
  - cbn [update_loop]. rewrite pack_wants_cons.
    fold (id_of old_refs r). fold (id_of new_refs r).
    set (want' := if negb (mem (id_of new_refs r) have)
                     && negb (String.eqb (id_of new_refs r) Protocol.ZERO_SHA)
                  then want ++ [id_of new_refs r] else want).
    assert (Hw : want ++ (if negb (mem (id_of new_refs r) have)
                             && negb (String.eqb (id_of new_refs r) Protocol.ZERO_SHA)
                          then [id_of new_refs r] else [])
                      ++ pack_wants have new_refs rest
                 = want' ++ pack_wants have new_refs rest).
    { unfold want'. destruct (_ && _); [by rewrite <- app_assoc|done]. }
    rewrite Hw.
    destruct (String.eqb_spec (id_of old_refs r) (id_of new_refs r)) as [Heq|Hne].
    + rewrite update_lines_same by done. cbn [negb].
      rewrite (bind_ok _ _ w w sent eq_refl). by apply IH.
    + rewrite update_lines_changed by done. cbn [negb].
      destruct sent.
      * rewrite (bind_ok _ _ w
                   (set_out (out w ++ [WPkt (update_line (id_of old_refs r)
                                               (id_of new_refs r) r)]) w)
                   true eq_refl).
        rewrite IH by done. cbn [out set_out map]. by rewrite <- app_assoc.
      * assert (E : (caps0 ← list_get l;
                     Protocol.write_pkt_line
                       (Some (update_line (id_of old_refs r) (id_of new_refs r) r
                              +:+ String Py.nul (Py.join " " caps0)));;
                     mret true) w
                    = (set_out (out w ++ [WPkt (update_line (id_of old_refs r)
                                                  (id_of new_refs r) r
                                                +:+ String Py.nul (Py.join " " caps))]) w,
                       Ok true)).
        { unfold mbind, M_mbind, M_bind, list_get. by rewrite Hl. }
        rewrite (bind_ok _ _ _ _ _ E).
        rewrite IH by done. cbn [out set_out map]. by rewrite <- app_assoc.
Qed.

(** [send_pack] up to the pack: the update lines and the flush are
    written, and the response is read only when a pack is sent. *)
Lemma send_pack_steps (self : GitClient)
    (determine_wants : gmap string string -> gmap string string)
    (generate_pack_contents : list string -> list string -> list string)
    (progress : bool) (w w1 : world) (old_refs : gmap string string)
    (advertised requested : list string) :
  _read_refs w = (w1, Ok (old_refs, Some advertised)) ->
  determine_wants old_refs ≠ ∅ ->
  heap w !! _send_capabilities self = Some requested ->
  mem "report-status" requested = true ->
  let new_refs := determine_wants old_refs in
  let refnames := elements (dom new_refs ∪ dom old_refs) in
  let have := filter (fun x => x ≠ Protocol.ZERO_SHA) (map_to_list old_refs).*2 in
  let want := pack_wants have new_refs refnames in
  exists w3 w4,
    heap w3 !! fresh (dom (heap w1)) = Some (negotiated_send requested advertised)
    /\ out w3 = out w /\ inp w3 = inp w1
    /\ w4 = set_out ((out w3 ++ map WPkt (update_lines
                        (negotiated_send requested advertised) false
                        old_refs new_refs refnames)) ++ [WFlush]) w3
    /\ send_pack self determine_wants generate_pack_contents progress w
       = match want with
         | [] => (w4, Ok new_refs)
         | _ => send_pack_response progress new_refs (fresh (dom (heap w1)))
                  (set_out (out w4 ++ [WPack (generate_pack_contents have want)]) w4)
         end.
Proof.
  intros Hrefs Hwants Hreq Hrs new_refs refnames have want.
  destruct (read_refs_keeps _ _ _ Hrefs) as (Hh & Ho & _).
  unfold send_pack. rewrite (bind_ok _ _ _ _ _ Hrefs).
  assert (Hcopy : list_copy (_send_capabilities self) w1
                  = (set_heap (<[fresh (dom (heap w1)) := requested]> (heap w1)) w1,
                     Ok (fresh (dom (heap w1))))).
  { unfold list_copy, list_get, list_new, mbind, M_mbind, M_bind.
    rewrite <- Hh in Hreq. by rewrite Hreq. }
  rewrite (bind_ok _ _ _ _ _ Hcopy).
  set (l := fresh (dom (heap w1))).
  set (w2 := set_heap (<[l := requested]> (heap w1)) w1).
  rewrite (bind_ok _ _ w2 w2 (mem "report-status" advertised) eq_refl).
  assert (Hneg : exists w3,
    ((if negb (mem "report-status" advertised)
      then list_remove l "report-status" else mret ()) w2 = (w3, Ok tt))
    /\ heap w3 !! l = Some (negotiated_send requested advertised)
    /\ out w3 = out w1 /\ inp w3 = inp w1).
  { unfold negotiated_send. destruct (mem "report-status" advertised); cbn [negb].
    - exists w2. split; [done|]. split; [apply lookup_insert_eq|done].
    - destruct (mem_remove_first _ _ Hrs) as [xs Hxs].
      unfold list_remove, list_get, mbind, M_mbind, M_bind.
      cbn [heap w2 set_heap]. rewrite lookup_insert_eq, Hxs.
      eexists. split; [reflexivity|]. cbn [modify heap set_heap out default].
      split; [apply lookup_insert_eq|done]. }
  destruct Hneg as (w3 & Hrun & Hl & Hout3 & Hinp3).
  rewrite (bind_ok _ _ _ _ _ Hrun). fold new_refs.
  rewrite bool_decide_eq_false_2 by done.
  fold have. fold refnames.
  rewrite (bind_ok _ _ _ _ _ (update_loop_want old_refs new_refs have l _
                                refnames false [] w3 Hl)).
  rewrite (bind_ok _ _ _ _ _ (write_pkt_line_run None _)).
  cbn [app]. fold want. cbn [out set_out].
  eexists w3, _. split; [exact Hl|]. split; [by rewrite Hout3|]. split; [done|].
  split; [reflexivity|].
  destruct want; [reflexivity|].
  by rewrite (bind_ok _ _ _ _ _ (eq_refl :
    Protocol.write_pack (generate_pack_contents have (s :: want)) _ = (_, Ok tt))).
Qed.

(** X19.  The pack of a push.  When the advertisement was read with a
    capability list, [determine_wants] gives a non-empty map and the
    client asks for report-status, the ids the pack is asked for are
    exactly the ids of the new refs that are not [ZERO_SHA] and that no
    advertised ref has.  After the update lines and the flush,
    [send_pack] writes the pack [generate_pack_contents] gives for the
    advertised ids and these; when there is none of these it writes no
    pack, returns the new refs and reads nothing after the
    advertisement. *)
Theorem push_pack (self : GitClient)
    (determine_wants : gmap string string -> gmap string string)
    (generate_pack_contents : list string -> list string -> list string)
    (progress : bool) (w w1 : world) (old_refs : gmap string string)
    (advertised requested : list string) :
  run _read_refs w = (w1, Ok (old_refs, Some advertised)) ->
  determine_wants old_refs ≠ ∅ ->
  heap w !! _send_capabilities self = Some requested ->
  mem "report-status" requested = true ->
  let new_refs := determine_wants old_refs in
  let refnames := elements (dom new_refs ∪ dom old_refs) in
  let have := filter (fun x => x ≠ Protocol.ZERO_SHA) (map_to_list old_refs).*2 in
  let want := pack_wants have new_refs refnames in
  let push := send_pack self determine_wants generate_pack_contents progress in
  (forall x, x ∈ want <->
             x ≠ Protocol.ZERO_SHA
             /\ (exists r, new_refs !! r = Some x)
             /\ (forall r, old_refs !! r ≠ Some x))
  /\ out (run push w).1
     = out w
       ++ map WPkt (update_lines (negotiated_send requested advertised) false
                      old_refs new_refs refnames)
       ++ WFlush :: match want with
                    | [] => []
                    | _ => [WPack (generate_pack_contents have want)]
                    end
  /\ (want = [] ->
      (run push w).2 = Ok new_refs /\ inp (run push w).1 = inp w1).
Proof.
  intros Hrefs Hwants Hreq Hrs new_refs refnames have want push.
  split; [apply pack_wants_spec|].
  unfold run in *.
  destruct (send_pack_steps self determine_wants generate_pack_contents progress
              w w1 old_refs advertised requested Hrefs Hwants Hreq Hrs)
    as (w3 & w4 & Hl & Hout3 & Hinp3 & -> & Hpush).
  unfold push. rewrite Hpush. fold new_refs refnames have want.
  destruct want as [|want0 want'] eqn:Ew.
  - cbn [fst snd out inp set_out]. rewrite Hout3, Hinp3, <- app_assoc. done.
  - split; [|done].
    rewrite (keeps_send_pack_response out) by done.
    cbn [out set_out]. rewrite Hout3, <- !app_assoc. done.
Qed.

Lemma push_pack_witness :
  run _read_refs (world0 push_server)
  = (world0 EmptyString,
     Ok ({[ "refs/heads/x" := id_a ]},
         Some ["report-status"; "side-band-64k"; "ofs-delta"]))
  /\ push_x {[ "refs/heads/x" := id_a ]} ≠ ∅
  /\ (let old_refs : gmap string string := {[ "refs/heads/x" := id_a ]} in
      let new_refs := push_x old_refs in
      let refnames := elements (dom new_refs ∪ dom old_refs) in
      let have := filter (fun x => x ≠ Protocol.ZERO_SHA) (map_to_list old_refs).*2 in
      let want := pack_wants have new_refs refnames in
      let push := send_pack client0 push_x objects_of false in
      (forall x, x ∈ want <->
                 x ≠ Protocol.ZERO_SHA
                 /\ (exists r, new_refs !! r = Some x)
                 /\ (forall r, old_refs !! r ≠ Some x))
      /\ out (run push (world0 push_server)).1
         = out (world0 push_server)
           ++ map WPkt (update_lines
                          (negotiated_send SEND_CAPABILITIES
                             ["report-status"; "side-band-64k"; "ofs-delta"])
                          false old_refs new_refs refnames)
           ++ WFlush :: match want with
                        | [] => []
                        | _ => [WPack (objects_of have want)]
                        end
      /\ (want = [] ->
          (run push (world0 push_server)).2 = Ok new_refs
          /\ inp (run push (world0 push_server)).1 = inp (world0 EmptyString))).
Proof.
  split; [vm_compute; reflexivity|].
  split; [vm_compute; discriminate|].
  apply (push_pack client0 push_x objects_of false (world0 push_server)
           (world0 EmptyString) {[ "refs/heads/x" := id_a ]}
           ["report-status"; "side-band-64k"; "ofs-delta"] SEND_CAPABILITIES).
  - vm_compute; reflexivity.
  - vm_compute; discriminate.
  - reflexivity.
  - reflexivity.
Defined.

(** ** The connection of a TCP client *)

Lemma last_default_cons {A : Type} (l : list A) : forall err e,
  default err (last (e :: l)) = default e (last l).
Proof.
  induction l as [|a l IH]; intros err e; [done|].
  rewrite last_cons_cons. by rewrite !IH.
Qed.

Lemma connect_loop_refused connects addrs : forall err closed,
  Forall (fun a => connects a <> None) addrs ->
  connect_loop connects addrs err closed
  = (None, default err (last (omap connects addrs)), closed ++ addrs).
Proof.
  induction addrs as [|a addrs IH]; intros err closed H.
  - cbn. by rewrite app_nil_r.
  - apply Forall_cons in H as [Ha H]. cbn [connect_loop omap].
    destruct (connects a) as [e|] eqn:E; [|congruence].
    rewrite IH by done. rewrite <- app_assoc. cbn [app].
    f_equal. f_equal. cbn [omap list_omap]. rewrite E.
    symmetry. apply last_default_cons.
Qed.

(** X20.  A TCP client connects to the first address that accepts the
    connection.  The sockets of the addresses tried before it have been
    closed, in order, and the addresses after it are not tried. *)
Theorem connect_first_reachable (host : option string)
    (connects : string -> option string) (before after : list string)
    (sockaddr : string) :
  Forall (fun a => connects a <> None) before ->
  connects sockaddr = None ->
  TCPGitClient_connect_socket host connects (before ++ sockaddr :: after)
  = (inr sockaddr, before).
Proof.
  intros Hb Hs. unfold TCPGitClient_connect_socket.
  assert (H : forall err closed,
    connect_loop connects (before ++ sockaddr :: after) err closed
    = (Some sockaddr, default err (last (omap connects before)), closed ++ before)).
  { induction before as [|a before IH]; intros err closed.
    - cbn. rewrite Hs. by rewrite app_nil_r.
    - apply Forall_cons in Hb as [Ha Hb]. cbn [app connect_loop].
      destruct (connects a) as [e|] eqn:E; [|congruence].
      rewrite (IH Hb). rewrite <- app_assoc. cbn [app]. f_equal. f_equal.
      cbn [omap list_omap]. rewrite E.
      symmetry. apply last_default_cons. }
  by rewrite H.
Qed.

Lemma connect_first_reachable_witness :
  Forall (fun a => first_refuses a <> None) [addr_v6]
  /\ first_refuses addr_v4 = None
  /\ TCPGitClient_connect_socket (Some "example.com") first_refuses
       ([addr_v6] ++ addr_v4 :: ["127.0.0.2:9418"])
     = (inr addr_v4, [addr_v6]).
Proof.
  split; [repeat constructor; discriminate|]. split; [reflexivity|].
  apply (connect_first_reachable (Some "example.com") first_refuses [addr_v6]
           ["127.0.0.2:9418"] addr_v4).
  - repeat constructor; discriminate.
  - reflexivity.
Defined.

(** X21.  When no address accepts the connection, the TCP client raises the
    error of the last address tried, having closed every socket; when
    the host has no address at all it raises "no address found for
    <host>". *)
Theorem connect_all_refused (host : option string)
    (connects : string -> option string) (sockaddrs : list string) :
  Forall (fun a => connects a <> None) sockaddrs ->
  TCPGitClient_connect_socket host connects sockaddrs
  = (inl (default ("no address found for " +:+ format_s host)
            (last (omap connects sockaddrs))),
     sockaddrs).
Proof.
  intros H. unfold TCPGitClient_connect_socket.
  by rewrite (connect_loop_refused _ _ _ [] H).
Qed.

Lemma connect_all_refused_witness :
  Forall (fun a => all_refuse a <> None) [addr_v6; addr_v4]
  /\ TCPGitClient_connect_socket (Some "example.com") all_refuse [addr_v6; addr_v4]
     = (inl (default ("no address found for " +:+ format_s (Some "example.com"))
               (last (omap all_refuse [addr_v6; addr_v4]))),
        [addr_v6; addr_v4]).
Proof.
  split; [repeat constructor; discriminate|].
  apply (connect_all_refused (Some "example.com") all_refuse [addr_v6; addr_v4]).
  repeat constructor; discriminate.
Defined.

(** ** The response to a push *)

Lemma parse_frames_pkt_line {St} (handle : option string -> St -> M St)
    n payload rest st :
  fits payload ->
  Protocol.parse_frames (S n) handle (Protocol.pkt_line payload +:+ rest) st
  = (st' ← handle (Some payload) st; Protocol.parse_frames n handle rest st').
Proof.
  intros H. unfold fits in H. unfold Protocol.pkt_line. cbv zeta.
  remember (String.length payload + 4) as k eqn:E.
  change (String (Protocol.hex_char (k / 4096 mod 16))
            (String (Protocol.hex_char (k / 256 mod 16))
               (String (Protocol.hex_char (k / 16 mod 16))
                  (String (Protocol.hex_char (k mod 16)) payload))) +:+ rest)
    with (String (Protocol.hex_char (k / 4096 mod 16))
            (String (Protocol.hex_char (k / 256 mod 16))
               (String (Protocol.hex_char (k / 16 mod 16))
                  (String (Protocol.hex_char (k mod 16)) (payload +:+ rest))))).
  cbn [Protocol.parse_frames]. rewrite hex4_chars by done.
  destruct k as [|k]; [lia|]. rewrite E.
  replace (Nat.ltb (String.length payload + 4) 4) with false
    by (symmetry; apply Nat.ltb_ge; lia).
  replace (String.length payload + 4 - 4) with (String.length payload) by lia.
  rewrite length_app.
  replace (Nat.leb _ _) with true by (symmetry; apply Nat.leb_le; lia).
  by rewrite take_app, drop_app.
Qed.

Lemma parse_frames_empty {St} (handle : option string -> St -> M St) n st :
  Protocol.parse_frames n handle EmptyString st = mret (EmptyString, st).
Proof. by destruct n. Qed.

Lemma parser_handle_packet_run pkt p w :
  parser_handle_packet pkt (Some p) w
  = match handle_packet pkt p with
    | Ok p' => (w, Ok (Some p'))
    | Raise e => (w, Raise e)
    end.
Proof.
  unfold parser_handle_packet, mbind, M_mbind, M_bind, lift.
  by destruct (handle_packet pkt p).
Qed.

(** The parser behind channel 1 takes the lines of a report and its
    flush out of the data and hands them to [handle_packet]. *)
Lemma parse_frames_lines lines : forall n p w,
  Forall fits lines -> length lines < n ->
  Protocol.parse_frames n parser_handle_packet
    (foldr (fun line acc => Protocol.pkt_line line +:+ acc)
           Protocol.flush_pkt lines) (Some p) w
  = match handle_packets (map Some lines ++ [None]) p with
    | Ok p' => (w, Ok (EmptyString, Some p'))
    | Raise e => (w, Raise e)
    end.
Proof.
  induction lines as [|line lines IH]; intros n p w Hfit Hn.
  - destruct n as [|n]; [simpl in Hn; lia|].
    cbn [foldr map app handle_packets].
    change (Protocol.parse_frames (S n) parser_handle_packet Protocol.flush_pkt
              (Some p))
      with (st' ← parser_handle_packet None (Some p);
            Protocol.parse_frames n parser_handle_packet EmptyString st').
    unfold mbind at 1, M_mbind at 1, M_bind at 1.
    rewrite parser_handle_packet_run.
    destruct (handle_packet None p) as [p'|e]; [|reflexivity].
    by rewrite parse_frames_empty.
  - destruct n as [|n]; [simpl in Hn; lia|].
    apply Forall_cons in Hfit as [Hl Hfit].
    cbn [foldr map app handle_packets].
    rewrite parse_frames_pkt_line by done.
    unfold mbind at 1, M_mbind at 1, M_bind at 1.
    rewrite parser_handle_packet_run.
    destruct (handle_packet (Some line) p) as [p'|e]; [|reflexivity].
    apply IH; [done|]. simpl in Hn. lia.
Qed.

Lemma length_pkt_line payload :
  String.length (Protocol.pkt_line payload) = String.length payload + 4.
Proof. unfold Protocol.pkt_line. cbn [String.length]. lia. Qed.

Lemma length_report_lines lines :
  4 * length lines + 4
  <= String.length (foldr (fun line acc => Protocol.pkt_line line +:+ acc)
                          Protocol.flush_pkt lines).
Proof.
  induction lines as [|line lines IH]; [done|].
  cbn [foldr length]. rewrite length_app, length_pkt_line. lia.
Qed.

Lemma fits_report_lines lines bound :
  String.length (foldr (fun line acc => Protocol.pkt_line line +:+ acc)
                       Protocol.flush_pkt lines) < bound ->
  Forall (fun line => String.length line + 4 < bound) lines.
Proof.
  induction lines as [|line lines IH]; intros H; [done|].
  cbn [foldr] in H. rewrite length_app, length_pkt_line in H.
  constructor; [lia|]. apply IH. lia.
Qed.

Lemma send_callbacks_read_nothing progress :
  forall ch cb p (st : string * option ReportStatusParser) w,
    (<[ 1 := Some (Protocol.PktLineParser_parse parser_handle_packet) ]>
       ({[ 2 := progress_callback progress ]}
          : gmap nat (option (string -> string * option ReportStatusParser
                              -> M (string * option ReportStatusParser)))))
      !! ch = Some (Some cb) ->
    String.length (inp (cb p st w).1) <= String.length (inp w).
Proof.
  intros ch cb p st w Hcb.
  destruct (decide (ch = 1)) as [->|H1].
  - rewrite lookup_insert_eq in Hcb. injection Hcb as <-.
    rewrite (keeps_PktLineParser_parse inp parser_handle_packet p st); [done|].
    intros. apply keeps_parser_handle_packet.
  - rewrite lookup_insert_ne in Hcb by done.
    apply lookup_singleton_Some in Hcb as [<- Hcb].
    rewrite (keeps_progress_callback inp progress cb p st); done.
Qed.

(** The response to a push whose report arrives in one side-band frame
    on channel 1. *)
Lemma send_pack_response_reported progress new_refs l negotiated first lines
    trailing w :
  heap w !! l = Some negotiated ->
  mem "report-status" negotiated = true ->
  mem "side-band-64k" negotiated = true ->
  inp w = side_band [(1, status_report first lines)] +:+ trailing ->
  fits (channel 1 (status_report first lines)) ->
  send_pack_response progress new_refs l w
  = match check (mkParser true (Some (Py.strip first))
                   (forallb starts_ok (map Py.strip lines))
                   (map Py.strip lines)) with
    | Raise e => (set_inp trailing w, Raise e)
    | Ok _ =>
        (set_inp EmptyString w,
         if Py.truthy trailing
         then Raise (SendPackError ("Unexpected response " +:+ Py.repr trailing))
         else Ok new_refs)
    end.
Proof.
  intros Hl Hrs Hsb Hinp Hfit.
  unfold send_pack_response.
  rewrite (bind_ok _ _ w w negotiated) by (unfold list_get; by rewrite Hl).
  rewrite Hrs, Hsb.
  set (cbs := <[ 1 := _ ]> _).
  set (p' := mkParser true (Some (Py.strip first))
               (forallb starts_ok (map Py.strip lines)) (map Py.strip lines)).
  assert (Hlen : String.length (status_report first lines) + 5
                 < 16 * 16 * 16 * 16).
  { unfold fits, channel in Hfit. cbn [String.length] in Hfit. lia. }
  assert (Hparse :
    Protocol.PktLineParser_parse parser_handle_packet
      (status_report first lines) (EmptyString, Some ReportStatusParser_init)
      (set_inp (Protocol.flush_pkt +:+ trailing) w)
    = (set_inp (Protocol.flush_pkt +:+ trailing) w, Ok (EmptyString, Some p'))).
  { unfold Protocol.PktLineParser_parse. cbn [fst snd].
    change (EmptyString +:+ status_report first lines) with (status_report first lines).
    unfold status_report in Hlen |- *.
    rewrite length_app, length_pkt_line in Hlen |- *.
    pose proof (length_report_lines lines) as Hll.
    destruct (String.length first + 4 + String.length _) as [|n] eqn:En; [lia|].
    rewrite parse_frames_pkt_line by (unfold fits; lia).
    rewrite (bind_ok _ _ _ _ _
               (eq_refl : parser_handle_packet (Some first)
                            (Some ReportStatusParser_init) _
                          = (_, Ok (Some (mkParser false (Some (Py.strip first))
                                            true []))))).
    rewrite parse_frames_lines.
    - by rewrite handle_packets_app, handle_packets_lines.
    - apply fits_report_lines. lia.
    - lia. }
  assert (Hread :
    _read_side_band64k_data cbs (EmptyString, Some ReportStatusParser_init) w
    = (set_inp trailing w, Ok (EmptyString, Some p'))).
  { transitivity
      (_read_side_band64k_data cbs (EmptyString, Some p')
         (set_inp (Protocol.flush_pkt +:+ trailing) w)).
    - apply (side_band_deliver cbs (send_callbacks_read_nothing progress)
               (EmptyString, Some ReportStatusParser_init) w 1
               (status_report first lines) (Protocol.flush_pkt +:+ trailing)
               (Protocol.PktLineParser_parse parser_handle_packet)
               (set_inp (Protocol.flush_pkt +:+ trailing) w)
               (EmptyString, Some p')).
      + rewrite Hinp. unfold side_band. cbn [foldr]. by rewrite app_assoc_str.
      + done.
      + lia.
      + apply lookup_insert_eq.
      + exact Hparse.
    - by rewrite (side_band_end cbs _ _ trailing). }
  rewrite (bind_ok _ _ _ _ _ (bind_ok _ _ _ _ _ Hread)).
  unfold mret at 1, M_mret at 1, M_ret at 1. cbn [snd lift].
  destruct (check p') as [[]|e]; [|reflexivity].
  unfold mbind, M_mbind, M_bind, lift, Protocol.read. cbn [inp set_inp].
  by destruct (Py.truthy trailing).
Qed.

(** X22.  The report of a push.  The pack is sent with report-status and
    side-band-64k negotiated, and the server answers with one side-band
    frame on channel 1 holding the status report, then a flush.  Then
    the report that is checked is the one the server sent: the first line
    is the pack status, the others the ref statuses.  [send_pack] raises
    what [check] raises for it; otherwise it returns the new refs when
    the stream ends there, and raises [SendPackError] naming the bytes
    that follow when it does not. *)
Theorem push_reported (self : GitClient)
    (determine_wants : gmap string string -> gmap string string)
    (generate_pack_contents : list string -> list string -> list string)
    (progress : bool) (w w1 : world) (old_refs : gmap string string)
    (advertised requested : list string) (first : string)
    (lines : list string) (trailing : string) :
  run _read_refs w = (w1, Ok (old_refs, Some advertised)) ->
  heap w !! _send_capabilities self = Some requested ->
  mem "report-status" requested = true ->
  mem "report-status" advertised = true ->
  mem "side-band-64k" requested = true ->
  pack_wants
    (filter (fun x => x ≠ Protocol.ZERO_SHA) (map_to_list old_refs).*2)
    (determine_wants old_refs)
    (elements (dom (determine_wants old_refs) ∪ dom old_refs)) <> [] ->
  inp w1 = side_band [(1, status_report first lines)] +:+ trailing ->
  fits (channel 1 (status_report first lines)) ->
  (run (send_pack self determine_wants generate_pack_contents progress) w).2
  = match check (mkParser true (Some (Py.strip first))
                   (forallb starts_ok (map Py.strip lines))
                   (map Py.strip lines)) with
    | Raise e => Raise e
    | Ok _ =>
        if Py.truthy trailing
        then Raise (SendPackError ("Unexpected response " +:+ Py.repr trailing))
        else Ok (determine_wants old_refs)
    end.
Proof.
  intros Hrefs Hreq Hrs Hadv Hsb Hwant Hinp Hfit. unfold run in *.
  assert (Hwants : determine_wants old_refs ≠ ∅).
  { intros E. apply Hwant.
    destruct (pack_wants _ _ _) as [|x xs] eqn:E'; [done|].
    assert (Hx : x ∈ x :: xs) by constructor.
    rewrite <- E' in Hx. apply pack_wants_spec in Hx as [_ [[r Hr] _]].
    by rewrite E, lookup_empty in Hr. }
  destruct (send_pack_steps self determine_wants generate_pack_contents progress
              w w1 old_refs advertised requested Hrefs Hwants Hreq Hrs)
    as (w3 & w4 & Hl & Hout3 & Hinp3 & -> & Hpush).
  rewrite Hpush.
  destruct (pack_wants _ _ _) as [|want0 want]; [done|].
  unfold negotiated_send in Hl. rewrite Hadv in Hl.
  rewrite (send_pack_response_reported progress _ _ requested first lines trailing);
    [|done|done|done| |done].
  - by destruct (check _) as [[]|e].
  - cbn [inp set_out]. by rewrite Hinp3.
Qed.

Lemma push_reported_witness :
  run _read_refs (world0 (push_server +:+ push_accepted))
  = (world0 push_accepted,
     Ok ({[ "refs/heads/x" := id_a ]},
         Some ["report-status"; "side-band-64k"; "ofs-delta"]))
  /\ pack_wants
       (filter (fun x => x ≠ Protocol.ZERO_SHA)
          (map_to_list ({[ "refs/heads/x" := id_a ]} : gmap string string)).*2)
       (push_x {[ "refs/heads/x" := id_a ]})
       (elements (dom (push_x {[ "refs/heads/x" := id_a ]})
                  ∪ dom ({[ "refs/heads/x" := id_a ]} : gmap string string)))
     <> []
  /\ (run (send_pack client0 push_x objects_of false)
        (world0 (push_server +:+ push_accepted))).2
     = match check (mkParser true (Some (Py.strip ("unpack ok" +:+ NL)))
                      (forallb starts_ok (map Py.strip ["ok refs/heads/x" +:+ NL]))
                      (map Py.strip ["ok refs/heads/x" +:+ NL])) with
       | Raise e => Raise e
       | Ok _ =>
           if Py.truthy EmptyString
           then Raise (SendPackError ("Unexpected response " +:+ Py.repr EmptyString))
           else Ok (push_x {[ "refs/heads/x" := id_a ]})
       end.
Proof.
  split; [vm_compute; reflexivity|].
  split; [vm_compute; discriminate|].
  apply (push_reported client0 push_x objects_of false
           (world0 (push_server +:+ push_accepted)) (world0 push_accepted)
           {[ "refs/heads/x" := id_a ]}
           ["report-status"; "side-band-64k"; "ofs-delta"] SEND_CAPABILITIES
           ("unpack ok" +:+ NL) ["ok refs/heads/x" +:+ NL] EmptyString).
  - vm_compute; reflexivity.
  - reflexivity.
  - reflexivity.
  - reflexivity.
  - reflexivity.
  - vm_compute; discriminate.
  - vm_compute; reflexivity.
  - fits_tac.
Defined.
